(** * SimpleMicroservices: the Person / Address / Organization / Course service

    A shallow embedding of [SimpleMicroservices/main.py] and of the pydantic
    models under [SimpleMicroservices/models/].

    - The four module-level dictionaries of [main.py] are insertion-ordered
      association lists ([dict]), gathered in one record [db].
    - Every endpoint is a computation in a small state-and-exception monad
      [M]: a [raise] keeps the state it was reached with, exactly as a Python
      exception does, so "the store is untouched on failure" is a theorem
      about where the endpoints write, not a property of the encoding.
    - [model_dump], [model_dump(exclude_unset=True)] and the validating
      constructors [XRead( **d )] go through untyped field dictionaries of
      [value]s, as the source does.
    - [uuid4()] and [datetime.utcnow()] are read from an environment [Env].
    - A [str] is held as the bytes of its UTF-8 encoding. What the libraries
      under the service compute from Unicode tables or from the URL
      standard ([str.lower()], the class [\d], [HttpUrl]) is left open, as
      the fields of [Library]: the properties hold whatever these are. *)

From Stdlib Require Import String Ascii List ZArith QArith Bool Lia DecimalString.
Import ListNotations.

Local Open Scope string_scope.
Local Open Scope Z_scope.
Local Open Scope list_scope.

Set Implicit Arguments.

(* ===================================================================== *)
(** ** Python values and dictionaries *)
(* ===================================================================== *)

Module Py.

(** Keys of a dictionary: a type with a boolean equality. *)
Class EqKey (K : Type) := {
keq : K -> K -> bool;
keq_spec : forall x y, reflect (x = y) (keq x y)
}.

#[export] Instance EqKey_string : EqKey string :=
{| keq := String.eqb; keq_spec := String.eqb_spec |}.

#[export] Instance EqKey_N : EqKey N :=
{| keq := N.eqb; keq_spec := N.eqb_spec |}.

Section Dict.
Context {K V : Type} `{EqKey K}.

(** A Python [dict]: keys in insertion order. *)
Definition dict := list (K * V).

Fixpoint dict_get (k : K) (d : dict) : option V :=
  match d with
  | [] => None
  | (k', v) :: d' => if keq k k' then Some v else dict_get k d'
  end.

(** [k in d] *)
Definition dict_mem (k : K) (d : dict) : bool :=
  match dict_get k d with Some _ => true | None => false end.

(** [d[k] = v]: an existing key keeps its position, a new key goes last. *)
Fixpoint dict_set (k : K) (v : V) (d : dict) : dict :=
  match d with
  | [] => [(k, v)]
  | (k', v') :: d' =>
      if keq k k' then (k', v) :: d' else (k', v') :: dict_set k v d'
  end.

(** [d.values()] and [d.keys()] *)
Definition dict_values (d : dict) : list V := map snd d.
Definition dict_keys (d : dict) : list K := map fst d.

(** [d.update(other)] *)
Definition dict_update (d other : dict) : dict :=
  fold_left (fun acc kv => dict_set (fst kv) (snd kv) acc) other d.

(** No key occurs twice: true of every dictionary built with [dict_set]. *)
Definition dict_wf (d : dict) : Prop := NoDup (dict_keys d).
End Dict.

Arguments dict : clear implicits.

(** Python truthiness of the values [or] is applied to in [main.py]. *)
Definition truthy_str (s : string) : bool :=
match s with EmptyString => false | _ => true end.

Definition truthy_int (z : Z) : bool := negb (z =? 0).

(** [x or y] for [x : Optional[str]] and [x : Optional[int]]. *)
Definition or_str (x : option string) (y : string) : string :=
match x with
| Some s => if truthy_str s then s else y
| None => y
end.

Definition or_int (x : option Z) (y : Z) : Z :=
match x with
| Some z => if truthy_int z then z else y
| None => y
end.

(** [str(n)] for an [int]. *)
Definition str_int (z : Z) : string := NilZero.string_of_int (Z.to_int z).

(** A byte that continues a UTF-8 sequence ([10xxxxxx]): every character is
    one byte that does not, followed by up to three that do. *)
Definition continues (b : ascii) : bool :=
let n := nat_of_ascii b in Nat.leb 128 n && Nat.leb n 191.

(** [len(s)]: the number of characters. *)
Fixpoint len (s : string) : nat :=
match s with
| EmptyString => O
| String b s' => if continues b then len s' else S (len s')
end.

(** [a in b] for strings: [a] occurs in [b] as a contiguous substring (of
    characters, hence of bytes). *)
Fixpoint str_in (a b : string) : bool :=
if String.prefix a b then true
else match b with
     | EmptyString => false
     | String _ b' => str_in a b'
     end.

End Py.
Import Py.

(* ===================================================================== *)
(** ** Regular expressions of the [StringConstraints] patterns *)
(* ===================================================================== *)

Module Re.

(** The star-free fragment the patterns of the models are written in. A
    class is a set of ASCII characters, given on the byte ([Chr]), or a set
    of characters of any length in bytes, given on the encoding ([Uni]). *)
Inductive regex : Type :=
| Eps
| Chr (p : ascii -> bool)
| Uni (p : string -> bool)
| Seq (a b : regex)
| Alt (a b : regex).

(** The bytes that continue the character begun before [s], and what
    follows them. *)
Fixpoint continuation (s : string) : string * string :=
match s with
| String b s' =>
    if continues b then let (c, r) := continuation s' in (String b c, r)
    else (EmptyString, s)
| EmptyString => (EmptyString, EmptyString)
end.

(** Backtracking matcher: [k] receives what is left of the input. *)
Fixpoint run (r : regex) (s : string) (k : string -> bool) : bool :=
match r with
| Eps => k s
| Chr p => match s with
           | String c s' => p c && k s'
           | EmptyString => false
           end
| Uni p => match s with
           | String b s' =>
               negb (continues b)
               && (let (c, r) := continuation s' in p (String b c) && k r)
           | EmptyString => false
           end
| Seq a b => run a s (fun s' => run b s' k)
| Alt a b => run a s k || run b s k
end.

Definition at_end (s : string) : bool :=
match s with EmptyString => true | _ => false end.

(** [^r$] *)
Definition fullmatch (r : regex) (s : string) : bool := run r s at_end.

(** [r?], [r{n}], [r{lo,hi}] and a literal word. *)
Definition opt (r : regex) : regex := Alt r Eps.

Fixpoint times (n : nat) (r : regex) : regex :=
match n with
| O => Eps
| S n' => Seq r (times n' r)
end.

Fixpoint upto (n : nat) (r : regex) : regex :=
match n with
| O => Eps
| S n' => opt (Seq r (upto n' r))
end.

Definition rep (lo hi : nat) (r : regex) : regex :=
Seq (times lo r) (upto (hi - lo) r).

Fixpoint lit (w : string) : regex :=
match w with
| EmptyString => Eps
| String c w' => Seq (Chr (Ascii.eqb c)) (lit w')
end.

(** [[A-Z]], and the digits 0 to 9, which are some of the digits of [\d]. *)
Definition upper (c : ascii) : bool :=
let n := nat_of_ascii c in Nat.leb 65 n && Nat.leb n 90.

Definition ascii_digit (c : ascii) : bool :=
let n := nat_of_ascii c in Nat.leb 48 n && Nat.leb n 57.

End Re.

(* ===================================================================== *)
(** ** What the libraries compute *)
(* ===================================================================== *)

(** Three functions of the libraries the service runs on are not spelled
    out: Python's [str.lower()], which folds every cased letter by the
    Unicode tables; the class [\d] of the patterns, which holds every
    Unicode decimal digit; and pydantic's [HttpUrl], which parses the URL.
    [decimal_digit] is given the encoding of one character, [HttpUrl] the
    text of the URL. One fact is assumed of them: 0 to 9 are decimal
    digits. *)
Class Library := {
  lower : string -> string;
  decimal_digit : string -> bool;
  HttpUrl : string -> bool;
  decimal_digit_ascii :
    forall c : ascii, Re.ascii_digit c = true -> decimal_digit (String c EmptyString) = true
}.

(* ===================================================================== *)
(** ** Field dictionaries and pydantic validation *)
(* ===================================================================== *)

Definition UUID := N.

(** A naive [datetime], as a count of microseconds. *)
Definition datetime := Z.

Record date := mk_date { date_year : Z; date_month : Z; date_day : Z }.

(** [Decimal] numbers are rationals; comparisons are numeric. *)
Definition Decimal := Q.

(** What [model_dump()] puts in a dictionary. *)
#[warnings="-register-all"]
Inductive value : Type :=
| VNone
| VStr (s : string)
| VInt (z : Z)
| VDecimal (q : Decimal)
| VUUID (u : UUID)
| VDatetime (t : datetime)
| VDate (d : date)
| VUrl (u : string)
| VList (l : list value)
| VDict (d : list (string * value)).

Definition fields := dict string value.

(** A field of an Update model: left out of the payload, or set by the
    caller (possibly to an explicit null). *)
Inductive field (T : Type) : Type :=
| Unset
| IsSet (v : T).
Arguments Unset {T}.
Arguments IsSet {T} v.

(** Reading the attribute of an Update model: an unset field holds its
    default, [None]. *)
Definition attr {T} (f : field (option T)) : option T :=
  match f with Unset => None | IsSet v => v end.

Definition is_set {T} (f : field T) : bool :=
  match f with Unset => false | IsSet _ => true end.

(** The field of a payload as it is dumped. *)
Definition dump_opt {T} (enc : T -> value) (o : option T) : value :=
  match o with Some x => enc x | None => VNone end.

Definition dump_field {T} (enc : T -> value) (f : field (option T)) : field value :=
  match f with Unset => Unset | IsSet o => IsSet (dump_opt enc o) end.

(** [model_dump(exclude_unset=True)]: the fields that were set, in the order
    the model declares them. *)
Fixpoint exclude_unset (fs : list (string * field value)) : fields :=
  match fs with
  | [] => []
  | (name, Unset) :: fs' => exclude_unset fs'
  | (name, IsSet v) :: fs' => (name, v) :: exclude_unset fs'
  end.

Module Pydantic.

(** *** Converters: the type of a field together with its constraints *)

Definition as_str (ok : string -> bool) (v : value) : option string :=
match v with VStr s => if ok s then Some s else None | _ => None end.

Definition as_int (ok : Z -> bool) (v : value) : option Z :=
match v with VInt z => if ok z then Some z else None | _ => None end.

Definition as_decimal (ok : Decimal -> bool) (v : value) : option Decimal :=
match v with VDecimal q => if ok q then Some q else None | _ => None end.

Definition as_uuid (v : value) : option UUID :=
match v with VUUID u => Some u | _ => None end.

Definition as_datetime (v : value) : option datetime :=
match v with VDatetime t => Some t | _ => None end.

Definition as_date (v : value) : option date :=
match v with VDate d => Some d | _ => None end.

Definition as_url (ok : string -> bool) (v : value) : option string :=
match v with VUrl u => if ok u then Some u else None | _ => None end.

Fixpoint all_some {T} (l : list (option T)) : option (list T) :=
match l with
| [] => Some []
| None :: _ => None
| Some x :: l' => match all_some l' with
                  | Some xs => Some (x :: xs)
                  | None => None
                  end
end.

Definition as_list {T} (conv : value -> option T) (v : value) : option (list T) :=
match v with VList l => all_some (map conv l) | _ => None end.

Definition as_model {T} (init : fields -> option T) (v : value) : option T :=
match v with VDict d => init d | _ => None end.

(** *** Field declarations *)

(** [name: T = Field(...)]: required. *)
Definition required {T} (d : fields) (name : string)
  (conv : value -> option T) : option T :=
match dict_get name d with
| Some v => conv v
| None => None
end.

(** [name: Optional[T] = Field(None)]. *)
Definition optional {T} (d : fields) (name : string)
  (conv : value -> option T) : option (option T) :=
match dict_get name d with
| Some VNone => Some None
| Some v => option_map Some (conv v)
| None => Some None
end.

(** [name: T = Field(default=...)] and [Field(default_factory=...)]. *)
Definition defaulted {T} (d : fields) (name : string)
  (conv : value -> option T) (default : T) : option T :=
match dict_get name d with
| Some v => conv v
| None => Some default
end.

(** *** Constraints *)

Definition any_str (s : string) : bool := true.

(** [min_length], [max_length]: bounds on the number of characters. *)
Definition min_length (n : nat) (s : string) : bool := Nat.leb n (len s).
Definition max_length (n : nat) (s : string) : bool := Nat.leb (len s) n.

(** [ge], [le] on integers *)
Definition ge (lo z : Z) : bool := lo <=? z.
Definition le (hi z : Z) : bool := z <=? hi.

(** [ge], [le], [decimal_places] on decimals *)
Definition dec_ge (lo : Z) (q : Decimal) : bool := Qle_bool (inject_Z lo) q.
Definition dec_le (hi : Z) (q : Decimal) : bool := Qle_bool q (inject_Z hi).
Definition decimal_places (n : nat) (q : Decimal) : bool :=
(Qnum q * 10 ^ Z.of_nat n) mod Z.pos (Qden q) =? 0.

(** A constraint on an [Optional] field binds only a value that is there. *)
Definition opt_ok {T} (ok : T -> bool) (o : option T) : bool :=
match o with Some x => ok x | None => true end.

End Pydantic.

(** Bind of the validation monad. *)
Notation "x <-? c ;; k" :=
  (match c with Some x => k | None => None end)
  (at level 61, c at next level, right associativity).

(** The services the models' default factories call while one record is
    constructed: one [uuid4()] and up to two [datetime.utcnow()] for the
    record itself, and one [uuid4()] for each embedded address that comes
    without an [id], named by the position of the address in its list. *)
Record Env := mk_env {
  uuid4 : UUID;
  utcnow_1 : datetime;
  utcnow_2 : datetime;
  uuid4_address : nat -> UUID
}.

(* ===================================================================== *)
(** ** models/address.py *)
(* ===================================================================== *)

(** Modelled from the spec: [models/address.py] is not part of the sources.
    An Address has the required strings [street], [city], [state],
    [postal_code] and [country] and an identifier (spec, Data Model);
    [main.py] reads [address.id] off the creation payload, and the embedded
    addresses of [models/organization.py] carry an [id], so the identifier
    belongs to [AddressBase]; a payload may leave it out, so it has a
    default factory, [uuid4], as the identifiers of the Read shapes have.
    The Read shape adds the two timestamps every create is said to generate
    (spec, External Interfaces); the Update shape has the five strings, all
    optional. No constraint on the strings is known, so none is imposed. *)
Module AddressBase.
Record t := mk {
  id : UUID;
  street : string;
  city : string;
  state : string;
  postal_code : string;
  country : string
}.

Definition model_dump (a : t) : fields :=
  [ ("id", VUUID (id a));
    ("street", VStr (street a));
    ("city", VStr (city a));
    ("state", VStr (state a));
    ("postal_code", VStr (postal_code a));
    ("country", VStr (country a)) ].

Import Pydantic.

(** [AddressBase( **d )], where [uuid4()] returns [new_id]. *)
Definition init (new_id : UUID) (d : fields) : option t :=
  id <-? defaulted d "id" as_uuid new_id ;;
  street <-? required d "street" (as_str any_str) ;;
  city <-? required d "city" (as_str any_str) ;;
  state <-? required d "state" (as_str any_str) ;;
  postal_code <-? required d "postal_code" (as_str any_str) ;;
  country <-? required d "country" (as_str any_str) ;;
  Some (mk id street city state postal_code country).

(** [List[AddressBase]], dumped and rebuilt: the address at position [k]
    is built with the [uuid4()] of that position. *)
Definition dump_addresses (l : list t) : value :=
  VList (map (fun a => VDict (model_dump a)) l).

Fixpoint as_models (e : Env) (k : nat) (l : list value) : list (option t) :=
  match l with
  | [] => []
  | v :: l' => as_model (init (uuid4_address e k)) v :: as_models e (S k) l'
  end.

Definition as_addresses (e : Env) (v : value) : option (list t) :=
  match v with VList l => all_some (as_models e 0 l) | _ => None end.

(** An [AddressBase] of an Update payload, with what its
    [model_fields_set] says of [id]: set when the client sent one; not set
    when the default factory drew it at parsing. The five strings are
    required, hence always set. *)
Record parsed := mk_parsed {
  instance : t;
  id_is_set : bool
}.

(** [model_dump(exclude_unset=True)] reaches into the embedded models: an
    [id] that was not set is left out. *)
Definition model_fields (a : parsed) : list (string * field value) :=
  [ ("id", if id_is_set a then IsSet (VUUID (id (instance a))) else Unset);
    ("street", IsSet (VStr (street (instance a))));
    ("city", IsSet (VStr (city (instance a))));
    ("state", IsSet (VStr (state (instance a))));
    ("postal_code", IsSet (VStr (postal_code (instance a))));
    ("country", IsSet (VStr (country (instance a)))) ].

Definition model_dump_exclude_unset (a : parsed) : fields :=
  exclude_unset (model_fields a).

Definition dump_parsed (l : list parsed) : value :=
  VList (map (fun a => VDict (model_dump_exclude_unset a)) l).

(** The address the Read constructor builds from that dump: the one that
    was sent, under a new identifier when none was sent. *)
Definition rebuilt (new_id : UUID) (a : parsed) : t :=
  if id_is_set a then instance a
  else mk new_id (street (instance a)) (city (instance a)) (state (instance a))
          (postal_code (instance a)) (country (instance a)).

Fixpoint rebuilt_from (e : Env) (k : nat) (l : list parsed) : list t :=
  match l with
  | [] => []
  | a :: l' => rebuilt (uuid4_address e k) a :: rebuilt_from e (S k) l'
  end.

Definition rebuilt_all (e : Env) (l : list parsed) : list t := rebuilt_from e 0 l.

(** The same, for the [addresses] field of an Update payload. *)
Definition rebuilt_field (e : Env) (f : field (option (list parsed)))
    : field (option (list t)) :=
  match f with
  | Unset => Unset
  | IsSet None => IsSet None
  | IsSet (Some l) => IsSet (Some (rebuilt_all e l))
  end.

(** Every address of the field came with its [id]. *)
Definition ids_sent (f : field (option (list parsed))) : bool :=
  match f with
  | IsSet (Some l) => forallb id_is_set l
  | _ => true
  end.
End AddressBase.

(** Modelled from the spec: the creation payload of an Address is an
    [AddressBase] (see above). *)
Module AddressCreate.
Definition t := AddressBase.t.
Definition id := AddressBase.id.
Definition model_dump := AddressBase.model_dump.
End AddressCreate.

(** Modelled from the spec: the Update shape of an Address (see above). *)
Module AddressUpdate.
Record t := mk {
  street : field (option string);
  city : field (option string);
  state : field (option string);
  postal_code : field (option string);
  country : field (option string)
}.

Definition model_fields (u : t) : list (string * field value) :=
  [ ("street", dump_field VStr (street u));
    ("city", dump_field VStr (city u));
    ("state", dump_field VStr (state u));
    ("postal_code", dump_field VStr (postal_code u));
    ("country", dump_field VStr (country u)) ].

Definition model_dump_exclude_unset (u : t) : fields :=
  exclude_unset (model_fields u).
End AddressUpdate.

(** Modelled from the spec: the Read shape of an Address (see above). *)
Module AddressRead.
Record t := mk {
  id : UUID;
  street : string;
  city : string;
  state : string;
  postal_code : string;
  country : string;
  created_at : datetime;
  updated_at : datetime
}.

Definition model_dump (a : t) : fields :=
  [ ("id", VUUID (id a));
    ("street", VStr (street a));
    ("city", VStr (city a));
    ("state", VStr (state a));
    ("postal_code", VStr (postal_code a));
    ("country", VStr (country a));
    ("created_at", VDatetime (created_at a));
    ("updated_at", VDatetime (updated_at a)) ].

Import Pydantic.

Definition init (e : Env) (d : fields) : option t :=
  id <-? defaulted d "id" as_uuid (uuid4 e) ;;
  street <-? required d "street" (as_str any_str) ;;
  city <-? required d "city" (as_str any_str) ;;
  state <-? required d "state" (as_str any_str) ;;
  postal_code <-? required d "postal_code" (as_str any_str) ;;
  country <-? required d "country" (as_str any_str) ;;
  created_at <-? defaulted d "created_at" as_datetime (utcnow_1 e) ;;
  updated_at <-? defaulted d "updated_at" as_datetime (utcnow_2 e) ;;
  Some (mk id street city state postal_code country created_at updated_at).
End AddressRead.

(* ===================================================================== *)
(** ** models/course.py *)
(* ===================================================================== *)

Module CourseTypes.
Import Re Pydantic.

Section WithLibrary.
Context {L : Library}.

(** [^[A-Z]{3,5}\d{4}[A-Z]?$], between 7 and 9 characters. *)
Definition course_code_pattern : regex :=
  Seq (rep 3 5 (Chr upper)) (Seq (times 4 (Uni decimal_digit)) (opt (Chr upper))).

Definition CourseCodeType (s : string) : bool :=
  fullmatch course_code_pattern s && min_length 7 s && max_length 9 s.

(** [^(Fall|Spring|Summer)$] *)
Definition semester_pattern : regex :=
  Alt (lit "Fall") (Alt (lit "Spring") (lit "Summer")).

Definition SemesterType (s : string) : bool := fullmatch semester_pattern s.

(** [^[A-Z]{3,5}$], between 3 and 5 characters. *)
Definition department_code_pattern : regex := rep 3 5 (Chr upper).

Definition DepartmentCodeType (s : string) : bool :=
  fullmatch department_code_pattern s && min_length 3 s && max_length 5 s.

(** The constraints of the remaining fields of [CourseBase]. *)
Definition title_ok (s : string) : bool := min_length 1 s && max_length 200 s.
Definition description_ok : string -> bool := max_length 2000.
Definition credits_ok (q : Decimal) : bool :=
  dec_ge 0 q && dec_le 10 q && decimal_places 1 q.
Definition year_ok (z : Z) : bool := ge 2020 z && le 2040 z.
Definition max_enrollment_ok (z : Z) : bool := ge 1 z && le 1000 z.
Definition location_ok : string -> bool := max_length 100.
Definition meeting_times_ok : string -> bool := max_length 200.
End WithLibrary.
End CourseTypes.

(** [CourseCreate] adds no field to [CourseBase]. *)
Module CourseCreate.
Record t := mk {
  course_code : string;
  title : string;
  description : option string;
  credits : Decimal;
  semester : string;
  year : Z;
  department_code : string;
  instructor_id : option UUID;
  max_enrollment : option Z;
  prerequisites : list string;
  location : option string;
  meeting_times : option string
}.

Definition model_dump (c : t) : fields :=
  [ ("course_code", VStr (course_code c));
    ("title", VStr (title c));
    ("description", dump_opt VStr (description c));
    ("credits", VDecimal (credits c));
    ("semester", VStr (semester c));
    ("year", VInt (year c));
    ("department_code", VStr (department_code c));
    ("instructor_id", dump_opt VUUID (instructor_id c));
    ("max_enrollment", dump_opt VInt (max_enrollment c));
    ("prerequisites", VList (map VStr (prerequisites c)));
    ("location", dump_opt VStr (location c));
    ("meeting_times", dump_opt VStr (meeting_times c)) ].

Import Pydantic CourseTypes.

Section WithLibrary.
Context {L : Library}.

(** What parsing the request body has checked. *)
Definition valid (c : t) : bool :=
  CourseCodeType (course_code c)
  && title_ok (title c)
  && opt_ok description_ok (description c)
  && credits_ok (credits c)
  && SemesterType (semester c)
  && year_ok (year c)
  && DepartmentCodeType (department_code c)
  && opt_ok max_enrollment_ok (max_enrollment c)
  && forallb CourseCodeType (prerequisites c)
  && opt_ok location_ok (location c)
  && opt_ok meeting_times_ok (meeting_times c).
End WithLibrary.
End CourseCreate.

Module CourseUpdate.
Record t := mk {
  course_code : field (option string);
  title : field (option string);
  description : field (option string);
  credits : field (option Decimal);
  semester : field (option string);
  year : field (option Z);
  department_code : field (option string);
  instructor_id : field (option UUID);
  max_enrollment : field (option Z);
  prerequisites : field (option (list string));
  location : field (option string);
  meeting_times : field (option string)
}.

Definition model_fields (u : t) : list (string * field value) :=
  [ ("course_code", dump_field VStr (course_code u));
    ("title", dump_field VStr (title u));
    ("description", dump_field VStr (description u));
    ("credits", dump_field VDecimal (credits u));
    ("semester", dump_field VStr (semester u));
    ("year", dump_field VInt (year u));
    ("department_code", dump_field VStr (department_code u));
    ("instructor_id", dump_field VUUID (instructor_id u));
    ("max_enrollment", dump_field VInt (max_enrollment u));
    ("prerequisites", dump_field (fun l => VList (map VStr l)) (prerequisites u));
    ("location", dump_field VStr (location u));
    ("meeting_times", dump_field VStr (meeting_times u)) ].

Definition model_dump_exclude_unset (u : t) : fields :=
  exclude_unset (model_fields u).

Import Pydantic CourseTypes.

Section WithLibrary.
Context {L : Library}.

(** What parsing the request body has checked: every value that is not
    null obeys the constraint of its field. *)
Definition valid (u : t) : bool :=
  opt_ok CourseCodeType (attr (course_code u))
  && opt_ok title_ok (attr (title u))
  && opt_ok description_ok (attr (description u))
  && opt_ok credits_ok (attr (credits u))
  && opt_ok SemesterType (attr (semester u))
  && opt_ok year_ok (attr (year u))
  && opt_ok DepartmentCodeType (attr (department_code u))
  && opt_ok max_enrollment_ok (attr (max_enrollment u))
  && opt_ok (forallb CourseCodeType) (attr (prerequisites u))
  && opt_ok location_ok (attr (location u))
  && opt_ok meeting_times_ok (attr (meeting_times u)).
End WithLibrary.
End CourseUpdate.

Module CourseRead.
Record t := mk {
  course_code : string;
  title : string;
  description : option string;
  credits : Decimal;
  semester : string;
  year : Z;
  department_code : string;
  instructor_id : option UUID;
  max_enrollment : option Z;
  prerequisites : list string;
  location : option string;
  meeting_times : option string;
  id : UUID;
  created_at : datetime;
  updated_at : datetime;
  current_enrollment : Z
}.

Definition model_dump (c : t) : fields :=
  [ ("course_code", VStr (course_code c));
    ("title", VStr (title c));
    ("description", dump_opt VStr (description c));
    ("credits", VDecimal (credits c));
    ("semester", VStr (semester c));
    ("year", VInt (year c));
    ("department_code", VStr (department_code c));
    ("instructor_id", dump_opt VUUID (instructor_id c));
    ("max_enrollment", dump_opt VInt (max_enrollment c));
    ("prerequisites", VList (map VStr (prerequisites c)));
    ("location", dump_opt VStr (location c));
    ("meeting_times", dump_opt VStr (meeting_times c));
    ("id", VUUID (id c));
    ("created_at", VDatetime (created_at c));
    ("updated_at", VDatetime (updated_at c));
    ("current_enrollment", VInt (current_enrollment c)) ].

Import Pydantic CourseTypes.

Section WithLibrary.
Context {L : Library}.

(** [CourseRead( **d )] *)
Definition init (e : Env) (d : fields) : option t :=
  course_code <-? required d "course_code" (as_str CourseCodeType) ;;
  title <-? required d "title" (as_str title_ok) ;;
  description <-? optional d "description" (as_str description_ok) ;;
  credits <-? required d "credits" (as_decimal credits_ok) ;;
  semester <-? required d "semester" (as_str SemesterType) ;;
  year <-? required d "year" (as_int year_ok) ;;
  department_code <-? required d "department_code" (as_str DepartmentCodeType) ;;
  instructor_id <-? optional d "instructor_id" as_uuid ;;
  max_enrollment <-? optional d "max_enrollment" (as_int max_enrollment_ok) ;;
  prerequisites <-? defaulted d "prerequisites" (as_list (as_str CourseCodeType)) [] ;;
  location <-? optional d "location" (as_str location_ok) ;;
  meeting_times <-? optional d "meeting_times" (as_str meeting_times_ok) ;;
  id <-? defaulted d "id" as_uuid (uuid4 e) ;;
  created_at <-? defaulted d "created_at" as_datetime (utcnow_1 e) ;;
  updated_at <-? defaulted d "updated_at" as_datetime (utcnow_2 e) ;;
  current_enrollment <-? defaulted d "current_enrollment" (as_int (ge 0)) 0 ;;
  Some (mk course_code title description credits semester year department_code
           instructor_id max_enrollment prerequisites location meeting_times
           id created_at updated_at current_enrollment).

(** The constraints every instance of [CourseRead] obeys. *)
Definition valid (c : t) : bool :=
  CourseCodeType (course_code c)
  && title_ok (title c)
  && opt_ok description_ok (description c)
  && credits_ok (credits c)
  && SemesterType (semester c)
  && year_ok (year c)
  && DepartmentCodeType (department_code c)
  && opt_ok max_enrollment_ok (max_enrollment c)
  && forallb CourseCodeType (prerequisites c)
  && opt_ok location_ok (location c)
  && opt_ok meeting_times_ok (meeting_times c)
  && ge 0 (current_enrollment c).
End WithLibrary.
End CourseRead.

(* ===================================================================== *)
(** ** models/organization.py *)
(* ===================================================================== *)

Module OrganizationTypes.
Import Re Pydantic.

(** [^(university|company|nonprofit|government|startup|research)$] *)
Definition org_type_pattern : regex :=
  Alt (lit "university") (Alt (lit "company") (Alt (lit "nonprofit")
    (Alt (lit "government") (Alt (lit "startup") (lit "research"))))).

Definition OrgTypeType (s : string) : bool := fullmatch org_type_pattern s.

Definition name_ok (s : string) : bool := min_length 1 s && max_length 200 s.
Definition description_ok : string -> bool := max_length 1000.
Definition employee_count_ok : Z -> bool := ge 0.
Definition founded_year_ok (z : Z) : bool := ge 1000 z && le 2030 z.
End OrganizationTypes.

(** [OrganizationCreate] adds no field to [OrganizationBase]. *)
Module OrganizationCreate.
Record t := mk {
  name : string;
  org_type : string;
  website : option string;
  description : option string;
  contact_person_id : option UUID;
  employee_count : option Z;
  founded_year : option Z;
  addresses : list AddressBase.t
}.

Import Pydantic OrganizationTypes.

Definition model_dump (o : t) : fields :=
  [ ("name", VStr (name o));
    ("org_type", VStr (org_type o));
    ("website", dump_opt VUrl (website o));
    ("description", dump_opt VStr (description o));
    ("contact_person_id", dump_opt VUUID (contact_person_id o));
    ("employee_count", dump_opt VInt (employee_count o));
    ("founded_year", dump_opt VInt (founded_year o));
    ("addresses", AddressBase.dump_addresses (addresses o)) ].

Section WithLibrary.
Context {L : Library}.

(** What parsing the request body has checked. *)
Definition valid (o : t) : bool :=
  name_ok (name o)
  && OrgTypeType (org_type o)
  && opt_ok HttpUrl (website o)
  && opt_ok description_ok (description o)
  && opt_ok employee_count_ok (employee_count o)
  && opt_ok founded_year_ok (founded_year o).
End WithLibrary.
End OrganizationCreate.

Module OrganizationUpdate.
Record t := mk {
  name : field (option string);
  org_type : field (option string);
  website : field (option string);
  description : field (option string);
  contact_person_id : field (option UUID);
  employee_count : field (option Z);
  founded_year : field (option Z);
  addresses : field (option (list AddressBase.parsed))
}.

Import Pydantic OrganizationTypes.

Definition model_fields (u : t) : list (string * field value) :=
  [ ("name", dump_field VStr (name u));
    ("org_type", dump_field VStr (org_type u));
    ("website", dump_field VUrl (website u));
    ("description", dump_field VStr (description u));
    ("contact_person_id", dump_field VUUID (contact_person_id u));
    ("employee_count", dump_field VInt (employee_count u));
    ("founded_year", dump_field VInt (founded_year u));
    ("addresses", dump_field AddressBase.dump_parsed (addresses u)) ].

Definition model_dump_exclude_unset (u : t) : fields :=
  exclude_unset (model_fields u).
End OrganizationUpdate.

Module OrganizationRead.
Record t := mk {
  name : string;
  org_type : string;
  website : option string;
  description : option string;
  contact_person_id : option UUID;
  employee_count : option Z;
  founded_year : option Z;
  addresses : list AddressBase.t;
  id : UUID;
  created_at : datetime;
  updated_at : datetime
}.

Import Pydantic OrganizationTypes.

Definition model_dump (o : t) : fields :=
  [ ("name", VStr (name o));
    ("org_type", VStr (org_type o));
    ("website", dump_opt VUrl (website o));
    ("description", dump_opt VStr (description o));
    ("contact_person_id", dump_opt VUUID (contact_person_id o));
    ("employee_count", dump_opt VInt (employee_count o));
    ("founded_year", dump_opt VInt (founded_year o));
    ("addresses", AddressBase.dump_addresses (addresses o));
    ("id", VUUID (id o));
    ("created_at", VDatetime (created_at o));
    ("updated_at", VDatetime (updated_at o)) ].

Section WithLibrary.
Context {L : Library}.

(** [OrganizationRead( **d )]. The dictionaries of the endpoints hold the
    [Url] of a model under [website], which is validated again. *)
Definition init (e : Env) (d : fields) : option t :=
  name <-? required d "name" (as_str name_ok) ;;
  org_type <-? required d "org_type" (as_str OrgTypeType) ;;
  website <-? optional d "website" (as_url HttpUrl) ;;
  description <-? optional d "description" (as_str description_ok) ;;
  contact_person_id <-? optional d "contact_person_id" as_uuid ;;
  employee_count <-? optional d "employee_count" (as_int employee_count_ok) ;;
  founded_year <-? optional d "founded_year" (as_int founded_year_ok) ;;
  addresses <-? defaulted d "addresses" (AddressBase.as_addresses e) [] ;;
  id <-? defaulted d "id" as_uuid (uuid4 e) ;;
  created_at <-? defaulted d "created_at" as_datetime (utcnow_1 e) ;;
  updated_at <-? defaulted d "updated_at" as_datetime (utcnow_2 e) ;;
  Some (mk name org_type website description contact_person_id employee_count
           founded_year addresses id created_at updated_at).

(** The constraints every instance of [OrganizationRead] obeys. *)
Definition valid (o : t) : bool :=
  name_ok (name o)
  && OrgTypeType (org_type o)
  && opt_ok HttpUrl (website o)
  && opt_ok description_ok (description o)
  && opt_ok employee_count_ok (employee_count o)
  && opt_ok founded_year_ok (founded_year o).
End WithLibrary.
End OrganizationRead.

(* ===================================================================== *)
(** ** models/person.py *)
(* ===================================================================== *)

(** Modelled from the spec: [models/person.py] is not part of the sources.
    A Person has [uni], [first_name], [last_name], [email], [phone],
    [birth_date] and an embedded ordered list of addresses (spec, Data
    Model). [main.py] compares [str(p.birth_date)] and [p.phone] with the
    filter strings, which is meaningful whether or not the value is there,
    so these two are [Optional]; the other strings are required. The Read
    shape adds the identifier and the two timestamps every create is said to
    generate (spec, External Interfaces), as the Read shapes of
    [models/organization.py] and [models/course.py] do; the Update shape has
    the seven Person fields, all optional; the addresses it embeds are
    [AddressBase] models, as those of [models/organization.py] are. No
    constraint on the values is known, so none is imposed. *)
Module PersonTypes.
(** [str(d)] for a [date]: [YYYY-MM-DD]. *)
Fixpoint zfill (width : nat) (s : string) : string :=
  match width with
  | O => s
  | S w => if Nat.ltb (String.length s) (S w) then zfill w ("0" ++ s) else s
  end.

Definition str_date (d : date) : string :=
  zfill 4 (str_int (date_year d)) ++ "-" ++ zfill 2 (str_int (date_month d))
    ++ "-" ++ zfill 2 (str_int (date_day d)).

(** [str(x)] for [x : Optional[date]]. *)
Definition str_opt_date (o : option date) : string :=
  match o with Some d => str_date d | None => "None" end.
End PersonTypes.

(** Modelled from the spec: the creation payload of a Person (see above). *)
Module PersonCreate.
Record t := mk {
  uni : string;
  first_name : string;
  last_name : string;
  email : string;
  phone : option string;
  birth_date : option date;
  addresses : list AddressBase.t
}.

Definition model_dump (p : t) : fields :=
  [ ("uni", VStr (uni p));
    ("first_name", VStr (first_name p));
    ("last_name", VStr (last_name p));
    ("email", VStr (email p));
    ("phone", dump_opt VStr (phone p));
    ("birth_date", dump_opt VDate (birth_date p));
    ("addresses", AddressBase.dump_addresses (addresses p)) ].
End PersonCreate.

(** Modelled from the spec: the Update shape of a Person (see above). *)
Module PersonUpdate.
Record t := mk {
  uni : field (option string);
  first_name : field (option string);
  last_name : field (option string);
  email : field (option string);
  phone : field (option string);
  birth_date : field (option date);
  addresses : field (option (list AddressBase.parsed))
}.

Definition model_fields (u : t) : list (string * field value) :=
  [ ("uni", dump_field VStr (uni u));
    ("first_name", dump_field VStr (first_name u));
    ("last_name", dump_field VStr (last_name u));
    ("email", dump_field VStr (email u));
    ("phone", dump_field VStr (phone u));
    ("birth_date", dump_field VDate (birth_date u));
    ("addresses", dump_field AddressBase.dump_parsed (addresses u)) ].

Definition model_dump_exclude_unset (u : t) : fields :=
  exclude_unset (model_fields u).
End PersonUpdate.

(** Modelled from the spec: the Read shape of a Person (see above). *)
Module PersonRead.
Record t := mk {
  uni : string;
  first_name : string;
  last_name : string;
  email : string;
  phone : option string;
  birth_date : option date;
  addresses : list AddressBase.t;
  id : UUID;
  created_at : datetime;
  updated_at : datetime
}.

Import Pydantic.

Definition model_dump (p : t) : fields :=
  [ ("uni", VStr (uni p));
    ("first_name", VStr (first_name p));
    ("last_name", VStr (last_name p));
    ("email", VStr (email p));
    ("phone", dump_opt VStr (phone p));
    ("birth_date", dump_opt VDate (birth_date p));
    ("addresses", AddressBase.dump_addresses (addresses p));
    ("id", VUUID (id p));
    ("created_at", VDatetime (created_at p));
    ("updated_at", VDatetime (updated_at p)) ].

Definition init (e : Env) (d : fields) : option t :=
  uni <-? required d "uni" (as_str any_str) ;;
  first_name <-? required d "first_name" (as_str any_str) ;;
  last_name <-? required d "last_name" (as_str any_str) ;;
  email <-? required d "email" (as_str any_str) ;;
  phone <-? optional d "phone" (as_str any_str) ;;
  birth_date <-? optional d "birth_date" as_date ;;
  addresses <-? defaulted d "addresses" (AddressBase.as_addresses e) [] ;;
  id <-? defaulted d "id" as_uuid (uuid4 e) ;;
  created_at <-? defaulted d "created_at" as_datetime (utcnow_1 e) ;;
  updated_at <-? defaulted d "updated_at" as_datetime (utcnow_2 e) ;;
  Some (mk uni first_name last_name email phone birth_date addresses
           id created_at updated_at).
End PersonRead.

(* ===================================================================== *)
(** ** main.py: the stores and the monad of the endpoints *)
(* ===================================================================== *)

(** The four module-level dictionaries. *)
Record db := mk_db {
  persons : dict UUID PersonRead.t;
  addresses : dict UUID AddressRead.t;
  organizations : dict UUID OrganizationRead.t;
  courses : dict UUID CourseRead.t
}.

Definition empty_db : db := mk_db [] [] [] [].

Inductive exn : Type :=
| HTTPException (status_code : Z) (detail : string)
| ValidationError
| KeyError.

Inductive result (A : Type) : Type :=
| Ok (a : A)
| Raise (e : exn).
Arguments Ok {A} a.
Arguments Raise {A} e.

(** An endpoint: reads and writes the stores, returns or raises. *)
Definition M (A : Type) : Type := db -> result A * db.

Definition ret {A} (a : A) : M A := fun s => (Ok a, s).

Definition raise {A} (e : exn) : M A := fun s => (Raise e, s).

Definition bind {A B} (m : M A) (k : A -> M B) : M B :=
  fun s => match m s with
           | (Ok a, s') => k a s'
           | (Raise e, s') => (Raise e, s')
           end.

Declare Scope py_scope.
Delimit Scope py_scope with py.
Notation "x <- c ;; k" := (bind c (fun x => k))
  (at level 100, c at next level, right associativity) : py_scope.
Notation "c ;;; k" := (bind c (fun _ => k))
  (at level 100, right associativity) : py_scope.
Local Open Scope py_scope.

(** One of the four dictionaries, as a part of [db]. *)
Record store (V : Type) := mk_store {
  sel : db -> dict UUID V;
  upd : dict UUID V -> db -> db
}.

Definition persons_ : store PersonRead.t :=
  mk_store persons
    (fun d s => mk_db d (addresses s) (organizations s) (courses s)).
Definition addresses_ : store AddressRead.t :=
  mk_store addresses
    (fun d s => mk_db (persons s) d (organizations s) (courses s)).
Definition organizations_ : store OrganizationRead.t :=
  mk_store organizations
    (fun d s => mk_db (persons s) (addresses s) d (courses s)).
Definition courses_ : store CourseRead.t :=
  mk_store courses
    (fun d s => mk_db (persons s) (addresses s) (organizations s) d).

Section StoreOps.
Context {V : Type} (S : store V).

(** [k in store] *)
Definition contains (k : UUID) : M bool :=
  fun s => (Ok (dict_mem k (sel S s)), s).

(** [store[k]] *)
Definition getitem (k : UUID) : M V :=
  fun s => match dict_get k (sel S s) with
           | Some v => (Ok v, s)
           | None => (Raise KeyError, s)
           end.

(** [store[k] = v] *)
Definition setitem (k : UUID) (v : V) : M unit :=
  fun s => (Ok tt, upd S (dict_set k v (sel S s)) s).

(** [list(store.values())] *)
Definition values : M (list V) :=
  fun s => (Ok (dict_values (sel S s)), s).
End StoreOps.

(** A model constructor that rejects its input raises. *)
Definition construct {A} (o : option A) : M A :=
  match o with
  | Some a => ret a
  | None => raise ValidationError
  end.

(** [if param is not None: results = [x for x in results if test]] *)
Definition where_ {A P} (param : option P) (test : P -> A -> bool)
    (results : list A) : list A :=
  match param with
  | Some p => filter (test p) results
  | None => results
  end.

(** [bool(l)] for a list. *)
Definition nonempty {A} (l : list A) : bool :=
  match l with [] => false | _ => true end.

(** [x == y] where [x] may be [None] and [y] is not. *)
Definition opt_eqb {T} (eqb : T -> T -> bool) (x : option T) (y : T) : bool :=
  match x with Some a => eqb a y | None => false end.

Section Endpoints.
Context {L : Library}.

(* --------------------------------------------------------------------- *)
(** *** Address endpoints *)
(* --------------------------------------------------------------------- *)

Definition create_address (e : Env) (address : AddressCreate.t) : M AddressRead.t :=
  present <- contains addresses_ (AddressCreate.id address) ;;
  if present then
    raise (HTTPException 400 "Address with this ID already exists")
  else
    r <- construct (AddressRead.init e (AddressCreate.model_dump address)) ;;
    setitem addresses_ (AddressCreate.id address) r ;;;
    getitem addresses_ (AddressCreate.id address).

Definition list_addresses (street city state postal_code country : option string)
    : M (list AddressRead.t) :=
  results <- values addresses_ ;;
  let results := where_ street (fun street a => AddressRead.street a =? street)%string results in
  let results := where_ city (fun city a => AddressRead.city a =? city)%string results in
  let results := where_ state (fun state a => AddressRead.state a =? state)%string results in
  let results := where_ postal_code
                   (fun postal_code a => AddressRead.postal_code a =? postal_code)%string results in
  let results := where_ country (fun country a => AddressRead.country a =? country)%string results in
  ret results.

Definition get_address (address_id : UUID) : M AddressRead.t :=
  present <- contains addresses_ address_id ;;
  if negb present then raise (HTTPException 404 "Address not found")
  else getitem addresses_ address_id.

Definition update_address (e : Env) (address_id : UUID) (update : AddressUpdate.t)
    : M AddressRead.t :=
  present <- contains addresses_ address_id ;;
  if negb present then raise (HTTPException 404 "Address not found")
  else
    current <- getitem addresses_ address_id ;;
    let stored := AddressRead.model_dump current in
    let stored := dict_update stored (AddressUpdate.model_dump_exclude_unset update) in
    r <- construct (AddressRead.init e stored) ;;
    setitem addresses_ address_id r ;;;
    getitem addresses_ address_id.

(* --------------------------------------------------------------------- *)
(** *** Person endpoints *)
(* --------------------------------------------------------------------- *)

Definition create_person (e : Env) (person : PersonCreate.t) : M PersonRead.t :=
  person_read <- construct (PersonRead.init e (PersonCreate.model_dump person)) ;;
  setitem persons_ (PersonRead.id person_read) person_read ;;;
  ret person_read.

(** [any(addr.city == city for addr in addresses)] *)
Definition any_city (city : string) (l : list AddressBase.t) : bool :=
  existsb (fun addr => AddressBase.city addr =? city)%string l.

Definition any_country (country : string) (l : list AddressBase.t) : bool :=
  existsb (fun addr => AddressBase.country addr =? country)%string l.

Definition list_persons
    (uni first_name last_name email phone birth_date city country : option string)
    : M (list PersonRead.t) :=
  results <- values persons_ ;;
  let results := where_ uni (fun uni p => PersonRead.uni p =? uni)%string results in
  let results := where_ first_name
                   (fun first_name p => PersonRead.first_name p =? first_name)%string results in
  let results := where_ last_name
                   (fun last_name p => PersonRead.last_name p =? last_name)%string results in
  let results := where_ email (fun email p => PersonRead.email p =? email)%string results in
  let results := where_ phone
                   (fun phone p => opt_eqb String.eqb (PersonRead.phone p) phone) results in
  let results := where_ birth_date
                   (fun birth_date p =>
                      PersonTypes.str_opt_date (PersonRead.birth_date p) =? birth_date)%string
                   results in
  let results := where_ city (fun city p => any_city city (PersonRead.addresses p)) results in
  let results := where_ country
                   (fun country p => any_country country (PersonRead.addresses p)) results in
  ret results.

Definition get_person (person_id : UUID) : M PersonRead.t :=
  present <- contains persons_ person_id ;;
  if negb present then raise (HTTPException 404 "Person not found")
  else getitem persons_ person_id.

Definition update_person (e : Env) (person_id : UUID) (update : PersonUpdate.t)
    : M PersonRead.t :=
  present <- contains persons_ person_id ;;
  if negb present then raise (HTTPException 404 "Person not found")
  else
    current <- getitem persons_ person_id ;;
    let stored := PersonRead.model_dump current in
    let stored := dict_update stored (PersonUpdate.model_dump_exclude_unset update) in
    r <- construct (PersonRead.init e stored) ;;
    setitem persons_ person_id r ;;;
    getitem persons_ person_id.

(* --------------------------------------------------------------------- *)
(** *** Organization endpoints *)
(* --------------------------------------------------------------------- *)

Definition create_organization (e : Env) (organization : OrganizationCreate.t)
    : M OrganizationRead.t :=
  organization_read <-
    construct (OrganizationRead.init e (OrganizationCreate.model_dump organization)) ;;
  setitem organizations_ (OrganizationRead.id organization_read) organization_read ;;;
  ret organization_read.

Definition list_organizations (name org_type : option string) (founded_year : option Z)
    (city country : option string) (contact_person_id : option UUID)
    : M (list OrganizationRead.t) :=
  results <- values organizations_ ;;
  let results := where_ name
                   (fun name o => str_in (lower name) (lower (OrganizationRead.name o)))
                   results in
  let results := where_ org_type
                   (fun org_type o => OrganizationRead.org_type o =? org_type)%string results in
  let results := where_ founded_year
                   (fun founded_year o =>
                      opt_eqb Z.eqb (OrganizationRead.founded_year o) founded_year) results in
  let results := where_ contact_person_id
                   (fun contact_person_id o =>
                      opt_eqb N.eqb (OrganizationRead.contact_person_id o) contact_person_id)
                   results in
  let results := where_ city
                   (fun city o => any_city city (OrganizationRead.addresses o)) results in
  let results := where_ country
                   (fun country o => any_country country (OrganizationRead.addresses o))
                   results in
  ret results.

Definition get_organization (organization_id : UUID) : M OrganizationRead.t :=
  present <- contains organizations_ organization_id ;;
  if negb present then raise (HTTPException 404 "Organization not found")
  else getitem organizations_ organization_id.

Definition update_organization (e : Env) (organization_id : UUID)
    (update : OrganizationUpdate.t) : M OrganizationRead.t :=
  present <- contains organizations_ organization_id ;;
  if negb present then raise (HTTPException 404 "Organization not found")
  else
    current <- getitem organizations_ organization_id ;;
    let stored := OrganizationRead.model_dump current in
    let stored := dict_update stored (OrganizationUpdate.model_dump_exclude_unset update) in
    r <- construct (OrganizationRead.init e stored) ;;
    setitem organizations_ organization_id r ;;;
    getitem organizations_ organization_id.

(* --------------------------------------------------------------------- *)
(** *** Course endpoints *)
(* --------------------------------------------------------------------- *)

(** [c.course_code == code and c.semester == semester and c.year == year] *)
Definition same_offering (code semester : string) (year : Z) (c : CourseRead.t) : bool :=
  (CourseRead.course_code c =? code)%string
  && (CourseRead.semester c =? semester)%string
  && (CourseRead.year c =? year).

Definition already_exists (code semester : string) (year : Z) : exn :=
  HTTPException 400
    ("Course " ++ code ++ " already exists for " ++ semester ++ " " ++ str_int year).

Definition create_course (e : Env) (course : CourseCreate.t) : M CourseRead.t :=
  all <- values courses_ ;;
  let existing :=
    filter (same_offering (CourseCreate.course_code course)
                          (CourseCreate.semester course)
                          (CourseCreate.year course)) all in
  if nonempty existing then
    raise (already_exists (CourseCreate.course_code course)
                          (CourseCreate.semester course)
                          (CourseCreate.year course))
  else
    course_read <- construct (CourseRead.init e (CourseCreate.model_dump course)) ;;
    setitem courses_ (CourseRead.id course_read) course_read ;;;
    ret course_read.

Definition list_courses (course_code title department_code semester : option string)
    (year : option Z) (instructor_id : option UUID)
    (credits min_credits max_credits : option Decimal) : M (list CourseRead.t) :=
  results <- values courses_ ;;
  let results := where_ course_code
                   (fun course_code c => CourseRead.course_code c =? course_code)%string
                   results in
  let results := where_ title
                   (fun title c => str_in (lower title) (lower (CourseRead.title c)))
                   results in
  let results := where_ department_code
                   (fun department_code c =>
                      CourseRead.department_code c =? department_code)%string results in
  let results := where_ semester
                   (fun semester c => CourseRead.semester c =? semester)%string results in
  let results := where_ year (fun year c => CourseRead.year c =? year) results in
  let results := where_ instructor_id
                   (fun instructor_id c =>
                      opt_eqb N.eqb (CourseRead.instructor_id c) instructor_id) results in
  let results := where_ credits
                   (fun credits c => Qeq_bool (CourseRead.credits c) credits) results in
  let results := where_ min_credits
                   (fun min_credits c => Qle_bool min_credits (CourseRead.credits c))
                   results in
  let results := where_ max_credits
                   (fun max_credits c => Qle_bool (CourseRead.credits c) max_credits)
                   results in
  ret results.

Definition get_course (course_id : UUID) : M CourseRead.t :=
  present <- contains courses_ course_id ;;
  if negb present then raise (HTTPException 404 "Course not found")
  else getitem courses_ course_id.

Definition update_course (e : Env) (course_id : UUID) (update : CourseUpdate.t)
    : M CourseRead.t :=
  present <- contains courses_ course_id ;;
  if negb present then raise (HTTPException 404 "Course not found")
  else
    (* If updating course_code, semester, or year, check for conflicts *)
    (if existsb (fun field => dict_mem field (CourseUpdate.model_dump_exclude_unset update))
                ["course_code"; "semester"; "year"]
     then
       current_course <- getitem courses_ course_id ;;
       let new_code := or_str (attr (CourseUpdate.course_code update))
                              (CourseRead.course_code current_course) in
       let new_semester := or_str (attr (CourseUpdate.semester update))
                                  (CourseRead.semester current_course) in
       let new_year := or_int (attr (CourseUpdate.year update))
                              (CourseRead.year current_course) in
       all <- values courses_ ;;
       let existing :=
         filter (fun c => negb (CourseRead.id c =? course_id)%N
                          && same_offering new_code new_semester new_year c) all in
       if nonempty existing then raise (already_exists new_code new_semester new_year)
       else ret tt
     else ret tt) ;;;
    current <- getitem courses_ course_id ;;
    let stored := CourseRead.model_dump current in
    let stored := dict_update stored (CourseUpdate.model_dump_exclude_unset update) in
    r <- construct (CourseRead.init e stored) ;;
    setitem courses_ course_id r ;;;
    getitem courses_ course_id.

(* ===================================================================== *)
(** ** Requests and reachable states *)
(* ===================================================================== *)

(** One call of an endpoint, with its arguments. *)
Inductive request : Type :=
| CreateAddress (address : AddressCreate.t)
| ListAddresses (street city state postal_code country : option string)
| GetAddress (address_id : UUID)
| UpdateAddress (address_id : UUID) (update : AddressUpdate.t)
| CreatePerson (person : PersonCreate.t)
| ListPersons (uni first_name last_name email phone birth_date city country : option string)
| GetPerson (person_id : UUID)
| UpdatePerson (person_id : UUID) (update : PersonUpdate.t)
| CreateOrganization (organization : OrganizationCreate.t)
| ListOrganizations (name org_type : option string) (founded_year : option Z)
    (city country : option string) (contact_person_id : option UUID)
| GetOrganization (organization_id : UUID)
| UpdateOrganization (organization_id : UUID) (update : OrganizationUpdate.t)
| CreateCourse (course : CourseCreate.t)
| ListCourses (course_code title department_code semester : option string)
    (year : option Z) (instructor_id : option UUID)
    (credits min_credits max_credits : option Decimal)
| GetCourse (course_id : UUID)
| UpdateCourse (course_id : UUID) (update : CourseUpdate.t).

Inductive response : Type :=
| AnAddress (a : AddressRead.t)
| Addresses (l : list AddressRead.t)
| APerson (p : PersonRead.t)
| Persons (l : list PersonRead.t)
| AnOrganization (o : OrganizationRead.t)
| Organizations (l : list OrganizationRead.t)
| ACourse (c : CourseRead.t)
| Courses (l : list CourseRead.t).

Definition fmap {A B} (f : A -> B) (m : M A) : M B := x <- m ;; ret (f x).

(** Dispatch of a request to its endpoint. *)
Definition serve (e : Env) (r : request) : M response :=
  match r with
  | CreateAddress a => fmap AnAddress (create_address e a)
  | ListAddresses st ci sa pc co => fmap Addresses (list_addresses st ci sa pc co)
  | GetAddress i => fmap AnAddress (get_address i)
  | UpdateAddress i u => fmap AnAddress (update_address e i u)
  | CreatePerson p => fmap APerson (create_person e p)
  | ListPersons un fn ln em ph bd ci co =>
      fmap Persons (list_persons un fn ln em ph bd ci co)
  | GetPerson i => fmap APerson (get_person i)
  | UpdatePerson i u => fmap APerson (update_person e i u)
  | CreateOrganization o => fmap AnOrganization (create_organization e o)
  | ListOrganizations na ot fy ci co cp =>
      fmap Organizations (list_organizations na ot fy ci co cp)
  | GetOrganization i => fmap AnOrganization (get_organization i)
  | UpdateOrganization i u => fmap AnOrganization (update_organization e i u)
  | CreateCourse c => fmap ACourse (create_course e c)
  | ListCourses cc ti dc se ye ii cr mn mx =>
      fmap Courses (list_courses cc ti dc se ye ii cr mn mx)
  | GetCourse i => fmap ACourse (get_course i)
  | UpdateCourse i u => fmap ACourse (update_course e i u)
  end.

(** The state a request leaves behind, whether it returned or raised. *)
Definition after (e : Env) (r : request) (s : db) : db := snd (serve e r s).

(** The states the service can be in: the empty stores, and what any
    request leaves behind from such a state. *)
Inductive reachable : db -> Prop :=
| reachable_empty : reachable empty_db
| reachable_after : forall s e r, reachable s -> reachable (after e r s).

(** The state after a sequence of requests, from the empty stores. *)
Definition replay (l : list (Env * request)) : db :=
  fold_left (fun s er => after (fst er) (snd er) s) l empty_db.

(* ===================================================================== *)
(** ** Notions the properties are stated with *)
(* ===================================================================== *)

(** The composite key of a Course. *)
Definition offering (c : CourseRead.t) : string * string * Z :=
  (CourseRead.course_code c, CourseRead.semester c, CourseRead.year c).

Definition offering_of (c : CourseCreate.t) : string * string * Z :=
  (CourseCreate.course_code c, CourseCreate.semester c, CourseCreate.year c).

(** A payload field that is unset (or null) inherits the stored value. *)
Definition inherit {T} (x : option T) (stored : T) : T :=
  match x with Some v => v | None => stored end.

(** The effective key of an update, as the spec words it. *)
Definition effective_key (current : CourseRead.t) (u : CourseUpdate.t)
    : string * string * Z :=
  (inherit (attr (CourseUpdate.course_code u)) (CourseRead.course_code current),
   inherit (attr (CourseUpdate.semester u)) (CourseRead.semester current),
   inherit (attr (CourseUpdate.year u)) (CourseRead.year current)).

(** The value of a field after a merge: the payload's when it was set, the
    stored one otherwise. [None] stands for null. *)
Definition merged {T} (f : field (option T)) (stored : option T) : option T :=
  match f with Unset => stored | IsSet v => v end.

(** Validation of a merged value, for a required and for an [Optional]
    field. *)
Definition check_req {T} (ok : T -> bool) (o : option T) : option T :=
  match o with
  | Some x => if ok x then Some x else None
  | None => None
  end.

Definition check_opt {T} (ok : T -> bool) (o : option T) : option (option T) :=
  match o with
  | Some x => if ok x then Some (Some x) else None
  | None => Some None
  end.

Definition always {T} (x : T) : bool := true.
End Endpoints.

(** The Merge Engine of the spec, field by field: what the three lines
    [stored = ....model_dump()], [stored.update(...)], [XRead( **stored )] of
    every update endpoint are shown to compute. An embedded address that
    was sent without an [id] is rebuilt under the identifier [e] draws. *)
Module Merge.
Import Pydantic.

Section WithLibrary.
Context {L : Library}.

Definition address (cur : AddressRead.t) (u : AddressUpdate.t) : option AddressRead.t :=
  street <-? check_req always (merged (AddressUpdate.street u) (Some (AddressRead.street cur))) ;;
  city <-? check_req always (merged (AddressUpdate.city u) (Some (AddressRead.city cur))) ;;
  state <-? check_req always (merged (AddressUpdate.state u) (Some (AddressRead.state cur))) ;;
  postal_code <-? check_req always
    (merged (AddressUpdate.postal_code u) (Some (AddressRead.postal_code cur))) ;;
  country <-? check_req always
    (merged (AddressUpdate.country u) (Some (AddressRead.country cur))) ;;
  Some (AddressRead.mk (AddressRead.id cur) street city state postal_code country
          (AddressRead.created_at cur) (AddressRead.updated_at cur)).

Definition person (e : Env) (cur : PersonRead.t) (u : PersonUpdate.t)
    : option PersonRead.t :=
  uni <-? check_req always (merged (PersonUpdate.uni u) (Some (PersonRead.uni cur))) ;;
  first_name <-? check_req always
    (merged (PersonUpdate.first_name u) (Some (PersonRead.first_name cur))) ;;
  last_name <-? check_req always
    (merged (PersonUpdate.last_name u) (Some (PersonRead.last_name cur))) ;;
  email <-? check_req always (merged (PersonUpdate.email u) (Some (PersonRead.email cur))) ;;
  phone <-? check_opt always (merged (PersonUpdate.phone u) (PersonRead.phone cur)) ;;
  birth_date <-? check_opt always
    (merged (PersonUpdate.birth_date u) (PersonRead.birth_date cur)) ;;
  addresses <-? check_req always
    (merged (AddressBase.rebuilt_field e (PersonUpdate.addresses u))
            (Some (PersonRead.addresses cur))) ;;
  Some (PersonRead.mk uni first_name last_name email phone birth_date addresses
          (PersonRead.id cur) (PersonRead.created_at cur) (PersonRead.updated_at cur)).

Import OrganizationTypes.

Definition organization (e : Env) (cur : OrganizationRead.t)
    (u : OrganizationUpdate.t) : option OrganizationRead.t :=
  name <-? check_req name_ok
    (merged (OrganizationUpdate.name u) (Some (OrganizationRead.name cur))) ;;
  org_type <-? check_req OrgTypeType
    (merged (OrganizationUpdate.org_type u) (Some (OrganizationRead.org_type cur))) ;;
  website <-? check_opt HttpUrl
    (merged (OrganizationUpdate.website u) (OrganizationRead.website cur)) ;;
  description <-? check_opt description_ok
    (merged (OrganizationUpdate.description u) (OrganizationRead.description cur)) ;;
  contact_person_id <-? check_opt always
    (merged (OrganizationUpdate.contact_person_id u)
            (OrganizationRead.contact_person_id cur)) ;;
  employee_count <-? check_opt employee_count_ok
    (merged (OrganizationUpdate.employee_count u) (OrganizationRead.employee_count cur)) ;;
  founded_year <-? check_opt founded_year_ok
    (merged (OrganizationUpdate.founded_year u) (OrganizationRead.founded_year cur)) ;;
  addresses <-? check_req always
    (merged (AddressBase.rebuilt_field e (OrganizationUpdate.addresses u))
            (Some (OrganizationRead.addresses cur))) ;;
  Some (OrganizationRead.mk name org_type website description contact_person_id
          employee_count founded_year addresses (OrganizationRead.id cur)
          (OrganizationRead.created_at cur) (OrganizationRead.updated_at cur)).

Import CourseTypes.

Definition course (cur : CourseRead.t) (u : CourseUpdate.t) : option CourseRead.t :=
  course_code <-? check_req CourseCodeType
    (merged (CourseUpdate.course_code u) (Some (CourseRead.course_code cur))) ;;
  title <-? check_req title_ok
    (merged (CourseUpdate.title u) (Some (CourseRead.title cur))) ;;
  description <-? check_opt CourseTypes.description_ok
    (merged (CourseUpdate.description u) (CourseRead.description cur)) ;;
  credits <-? check_req credits_ok
    (merged (CourseUpdate.credits u) (Some (CourseRead.credits cur))) ;;
  semester <-? check_req SemesterType
    (merged (CourseUpdate.semester u) (Some (CourseRead.semester cur))) ;;
  year <-? check_req year_ok
    (merged (CourseUpdate.year u) (Some (CourseRead.year cur))) ;;
  department_code <-? check_req DepartmentCodeType
    (merged (CourseUpdate.department_code u) (Some (CourseRead.department_code cur))) ;;
  instructor_id <-? check_opt always
    (merged (CourseUpdate.instructor_id u) (CourseRead.instructor_id cur)) ;;
  max_enrollment <-? check_opt max_enrollment_ok
    (merged (CourseUpdate.max_enrollment u) (CourseRead.max_enrollment cur)) ;;
  prerequisites <-? check_req (forallb CourseCodeType)
    (merged (CourseUpdate.prerequisites u) (Some (CourseRead.prerequisites cur))) ;;
  location <-? check_opt location_ok
    (merged (CourseUpdate.location u) (CourseRead.location cur)) ;;
  meeting_times <-? check_opt meeting_times_ok
    (merged (CourseUpdate.meeting_times u) (CourseRead.meeting_times cur)) ;;
  current_enrollment <-? check_req (ge 0) (Some (CourseRead.current_enrollment cur)) ;;
  Some (CourseRead.mk course_code title description credits semester year
          department_code instructor_id max_enrollment prerequisites location
          meeting_times (CourseRead.id cur) (CourseRead.created_at cur)
          (CourseRead.updated_at cur) current_enrollment).
End WithLibrary.
End Merge.

(** The record a create endpoint builds from an accepted payload: the
    payload's fields, completed by the default factories. *)
Module Fresh.
Definition address (e : Env) (a : AddressCreate.t) : AddressRead.t :=
  AddressRead.mk (AddressBase.id a) (AddressBase.street a) (AddressBase.city a)
    (AddressBase.state a) (AddressBase.postal_code a) (AddressBase.country a)
    (utcnow_1 e) (utcnow_2 e).

Definition person (e : Env) (p : PersonCreate.t) : PersonRead.t :=
  PersonRead.mk (PersonCreate.uni p) (PersonCreate.first_name p)
    (PersonCreate.last_name p) (PersonCreate.email p) (PersonCreate.phone p)
    (PersonCreate.birth_date p) (PersonCreate.addresses p)
    (uuid4 e) (utcnow_1 e) (utcnow_2 e).

Definition organization (e : Env) (o : OrganizationCreate.t) : OrganizationRead.t :=
  OrganizationRead.mk (OrganizationCreate.name o) (OrganizationCreate.org_type o)
    (OrganizationCreate.website o) (OrganizationCreate.description o)
    (OrganizationCreate.contact_person_id o) (OrganizationCreate.employee_count o)
    (OrganizationCreate.founded_year o) (OrganizationCreate.addresses o)
    (uuid4 e) (utcnow_1 e) (utcnow_2 e).

Definition course (e : Env) (c : CourseCreate.t) : CourseRead.t :=
  CourseRead.mk (CourseCreate.course_code c) (CourseCreate.title c)
    (CourseCreate.description c) (CourseCreate.credits c) (CourseCreate.semester c)
    (CourseCreate.year c) (CourseCreate.department_code c)
    (CourseCreate.instructor_id c) (CourseCreate.max_enrollment c)
    (CourseCreate.prerequisites c) (CourseCreate.location c)
    (CourseCreate.meeting_times c) (uuid4 e) (utcnow_1 e) (utcnow_2 e) 0.
End Fresh.

(** *** The uniqueness check of the Course endpoints *)

Section Notions.
Context {L : Library}.

(** The update names one of the three fields of the key. *)
Definition touches_key (u : CourseUpdate.t) : bool :=
  is_set (CourseUpdate.course_code u) || is_set (CourseUpdate.semester u)
  || is_set (CourseUpdate.year u).

(** The key [update_course] looks for among the other courses. *)
Definition checked_key (current : CourseRead.t) (u : CourseUpdate.t)
    : string * string * Z :=
  (or_str (attr (CourseUpdate.course_code u)) (CourseRead.course_code current),
   or_str (attr (CourseUpdate.semester u)) (CourseRead.semester current),
   or_int (attr (CourseUpdate.year u)) (CourseRead.year current)).

(** Some course of the list has the key. *)
Definition taken (key : string * string * Z) (l : list CourseRead.t) : bool :=
  existsb (same_offering (fst (fst key)) (snd (fst key)) (snd key)) l.

(** Some course of the list, other than [course_id], has the key. *)
Definition taken_by_other (course_id : UUID) (key : string * string * Z)
    (l : list CourseRead.t) : bool :=
  existsb (fun c => negb (CourseRead.id c =? course_id)%N
                    && same_offering (fst (fst key)) (snd (fst key)) (snd key) c) l.

(** The error both Course endpoints raise on a duplicate key. *)
Definition conflict (key : string * string * Z) : exn :=
  already_exists (fst (fst key)) (snd (fst key)) (snd key).

(** A field the payload sets to an explicit null. *)
Definition is_null {T} (f : field (option T)) : bool :=
  match f with IsSet None => true | _ => false end.

(** The update sets a field that [CourseRead] requires to null. *)
Definition nulls_required (u : CourseUpdate.t) : bool :=
  is_null (CourseUpdate.course_code u) || is_null (CourseUpdate.title u)
  || is_null (CourseUpdate.credits u) || is_null (CourseUpdate.semester u)
  || is_null (CourseUpdate.year u) || is_null (CourseUpdate.department_code u)
  || is_null (CourseUpdate.prerequisites u).

(** What every reachable Course store satisfies. *)
Record courses_inv (d : dict UUID CourseRead.t) : Prop := mk_courses_inv {
  inv_wf : dict_wf d;
  inv_id : forall k c, In (k, c) d -> CourseRead.id c = k;
  inv_unique : NoDup (map offering (dict_values d));
  inv_valid : forall k c, In (k, c) d -> CourseRead.valid c = true;
  inv_enrollment : forall k c, In (k, c) d -> CourseRead.current_enrollment c = 0
}.

(** *** Filters *)

(** A filter that was not provided imposes nothing. *)
Definition holds {P A} (param : option P) (test : P -> A -> bool) (x : A) : bool :=
  match param with Some p => test p x | None => true end.
End Notions.

(** A record satisfies every provided filter of its list endpoint: exact
    matches are equalities, [name] and [title] are case-insensitive
    substrings, the credit bounds are inclusive, [city] and [country] ask
    for one embedded address that matches. *)
Module Matches.
Section WithLibrary.
Context {L : Library}.

Definition address (street city state postal_code country : option string)
    (a : AddressRead.t) : bool :=
  holds street (fun street a => AddressRead.street a =? street)%string a
  && holds city (fun city a => AddressRead.city a =? city)%string a
  && holds state (fun state a => AddressRead.state a =? state)%string a
  && holds postal_code
       (fun postal_code a => AddressRead.postal_code a =? postal_code)%string a
  && holds country (fun country a => AddressRead.country a =? country)%string a.

Definition person
    (uni first_name last_name email phone birth_date city country : option string)
    (p : PersonRead.t) : bool :=
  holds uni (fun uni p => PersonRead.uni p =? uni)%string p
  && holds first_name (fun first_name p => PersonRead.first_name p =? first_name)%string p
  && holds last_name (fun last_name p => PersonRead.last_name p =? last_name)%string p
  && holds email (fun email p => PersonRead.email p =? email)%string p
  && holds phone (fun phone p => opt_eqb String.eqb (PersonRead.phone p) phone) p
  && holds birth_date
       (fun birth_date p =>
          PersonTypes.str_opt_date (PersonRead.birth_date p) =? birth_date)%string p
  && holds city (fun city p => any_city city (PersonRead.addresses p)) p
  && holds country (fun country p => any_country country (PersonRead.addresses p)) p.

Definition organization (name org_type : option string) (founded_year : option Z)
    (city country : option string) (contact_person_id : option UUID)
    (o : OrganizationRead.t) : bool :=
  holds name (fun name o => str_in (lower name) (lower (OrganizationRead.name o))) o
  && holds org_type (fun org_type o => OrganizationRead.org_type o =? org_type)%string o
  && holds founded_year
       (fun founded_year o =>
          opt_eqb Z.eqb (OrganizationRead.founded_year o) founded_year) o
  && holds contact_person_id
       (fun contact_person_id o =>
          opt_eqb N.eqb (OrganizationRead.contact_person_id o) contact_person_id) o
  && holds city (fun city o => any_city city (OrganizationRead.addresses o)) o
  && holds country (fun country o => any_country country (OrganizationRead.addresses o)) o.

Definition course (course_code title department_code semester : option string)
    (year : option Z) (instructor_id : option UUID)
    (credits min_credits max_credits : option Decimal) (c : CourseRead.t) : bool :=
  holds course_code (fun course_code c => CourseRead.course_code c =? course_code)%string c
  && holds title (fun title c => str_in (lower title) (lower (CourseRead.title c))) c
  && holds department_code
       (fun department_code c => CourseRead.department_code c =? department_code)%string c
  && holds semester (fun semester c => CourseRead.semester c =? semester)%string c
  && holds year (fun year c => CourseRead.year c =? year) c
  && holds instructor_id
       (fun instructor_id c => opt_eqb N.eqb (CourseRead.instructor_id c) instructor_id) c
  && holds credits (fun credits c => Qeq_bool (CourseRead.credits c) credits) c
  && holds min_credits (fun min_credits c => Qle_bool min_credits (CourseRead.credits c)) c
  && holds max_credits (fun max_credits c => Qle_bool (CourseRead.credits c) max_credits) c.
End WithLibrary.
End Matches.

(** *** Partial updates *)

(** [r] is [cur] with the fields the payload [u] set taken from [u] and all
    the others, the server-side ones included, left as they were. Of an
    embedded address list that [u] set, the addresses sent with an [id] are
    taken as they are, and those sent without one are taken under the
    identifiers [e] draws. *)
Module Frame.
Definition address (cur : AddressRead.t) (u : AddressUpdate.t) (r : AddressRead.t) : Prop :=
  Some (AddressRead.street r) = merged (AddressUpdate.street u) (Some (AddressRead.street cur))
  /\ Some (AddressRead.city r) = merged (AddressUpdate.city u) (Some (AddressRead.city cur))
  /\ Some (AddressRead.state r) = merged (AddressUpdate.state u) (Some (AddressRead.state cur))
  /\ Some (AddressRead.postal_code r)
     = merged (AddressUpdate.postal_code u) (Some (AddressRead.postal_code cur))
  /\ Some (AddressRead.country r)
     = merged (AddressUpdate.country u) (Some (AddressRead.country cur))
  /\ AddressRead.id r = AddressRead.id cur
  /\ AddressRead.created_at r = AddressRead.created_at cur
  /\ AddressRead.updated_at r = AddressRead.updated_at cur.

Definition person (e : Env) (cur : PersonRead.t) (u : PersonUpdate.t)
    (r : PersonRead.t) : Prop :=
  Some (PersonRead.uni r) = merged (PersonUpdate.uni u) (Some (PersonRead.uni cur))
  /\ Some (PersonRead.first_name r)
     = merged (PersonUpdate.first_name u) (Some (PersonRead.first_name cur))
  /\ Some (PersonRead.last_name r)
     = merged (PersonUpdate.last_name u) (Some (PersonRead.last_name cur))
  /\ Some (PersonRead.email r) = merged (PersonUpdate.email u) (Some (PersonRead.email cur))
  /\ PersonRead.phone r = merged (PersonUpdate.phone u) (PersonRead.phone cur)
  /\ PersonRead.birth_date r
     = merged (PersonUpdate.birth_date u) (PersonRead.birth_date cur)
  /\ Some (PersonRead.addresses r)
     = merged (AddressBase.rebuilt_field e (PersonUpdate.addresses u))
              (Some (PersonRead.addresses cur))
  /\ PersonRead.id r = PersonRead.id cur
  /\ PersonRead.created_at r = PersonRead.created_at cur
  /\ PersonRead.updated_at r = PersonRead.updated_at cur.

Definition organization (e : Env) (cur : OrganizationRead.t)
    (u : OrganizationUpdate.t) (r : OrganizationRead.t) : Prop :=
  Some (OrganizationRead.name r)
    = merged (OrganizationUpdate.name u) (Some (OrganizationRead.name cur))
  /\ Some (OrganizationRead.org_type r)
     = merged (OrganizationUpdate.org_type u) (Some (OrganizationRead.org_type cur))
  /\ OrganizationRead.website r
     = merged (OrganizationUpdate.website u) (OrganizationRead.website cur)
  /\ OrganizationRead.description r
     = merged (OrganizationUpdate.description u) (OrganizationRead.description cur)
  /\ OrganizationRead.contact_person_id r
     = merged (OrganizationUpdate.contact_person_id u)
              (OrganizationRead.contact_person_id cur)
  /\ OrganizationRead.employee_count r
     = merged (OrganizationUpdate.employee_count u) (OrganizationRead.employee_count cur)
  /\ OrganizationRead.founded_year r
     = merged (OrganizationUpdate.founded_year u) (OrganizationRead.founded_year cur)
  /\ Some (OrganizationRead.addresses r)
     = merged (AddressBase.rebuilt_field e (OrganizationUpdate.addresses u))
              (Some (OrganizationRead.addresses cur))
  /\ OrganizationRead.id r = OrganizationRead.id cur
  /\ OrganizationRead.created_at r = OrganizationRead.created_at cur
  /\ OrganizationRead.updated_at r = OrganizationRead.updated_at cur.

Definition course (cur : CourseRead.t) (u : CourseUpdate.t) (r : CourseRead.t) : Prop :=
  Some (CourseRead.course_code r)
    = merged (CourseUpdate.course_code u) (Some (CourseRead.course_code cur))
  /\ Some (CourseRead.title r)
     = merged (CourseUpdate.title u) (Some (CourseRead.title cur))
  /\ CourseRead.description r
     = merged (CourseUpdate.description u) (CourseRead.description cur)
  /\ Some (CourseRead.credits r)
     = merged (CourseUpdate.credits u) (Some (CourseRead.credits cur))
  /\ Some (CourseRead.semester r)
     = merged (CourseUpdate.semester u) (Some (CourseRead.semester cur))
  /\ Some (CourseRead.year r)
     = merged (CourseUpdate.year u) (Some (CourseRead.year cur))
  /\ Some (CourseRead.department_code r)
     = merged (CourseUpdate.department_code u) (Some (CourseRead.department_code cur))
  /\ CourseRead.instructor_id r
     = merged (CourseUpdate.instructor_id u) (CourseRead.instructor_id cur)
  /\ CourseRead.max_enrollment r
     = merged (CourseUpdate.max_enrollment u) (CourseRead.max_enrollment cur)
  /\ Some (CourseRead.prerequisites r)
     = merged (CourseUpdate.prerequisites u) (Some (CourseRead.prerequisites cur))
  /\ CourseRead.location r
     = merged (CourseUpdate.location u) (CourseRead.location cur)
  /\ CourseRead.meeting_times r
     = merged (CourseUpdate.meeting_times u) (CourseRead.meeting_times cur)
  /\ CourseRead.id r = CourseRead.id cur
  /\ CourseRead.created_at r = CourseRead.created_at cur
  /\ CourseRead.updated_at r = CourseRead.updated_at cur
  /\ CourseRead.current_enrollment r = CourseRead.current_enrollment cur.
End Frame.

(** The identifiers a store holds, key by key, in order. *)
Definition ids {V} (id : V -> UUID) (d : dict UUID V) : list (UUID * UUID) :=
  map (fun kv => (fst kv, id (snd kv))) d.

(** The identifiers of all four stores. *)
Definition all_ids (s : db) :=
  (ids PersonRead.id (persons s), ids AddressRead.id (addresses s),
   ids OrganizationRead.id (organizations s), ids CourseRead.id (courses s)).

(** *** Order of a store *)



(** *** Sample data *)

Module Sample.
Definition e1 : Env := mk_env 1%N 1000 1001 (fun k => 100 + N.of_nat k)%N.
Definition e2 : Env := mk_env 2%N 2000 2001 (fun k => 200 + N.of_nat k)%N.
Definition e3 : Env := mk_env 3%N 3000 3001 (fun k => 300 + N.of_nat k)%N.

(** A library for the sample runs, which is right on the text of the
    samples and is not meant beyond it: the letters A to Z fold, 0 to 9
    are the digits, a URL is its scheme and something after it. *)
Definition lower_ascii (c : ascii) : ascii :=
  let n := nat_of_ascii c in
  if andb (Nat.leb 65 n) (Nat.leb n 90) then ascii_of_nat (n + 32) else c.

Fixpoint lower_letters (s : string) : string :=
  match s with
  | EmptyString => EmptyString
  | String c s' => String (lower_ascii c) (lower_letters s')
  end.

Definition digit_0_9 (c : string) : bool :=
  match c with
  | String b EmptyString => Re.ascii_digit b
  | _ => false
  end.

Definition with_scheme (u : string) : bool :=
  (String.prefix "http://" u && Nat.ltb 7 (String.length u))
  || (String.prefix "https://" u && Nat.ltb 8 (String.length u)).

Definition library : Library :=
  {| lower := lower_letters;
     decimal_digit := digit_0_9;
     HttpUrl := with_scheme;
     decimal_digit_ascii := fun c H => H |}.

Definition coms4111 : CourseCreate.t :=
  CourseCreate.mk "COMS4111" "Introduction to Databases" None (3 # 1) "Fall" 2025
    "COMS" None (Some 120) ["COMS1004"; "COMS3134"] (Some "Mudd 233") None.

Definition coms4111_next : CourseCreate.t :=
  CourseCreate.mk "COMS4111" "Introduction to Databases" None (3 # 1) "Fall" 2026
    "COMS" None (Some 120) ["COMS1004"; "COMS3134"] (Some "Mudd 233") None.

(** [{"title": null}] *)
Definition null_title : CourseUpdate.t :=
  CourseUpdate.mk Unset (IsSet None) Unset Unset Unset Unset Unset Unset Unset
    Unset Unset Unset.

(** [{"title": "Databases"}] *)
Definition retitle : CourseUpdate.t :=
  CourseUpdate.mk Unset (IsSet (Some "Databases")) Unset Unset Unset Unset Unset
    Unset Unset Unset Unset Unset.

(** [{"year": 2026}] and [{"year": 2027}] *)
Definition to_year (y : Z) : CourseUpdate.t :=
  CourseUpdate.mk Unset Unset Unset Unset Unset (IsSet (Some y)) Unset Unset Unset
    Unset Unset Unset.

Definition broadway : AddressBase.t :=
  AddressBase.mk 42%N "116th St & Broadway" "New York" "NY" "10027" "USA".

Definition amphitheatre : AddressBase.t :=
  AddressBase.mk 43%N "1600 Amphitheatre Parkway" "Mountain View" "CA" "94043" "USA".

(** [{"city": "Boston"}] *)
Definition move_to_boston : AddressUpdate.t :=
  AddressUpdate.mk Unset (IsSet (Some "Boston")) Unset Unset Unset.

Definition alice : PersonCreate.t :=
  PersonCreate.mk "ab1234" "Alice" "Brown" "ab1234@columbia.edu" None
    (Some (mk_date 1999 3 7)) [broadway].

Definition bob : PersonCreate.t :=
  PersonCreate.mk "bc2345" "Bob" "Clark" "bc2345@columbia.edu" (Some "+12125550100")
    None [amphitheatre].

(** [{"phone": "+12125550199"}] *)
Definition new_phone : PersonUpdate.t :=
  PersonUpdate.mk Unset Unset Unset Unset (IsSet (Some "+12125550199")) Unset Unset.

(** [{"addresses": [{"street": "1600 Amphitheatre Parkway", ...}]}], the
    address without an [id]: the one the parsed model holds, 7, was drawn
    at parsing. *)
Definition moved : PersonUpdate.t :=
  PersonUpdate.mk Unset Unset Unset Unset Unset Unset
    (IsSet (Some [AddressBase.mk_parsed
                    (AddressBase.mk 7%N "1600 Amphitheatre Parkway" "Mountain View" "CA"
                                    "94043" "USA") false])).

(** The same list, the address sent with its [id]. *)
Definition moved_to_43 : PersonUpdate.t :=
  PersonUpdate.mk Unset Unset Unset Unset Unset Unset
    (IsSet (Some [AddressBase.mk_parsed amphitheatre true])).

Definition columbia : OrganizationCreate.t :=
  OrganizationCreate.mk "Columbia University" "university"
    (Some "https://www.columbia.edu/") None None (Some 15000) (Some 1754) [broadway].

(** [{"employee_count": 16000}] *)
Definition more_staff : OrganizationUpdate.t :=
  OrganizationUpdate.mk Unset Unset Unset Unset Unset (IsSet (Some 16000)) Unset Unset.

(** [{"addresses": [{"id": 43, "street": "1600 Amphitheatre Parkway", ...}]}] *)
Definition second_site : OrganizationUpdate.t :=
  OrganizationUpdate.mk Unset Unset Unset Unset Unset Unset Unset
    (IsSet (Some [AddressBase.mk_parsed amphitheatre true])).

(** [{"addresses": [{"street": "1600 Amphitheatre Parkway", ...}]}], the
    address without an [id]: the one the parsed model holds, 7, was drawn
    at parsing. *)
Definition relocated : OrganizationUpdate.t :=
  OrganizationUpdate.mk Unset Unset Unset Unset Unset Unset Unset
    (IsSet (Some [AddressBase.mk_parsed
                    (AddressBase.mk 7%N "1600 Amphitheatre Parkway" "Mountain View" "CA"
                                    "94043" "USA") false])).

Section WithLibrary.
Context {L : Library}.

(** One course; two courses; one record of each kind. *)
Definition one_course : db := replay [(e1, CreateCourse coms4111)].

Definition two_courses : db :=
  replay [(e1, CreateCourse coms4111); (e2, CreateCourse coms4111_next)].

Definition one_of_each : db :=
  replay [(e1, CreateCourse coms4111); (e1, CreateAddress broadway);
          (e1, CreatePerson alice); (e2, CreatePerson bob);
          (e1, CreateOrganization columbia)].
End WithLibrary.
End Sample.

(** A decision procedure for "no name twice", to settle the field lists of
    the models by computation. *)
Fixpoint distinct (l : list string) : bool :=
  match l with
  | [] => true
  | x :: l' => negb (existsb (String.eqb x) l') && distinct l'
  end.

(** *** The language of a pattern *)

(** One character: a byte that continues nothing, and the bytes that
    continue it. *)
Definition all_continue (s : string) : bool :=
  match Re.continuation s with (_, EmptyString) => true | _ => false end.

Definition is_character (c : string) : bool :=
  match c with
  | String b c' => negb (continues b) && all_continue c'
  | EmptyString => false
  end.

(** What follows a character: the end, or the start of another. *)
Definition at_boundary (s : string) : bool :=
  match s with
  | String b _ => negb (continues b)
  | EmptyString => true
  end.

(** [s] is [n] characters, each of the class [p]. *)
Inductive characters (p : string -> bool) : nat -> string -> Prop :=
| characters_O : characters p O ""
| characters_S : forall n c s,
    is_character c = true -> p c = true -> characters p n s ->
    characters p (S n) (c ++ s).

(** A pattern of byte classes only. *)
Fixpoint bytes_only (r : Re.regex) : bool :=
  match r with
  | Re.Uni _ => false
  | Re.Seq a b | Re.Alt a b => bytes_only a && bytes_only b
  | _ => true
  end.

(** The strings a pattern of byte classes denotes, in the usual sense. *)
Inductive denotes : Re.regex -> string -> Prop :=
| denotes_eps : denotes Re.Eps ""
| denotes_chr : forall p c, p c = true -> denotes (Re.Chr p) (String c "")
| denotes_seq : forall a b s1 s2,
    denotes a s1 -> denotes b s2 -> denotes (Re.Seq a b) (s1 ++ s2)
| denotes_alt_l : forall a b s, denotes a s -> denotes (Re.Alt a b) s
| denotes_alt_r : forall a b s, denotes b s -> denotes (Re.Alt a b) s.

(** Every character of the string is in the class. *)
Fixpoint all_chars (p : ascii -> bool) (s : string) : bool :=
  match s with
  | EmptyString => true
  | String c s' => p c && all_chars p s'
  end.

(** *** Payloads applied one after the other *)

(** A field of the payload [u1] followed by the payload [u2]: what [u2]
    sets wins, what it leaves out is as [u1] had it. *)
Definition then_ {T} (f1 f2 : field T) : field T :=
  match f2 with Unset => f1 | IsSet _ => f2 end.

Module Then.
Definition address (u1 u2 : AddressUpdate.t) : AddressUpdate.t :=
  AddressUpdate.mk
    (then_ (AddressUpdate.street u1) (AddressUpdate.street u2))
    (then_ (AddressUpdate.city u1) (AddressUpdate.city u2))
    (then_ (AddressUpdate.state u1) (AddressUpdate.state u2))
    (then_ (AddressUpdate.postal_code u1) (AddressUpdate.postal_code u2))
    (then_ (AddressUpdate.country u1) (AddressUpdate.country u2)).

Definition person (u1 u2 : PersonUpdate.t) : PersonUpdate.t :=
  PersonUpdate.mk
    (then_ (PersonUpdate.uni u1) (PersonUpdate.uni u2))
    (then_ (PersonUpdate.first_name u1) (PersonUpdate.first_name u2))
    (then_ (PersonUpdate.last_name u1) (PersonUpdate.last_name u2))
    (then_ (PersonUpdate.email u1) (PersonUpdate.email u2))
    (then_ (PersonUpdate.phone u1) (PersonUpdate.phone u2))
    (then_ (PersonUpdate.birth_date u1) (PersonUpdate.birth_date u2))
    (then_ (PersonUpdate.addresses u1) (PersonUpdate.addresses u2)).

Definition organization (u1 u2 : OrganizationUpdate.t) : OrganizationUpdate.t :=
  OrganizationUpdate.mk
    (then_ (OrganizationUpdate.name u1) (OrganizationUpdate.name u2))
    (then_ (OrganizationUpdate.org_type u1) (OrganizationUpdate.org_type u2))
    (then_ (OrganizationUpdate.website u1) (OrganizationUpdate.website u2))
    (then_ (OrganizationUpdate.description u1) (OrganizationUpdate.description u2))
    (then_ (OrganizationUpdate.contact_person_id u1)
           (OrganizationUpdate.contact_person_id u2))
    (then_ (OrganizationUpdate.employee_count u1) (OrganizationUpdate.employee_count u2))
    (then_ (OrganizationUpdate.founded_year u1) (OrganizationUpdate.founded_year u2))
    (then_ (OrganizationUpdate.addresses u1) (OrganizationUpdate.addresses u2)).

Definition course (u1 u2 : CourseUpdate.t) : CourseUpdate.t :=
  CourseUpdate.mk
    (then_ (CourseUpdate.course_code u1) (CourseUpdate.course_code u2))
    (then_ (CourseUpdate.title u1) (CourseUpdate.title u2))
    (then_ (CourseUpdate.description u1) (CourseUpdate.description u2))
    (then_ (CourseUpdate.credits u1) (CourseUpdate.credits u2))
    (then_ (CourseUpdate.semester u1) (CourseUpdate.semester u2))
    (then_ (CourseUpdate.year u1) (CourseUpdate.year u2))
    (then_ (CourseUpdate.department_code u1) (CourseUpdate.department_code u2))
    (then_ (CourseUpdate.instructor_id u1) (CourseUpdate.instructor_id u2))
    (then_ (CourseUpdate.max_enrollment u1) (CourseUpdate.max_enrollment u2))
    (then_ (CourseUpdate.prerequisites u1) (CourseUpdate.prerequisites u2))
    (then_ (CourseUpdate.location u1) (CourseUpdate.location u2))
    (then_ (CourseUpdate.meeting_times u1) (CourseUpdate.meeting_times u2)).
End Then.

(** The payload [{}], which sets no field. *)
Module Nothing.
Definition address : AddressUpdate.t :=
  AddressUpdate.mk Unset Unset Unset Unset Unset.

Definition person : PersonUpdate.t :=
  PersonUpdate.mk Unset Unset Unset Unset Unset Unset Unset.

Definition organization : OrganizationUpdate.t :=
  OrganizationUpdate.mk Unset Unset Unset Unset Unset Unset Unset Unset.

Definition course : CourseUpdate.t :=
  CourseUpdate.mk Unset Unset Unset Unset Unset Unset Unset Unset Unset Unset Unset Unset.
End Nothing.

(** *** Organization updates *)

Section Invariants.
Context {L : Library}.

(** What parsing an [OrganizationUpdate] has checked: every value that is
    not null obeys the constraint of its field. *)
Definition organization_update_valid (u : OrganizationUpdate.t) : bool :=
  Pydantic.opt_ok OrganizationTypes.name_ok (attr (OrganizationUpdate.name u))
  && Pydantic.opt_ok OrganizationTypes.OrgTypeType (attr (OrganizationUpdate.org_type u))
  && Pydantic.opt_ok HttpUrl (attr (OrganizationUpdate.website u))
  && Pydantic.opt_ok OrganizationTypes.description_ok
       (attr (OrganizationUpdate.description u))
  && Pydantic.opt_ok OrganizationTypes.employee_count_ok
       (attr (OrganizationUpdate.employee_count u))
  && Pydantic.opt_ok OrganizationTypes.founded_year_ok
       (attr (OrganizationUpdate.founded_year u)).

(** The update sets a field that [OrganizationRead] requires to null. *)
Definition organization_nulls_required (u : OrganizationUpdate.t) : bool :=
  is_null (OrganizationUpdate.name u) || is_null (OrganizationUpdate.org_type u)
  || is_null (OrganizationUpdate.addresses u).

(** *** Stores and the requests that write them *)

Inductive resource : Type := AddressStore | PersonStore | OrganizationStore | CourseStore.

(** The store a request may write: the one of its resource type for a
    creation and an update, none for a read. *)
Definition target (r : request) : option resource :=
  match r with
  | CreateAddress _ | UpdateAddress _ _ => Some AddressStore
  | CreatePerson _ | UpdatePerson _ _ => Some PersonStore
  | CreateOrganization _ | UpdateOrganization _ _ => Some OrganizationStore
  | CreateCourse _ | UpdateCourse _ _ => Some CourseStore
  | _ => None
  end.

(** Every record of the store is filed under its own identifier, and no
    identifier is there twice. *)
Definition keyed {V} (id : V -> UUID) (d : dict UUID V) : Prop :=
  dict_wf d /\ forall k v, In (k, v) d -> id v = k.

(** What every reachable state satisfies, store by store. *)
Record db_inv (s : db) : Prop := mk_db_inv {
  inv_persons : keyed PersonRead.id (persons s);
  inv_addresses : keyed AddressRead.id (addresses s);
  inv_organizations : keyed OrganizationRead.id (organizations s);
  inv_organizations_valid :
    forall k o, In (k, o) (organizations s) -> OrganizationRead.valid o = true;
  inv_courses : courses_inv (courses s)
}.

(** The state after further requests, from any state. *)
Definition continue (s : db) (l : list (Env * request)) : db :=
  fold_left (fun s er => after (fst er) (snd er) s) l s.
End Invariants.

(* ===================================================================== *)
(** * Properties *)
(* ===================================================================== *)

Ltac stores :=
  cbn [upd sel persons_ addresses_ organizations_ courses_
       persons addresses organizations courses].

Ltac conjs := repeat match goal with |- _ /\ _ => split end.

(** Everything below, up to the sample runs, is proved for every
    [Library]. *)
Section Properties.
Context {Lib : Library}.

(** ** Dictionaries *)

Section DictFacts.
Context {K V : Type} `{EqKey K}.
Implicit Types (k : K) (v : V) (d : dict K V).

Lemma keq_true k k' : keq k k' = true <-> k = k'.
Proof. destruct (keq_spec k k'); split; congruence. Qed.

Lemma keq_refl k : keq k k = true.
Proof. now apply keq_true. Qed.

Lemma keq_false k k' : keq k k' = false <-> k <> k'.
Proof. destruct (keq_spec k k'); split; congruence. Qed.

Lemma dict_get_set_eq k v d : dict_get k (dict_set k v d) = Some v.
Proof.
  induction d as [|[k' v'] d IH]; simpl.
  - now rewrite keq_refl.
  - destruct (keq k k') eqn:E; simpl; rewrite E; auto.
Qed.

Lemma dict_get_set_neq k k' v d :
  k' <> k -> dict_get k' (dict_set k v d) = dict_get k' d.
Proof.
  intros N. induction d as [|[k0 v0] d IH]; simpl.
  - apply keq_false in N. now rewrite N.
  - destruct (keq k k0) eqn:E; simpl.
    + apply keq_true in E; subst k0.
      apply keq_false in N. now rewrite N.
    + now rewrite IH.
Qed.

Lemma dict_get_In k v d : dict_get k d = Some v -> In (k, v) d.
Proof.
  induction d as [|[k' v'] d IH]; simpl; [discriminate|].
  destruct (keq k k') eqn:E.
  - apply keq_true in E. intros [= ->]. left; congruence.
  - auto.
Qed.

Lemma dict_get_None k d : dict_get k d = None <-> ~ In k (dict_keys d).
Proof.
  induction d as [|[k' v'] d IH]; simpl; [tauto|].
  destruct (keq_spec k k') as [->|N].
  - split; [discriminate|]. intros F; exfalso; auto.
  - rewrite IH. split; [intros F [E|I]; [congruence|auto] | tauto].
Qed.

Lemma dict_mem_false k d : dict_mem k d = false <-> ~ In k (dict_keys d).
Proof.
  rewrite <- dict_get_None. unfold dict_mem.
  destruct (dict_get k d); split; congruence.
Qed.

Lemma In_dict_keys k v d : In (k, v) d -> In k (dict_keys d).
Proof. intros I. apply (in_map fst) in I. exact I. Qed.

Lemma In_dict_values k v d : In (k, v) d -> In v (dict_values d).
Proof. intros I. apply (in_map snd) in I. exact I. Qed.

Lemma In_dict_get k v d : dict_wf d -> In (k, v) d -> dict_get k d = Some v.
Proof.
  unfold dict_wf. induction d as [|[k' v'] d IH]; simpl; [tauto|].
  intros W [E|I].
  - injection E as -> ->. now rewrite keq_refl.
  - inversion W as [|? ? N W']; subst.
    destruct (keq_spec k k') as [->|_]; [|auto].
    exfalso. apply N. eapply In_dict_keys; eauto.
Qed.

(** A key that is not there yet goes last. *)
Lemma dict_set_new k v d : dict_get k d = None -> dict_set k v d = d ++ [(k, v)].
Proof.
  induction d as [|[k' v'] d IH]; simpl; [reflexivity|].
  destruct (keq k k'); [discriminate|]. intros E. now rewrite IH.
Qed.

(** A key that is there keeps its place. *)
Lemma dict_set_old k v v0 d :
  dict_get k d = Some v0 ->
  exists d1 d2, d = d1 ++ (k, v0) :: d2 /\ dict_set k v d = d1 ++ (k, v) :: d2
                /\ ~ In k (dict_keys d1).
Proof.
  induction d as [|[k' v'] d IH]; simpl; [discriminate|].
  destruct (keq_spec k k') as [->|N].
  - intros [= ->]. exists [], d. simpl. tauto.
  - intros E. destruct (IH E) as (d1 & d2 & -> & -> & N1).
    exists ((k', v') :: d1), d2. simpl. intuition congruence.
Qed.

Lemma dict_keys_set_old k v v0 d :
  dict_get k d = Some v0 -> dict_keys (dict_set k v d) = dict_keys d.
Proof.
  intros E. destruct (@dict_set_old k v v0 d E) as (d1 & d2 & -> & -> & _).
  unfold dict_keys. now rewrite !map_app.
Qed.

Lemma dict_wf_set k v d : dict_wf d -> dict_wf (dict_set k v d).
Proof.
  unfold dict_wf. intros W. destruct (dict_get k d) as [v0|] eqn:E.
  - now rewrite (@dict_keys_set_old k v v0 d E).
  - rewrite (@dict_set_new k v d E). unfold dict_keys. rewrite map_app. simpl.
    apply dict_get_None in E.
    apply NoDup_app; [exact W | repeat constructor; simpl; tauto |].
    intros x I [<-|[]]. auto.
Qed.

Lemma In_dict_set k v k' v' d :
  In (k', v') (dict_set k v d) -> (k' = k /\ v' = v) \/ In (k', v') d.
Proof.
  destruct (dict_get k d) as [v0|] eqn:E.
  - destruct (@dict_set_old k v v0 d E) as (d1 & d2 & -> & -> & _).
    rewrite !in_app_iff. simpl. intuition congruence.
  - rewrite (@dict_set_new k v d E), in_app_iff. simpl. intuition congruence.
Qed.

(** [d.update(other)], key by key, when [other] has no key twice. *)
Lemma dict_get_update k d (other : dict K V) :
  dict_wf other ->
  dict_get k (dict_update d other) =
    match dict_get k other with
    | Some v => Some v
    | None => dict_get k d
    end.
Proof.
  unfold dict_update, dict_wf. revert d.
  induction other as [|[k' v'] o IH]; intros d W; simpl; [reflexivity|].
  inversion W as [|? ? N W']; subst. rewrite (IH _ W').
  destruct (keq_spec k k') as [->|N'].
  - apply dict_get_None in N. rewrite N. apply dict_get_set_eq.
  - destruct (dict_get k o); [reflexivity|]. now apply dict_get_set_neq.
Qed.
End DictFacts.

Lemma distinct_NoDup l : distinct l = true -> NoDup l.
Proof.
  induction l as [|x l IH]; simpl; [constructor|].
  rewrite andb_true_iff, negb_true_iff. intros [N D].
  constructor; [|auto]. intros I.
  assert (existsb (String.eqb x) l = true) as E; [|congruence].
  apply existsb_exists. exists x. split; [exact I | apply String.eqb_refl].
Qed.

(** ** Dumps of payloads *)

Lemma exclude_unset_keys fs x :
  In x (dict_keys (exclude_unset fs)) -> In x (dict_keys fs).
Proof.
  induction fs as [|[n [|v]] fs IH]; simpl; intuition.
Qed.

Lemma exclude_unset_wf fs : dict_wf fs -> dict_wf (exclude_unset fs).
Proof.
  unfold dict_wf. induction fs as [|[n [|v]] fs IH]; simpl; intros W;
    inversion W; subst; auto.
  constructor; auto. intros I. apply exclude_unset_keys in I. auto.
Qed.

Lemma dict_get_exclude_unset k fs :
  dict_wf fs ->
  dict_get k (exclude_unset fs) =
    match dict_get k fs with
    | Some (IsSet v) => Some v
    | _ => None
    end.
Proof.
  unfold dict_wf. induction fs as [|[n [|v]] fs IH]; simpl; intros W;
    inversion W as [|? ? N W']; subst; [reflexivity| |].
  - rewrite (IH W'). destruct (String.eqb_spec k n) as [->|_]; [|reflexivity].
    apply dict_get_None in N. now rewrite N.
  - destruct (String.eqb_spec k n) as [->|_]; [reflexivity | exact (IH W')].
Qed.

(** The dictionary an update endpoint hands to the constructor, key by key. *)
Lemma dict_get_merged k (stored : fields) fs :
  dict_wf fs ->
  dict_get k (dict_update stored (exclude_unset fs)) =
    match dict_get k fs with
    | Some (IsSet v) => Some v
    | _ => dict_get k stored
    end.
Proof.
  intros W. rewrite dict_get_update by now apply exclude_unset_wf.
  rewrite dict_get_exclude_unset by exact W.
  destruct (dict_get k fs) as [[|v]|]; reflexivity.
Qed.

(** ** Validating constructors *)

Arguments CourseTypes.CourseCodeType : simpl never.
Arguments CourseTypes.SemesterType : simpl never.
Arguments CourseTypes.DepartmentCodeType : simpl never.
Arguments CourseTypes.title_ok : simpl never.
Arguments CourseTypes.description_ok : simpl never.
Arguments CourseTypes.credits_ok : simpl never.
Arguments CourseTypes.year_ok : simpl never.
Arguments CourseTypes.max_enrollment_ok : simpl never.
Arguments CourseTypes.location_ok : simpl never.
Arguments CourseTypes.meeting_times_ok : simpl never.
Arguments OrganizationTypes.OrgTypeType : simpl never.
Arguments OrganizationTypes.name_ok : simpl never.
Arguments OrganizationTypes.description_ok : simpl never.
Arguments OrganizationTypes.employee_count_ok : simpl never.
Arguments OrganizationTypes.founded_year_ok : simpl never.
Arguments Pydantic.ge : simpl never.
Arguments Pydantic.as_list : simpl never.
Arguments AddressBase.as_addresses : simpl never.
Arguments AddressBase.dump_addresses : simpl never.
Arguments AddressBase.dump_parsed : simpl never.
Arguments AddressBase.rebuilt_all : simpl never.

Section Converters.
Import Pydantic.

Lemma as_list_strs ok l :
  as_list (as_str ok) (VList (map VStr l)) = if forallb ok l then Some l else None.
Proof.
  unfold as_list. induction l as [|x l IH]; simpl; [reflexivity|].
  destruct (ok x); simpl; [|reflexivity].
  rewrite IH. now destruct (forallb ok l).
Qed.

Lemma AddressBase_init_dump new_id a :
  AddressBase.init new_id (AddressBase.model_dump a) = Some a.
Proof. now destruct a. Qed.

Lemma as_models_dump e k l :
  all_some (AddressBase.as_models e k (map (fun a => VDict (AddressBase.model_dump a)) l))
  = Some l.
Proof.
  revert k. induction l as [|a l IH]; intros k; [reflexivity|].
  cbn [map AddressBase.as_models all_some as_model].
  rewrite AddressBase_init_dump. now rewrite IH.
Qed.

(** Embedded addresses that are dumped whole survive a dump and a rebuild
    unchanged: no identifier is drawn. *)
Lemma as_addresses_dump e l :
  AddressBase.as_addresses e (AddressBase.dump_addresses l) = Some l.
Proof. apply as_models_dump. Qed.

Lemma AddressBase_init_parsed new_id a :
  AddressBase.init new_id (AddressBase.model_dump_exclude_unset a)
  = Some (AddressBase.rebuilt new_id a).
Proof. destruct a as [[] []]; reflexivity. Qed.

Lemma as_models_parsed e k l :
  all_some (AddressBase.as_models e k
              (map (fun a => VDict (AddressBase.model_dump_exclude_unset a)) l))
  = Some (AddressBase.rebuilt_from e k l).
Proof.
  revert k. induction l as [|a l IH]; intros k; [reflexivity|].
  cbn [map AddressBase.as_models all_some as_model AddressBase.rebuilt_from].
  rewrite AddressBase_init_parsed. now rewrite IH.
Qed.

(** Embedded addresses of an Update payload: those dumped without their
    identifier are rebuilt under the ones [e] draws. *)
Lemma as_addresses_parsed e l :
  AddressBase.as_addresses e (AddressBase.dump_parsed l)
  = Some (AddressBase.rebuilt_all e l).
Proof. apply as_models_parsed. Qed.
End Converters.

(** The field list of an Update model names no field twice. *)
Ltac wf_fields := apply distinct_NoDup; reflexivity.

Ltac split_fields :=
  repeat match goal with
         | |- context [match ?f with Unset => _ | IsSet _ => _ end] =>
             is_var f; destruct f
         | |- context [match ?f with Some _ => _ | None => _ end] =>
             is_var f; destruct f
         end.

(** One field of the merged dictionary, validated: the left side reads the
    dictionary, the right side is the field of [Merge]. *)
Ltac merged_field cur u :=
  unfold Pydantic.required, Pydantic.optional, Pydantic.defaulted;
  rewrite dict_get_merged by wf_fields;
  destruct u, cur; cbn; cbv [dump_field merged dump_opt AddressBase.rebuilt_field];
  split_fields; cbn; rewrite ?as_list_strs, ?as_addresses_dump, ?as_addresses_parsed;
  repeat match goal with |- context [if ?c then _ else _] => destruct c end;
  reflexivity.

(** A field the payload cannot name keeps the stored value. *)
Ltac stored_field :=
  unfold Pydantic.defaulted; rewrite dict_get_merged by wf_fields;
  cbn; reflexivity.

Ltac merged_chain cur u :=
  repeat first
    [ match goal with
      | |- match ?a with Some x => @?K x | None => None end =
           match ?b with Some y => @?L y | None => None end =>
          replace a with b by (symmetry; merged_field cur u);
          destruct b; [|reflexivity]
      end
    | match goal with
      | |- match ?a with Some x => @?K x | None => None end = _ =>
          let H := fresh in
          eassert (a = Some _) as H by stored_field;
          rewrite H; clear H; cbv beta iota
      end ];
  reflexivity.

Lemma AddressRead_init_merged e cur u :
  AddressRead.init e (dict_update (AddressRead.model_dump cur)
                                  (AddressUpdate.model_dump_exclude_unset u))
  = Merge.address cur u.
Proof.
  unfold AddressRead.init, Merge.address, AddressUpdate.model_dump_exclude_unset.
  merged_chain cur u.
Qed.

Lemma PersonRead_init_merged e cur u :
  PersonRead.init e (dict_update (PersonRead.model_dump cur)
                                 (PersonUpdate.model_dump_exclude_unset u))
  = Merge.person e cur u.
Proof.
  unfold PersonRead.init, Merge.person, PersonUpdate.model_dump_exclude_unset.
  merged_chain cur u.
Qed.

Lemma OrganizationRead_init_merged e cur u :
  OrganizationRead.init e (dict_update (OrganizationRead.model_dump cur)
                                       (OrganizationUpdate.model_dump_exclude_unset u))
  = Merge.organization e cur u.
Proof.
  unfold OrganizationRead.init, Merge.organization,
    OrganizationUpdate.model_dump_exclude_unset.
  merged_chain cur u.
Qed.

Lemma CourseRead_init_merged e cur u :
  CourseRead.init e (dict_update (CourseRead.model_dump cur)
                                 (CourseUpdate.model_dump_exclude_unset u))
  = Merge.course cur u.
Proof.
  unfold CourseRead.init, Merge.course, CourseUpdate.model_dump_exclude_unset.
  merged_chain cur u.
Qed.

(** A creation payload that passed validation is accepted by the Read
    constructor, which completes it with the default factories. *)
Ltac valid_chain :=
  repeat match goal with
         | |- context [if ?c then _ else _] => destruct c; cbn; try reflexivity
         end.

Lemma AddressRead_init_create e a :
  AddressRead.init e (AddressCreate.model_dump a) = Some (Fresh.address e a).
Proof. now destruct a. Qed.

Lemma PersonRead_init_create e p :
  PersonRead.init e (PersonCreate.model_dump p) = Some (Fresh.person e p).
Proof.
  destruct p as [? ? ? ? ph bd ads].
  unfold PersonRead.init, Pydantic.required, Pydantic.optional, Pydantic.defaulted.
  cbn. rewrite as_addresses_dump. now destruct ph, bd.
Qed.

Lemma OrganizationRead_init_create e o :
  OrganizationRead.init e (OrganizationCreate.model_dump o) =
    if OrganizationCreate.valid o then Some (Fresh.organization e o) else None.
Proof.
  destruct o as [? ? w d c ec fy ads].
  unfold OrganizationRead.init, OrganizationCreate.valid, Fresh.organization,
    Pydantic.required, Pydantic.optional, Pydantic.defaulted.
  cbn. rewrite as_addresses_dump. destruct w, d, c, ec, fy; cbn; valid_chain.
Qed.

Lemma CourseRead_init_create e c :
  CourseRead.init e (CourseCreate.model_dump c) =
    if CourseCreate.valid c then Some (Fresh.course e c) else None.
Proof.
  destruct c as [? ? d ? ? ? ? i m p l t].
  unfold CourseRead.init, CourseCreate.valid, Fresh.course,
    Pydantic.required, Pydantic.optional, Pydantic.defaulted.
  cbn. rewrite as_list_strs. destruct d, i, m, l, t; cbn; valid_chain.
Qed.

(** ** What each endpoint computes *)

Lemma nonempty_filter {A} (f : A -> bool) l : nonempty (filter f l) = existsb f l.
Proof.
  induction l as [|x l IH]; simpl; [reflexivity|].
  destruct (f x); simpl; auto.
Qed.

Lemma where_filter {A P} (param : option P) (test : P -> A -> bool) l :
  where_ param test l = filter (holds param test) l.
Proof.
  destruct param; simpl; [reflexivity|].
  induction l; simpl; congruence.
Qed.

Lemma filter_and {A} (f g : A -> bool) l :
  filter g (filter f l) = filter (fun x => f x && g x) l.
Proof.
  induction l as [|x l IH]; simpl; [reflexivity|].
  destruct (f x); simpl; [destruct (g x)|]; congruence.
Qed.

Lemma touches_key_spec u :
  existsb (fun field => dict_mem field (CourseUpdate.model_dump_exclude_unset u))
          ["course_code"; "semester"; "year"] = touches_key u.
Proof.
  unfold CourseUpdate.model_dump_exclude_unset, touches_key, dict_mem.
  cbn [existsb]. rewrite !dict_get_exclude_unset by wf_fields.
  destruct u as [cc ? ? ? se ye ? ? ? ? ? ?]. cbn.
  now destruct cc, se, ye.
Qed.

Ltac run_endpoint :=
  cbv [bind ret raise fmap contains getitem setitem values construct
       sel upd persons_ addresses_ organizations_ courses_
       persons addresses organizations courses dict_mem].

Ltac run_with G := repeat (run_endpoint; cbv [negb andb]; rewrite ?G).

Section Runs.
Variables (e : Env) (s : db).

Lemma create_address_run a :
  create_address e a s =
    if dict_mem (AddressCreate.id a) (addresses s) then
      (Raise (HTTPException 400 "Address with this ID already exists"), s)
    else
      (Ok (Fresh.address e a),
       upd addresses_
         (dict_set (AddressCreate.id a) (Fresh.address e a) (addresses s)) s).
Proof.
  unfold create_address. destruct s as [ps ads os cs]. run_endpoint.
  destruct (dict_get (AddressCreate.id a) ads); [reflexivity|].
  rewrite AddressRead_init_create. now rewrite dict_get_set_eq.
Qed.

Lemma create_person_run p :
  create_person e p s =
    (Ok (Fresh.person e p),
     upd persons_ (dict_set (uuid4 e) (Fresh.person e p) (persons s)) s).
Proof.
  unfold create_person. destruct s as [ps ads os cs]. run_endpoint.
  now rewrite PersonRead_init_create.
Qed.

Lemma create_organization_run o :
  create_organization e o s =
    if OrganizationCreate.valid o then
      (Ok (Fresh.organization e o),
       upd organizations_
         (dict_set (uuid4 e) (Fresh.organization e o) (organizations s)) s)
    else (Raise ValidationError, s).
Proof.
  unfold create_organization. destruct s as [ps ads os cs]. run_endpoint.
  rewrite OrganizationRead_init_create.
  now destruct (OrganizationCreate.valid o).
Qed.

Lemma create_course_run c :
  create_course e c s =
    if taken (offering_of c) (dict_values (courses s)) then
      (Raise (conflict (offering_of c)), s)
    else if CourseCreate.valid c then
      (Ok (Fresh.course e c),
       upd courses_ (dict_set (uuid4 e) (Fresh.course e c) (courses s)) s)
    else (Raise ValidationError, s).
Proof.
  unfold create_course, taken, conflict, offering_of. cbn [fst snd].
  destruct s as [ps ads os cs]. run_endpoint. rewrite nonempty_filter.
  destruct (existsb _ (dict_values cs)); [reflexivity|].
  rewrite CourseRead_init_create. now destruct (CourseCreate.valid c).
Qed.

Lemma get_address_run i :
  get_address i s =
    match dict_get i (addresses s) with
    | Some r => (Ok r, s)
    | None => (Raise (HTTPException 404 "Address not found"), s)
    end.
Proof.
  unfold get_address. destruct s as [ps ads os cs]. run_endpoint.
  destruct (dict_get i ads) eqn:G; [|reflexivity]. now run_with G.
Qed.

Lemma get_person_run i :
  get_person i s =
    match dict_get i (persons s) with
    | Some r => (Ok r, s)
    | None => (Raise (HTTPException 404 "Person not found"), s)
    end.
Proof.
  unfold get_person. destruct s as [ps ads os cs]. run_endpoint.
  destruct (dict_get i ps) eqn:G; [|reflexivity]. now run_with G.
Qed.

Lemma get_organization_run i :
  get_organization i s =
    match dict_get i (organizations s) with
    | Some r => (Ok r, s)
    | None => (Raise (HTTPException 404 "Organization not found"), s)
    end.
Proof.
  unfold get_organization. destruct s as [ps ads os cs]. run_endpoint.
  destruct (dict_get i os) eqn:G; [|reflexivity]. now run_with G.
Qed.

Lemma get_course_run i :
  get_course i s =
    match dict_get i (courses s) with
    | Some r => (Ok r, s)
    | None => (Raise (HTTPException 404 "Course not found"), s)
    end.
Proof.
  unfold get_course. destruct s as [ps ads os cs]. run_endpoint.
  destruct (dict_get i cs) eqn:G; [|reflexivity]. now run_with G.
Qed.

Lemma update_address_run i u :
  update_address e i u s =
    match dict_get i (addresses s) with
    | None => (Raise (HTTPException 404 "Address not found"), s)
    | Some cur =>
        match Merge.address cur u with
        | None => (Raise ValidationError, s)
        | Some r => (Ok r, upd addresses_ (dict_set i r (addresses s)) s)
        end
    end.
Proof.
  unfold update_address. destruct s as [ps ads os cs]. run_endpoint.
  destruct (dict_get i ads) as [cur|] eqn:G; [|reflexivity]. run_with G.
  rewrite AddressRead_init_merged.
  destruct (Merge.address cur u) as [r|]; [|reflexivity].
  now rewrite dict_get_set_eq.
Qed.

Lemma update_person_run i u :
  update_person e i u s =
    match dict_get i (persons s) with
    | None => (Raise (HTTPException 404 "Person not found"), s)
    | Some cur =>
        match Merge.person e cur u with
        | None => (Raise ValidationError, s)
        | Some r => (Ok r, upd persons_ (dict_set i r (persons s)) s)
        end
    end.
Proof.
  unfold update_person. destruct s as [ps ads os cs]. run_endpoint.
  destruct (dict_get i ps) as [cur|] eqn:G; [|reflexivity]. run_with G.
  rewrite PersonRead_init_merged.
  destruct (Merge.person e cur u) as [r|]; [|reflexivity].
  now rewrite dict_get_set_eq.
Qed.

Lemma update_organization_run i u :
  update_organization e i u s =
    match dict_get i (organizations s) with
    | None => (Raise (HTTPException 404 "Organization not found"), s)
    | Some cur =>
        match Merge.organization e cur u with
        | None => (Raise ValidationError, s)
        | Some r => (Ok r, upd organizations_ (dict_set i r (organizations s)) s)
        end
    end.
Proof.
  unfold update_organization. destruct s as [ps ads os cs]. run_endpoint.
  destruct (dict_get i os) as [cur|] eqn:G; [|reflexivity]. run_with G.
  rewrite OrganizationRead_init_merged.
  destruct (Merge.organization e cur u) as [r|]; [|reflexivity].
  now rewrite dict_get_set_eq.
Qed.

Lemma update_course_run i u :
  update_course e i u s =
    match dict_get i (courses s) with
    | None => (Raise (HTTPException 404 "Course not found"), s)
    | Some cur =>
        if touches_key u
           && taken_by_other i (checked_key cur u) (dict_values (courses s))
        then (Raise (conflict (checked_key cur u)), s)
        else
          match Merge.course cur u with
          | None => (Raise ValidationError, s)
          | Some r => (Ok r, upd courses_ (dict_set i r (courses s)) s)
          end
    end.
Proof.
  unfold update_course. rewrite touches_key_spec.
  destruct s as [ps ads os cs]. run_endpoint.
  destruct (dict_get i cs) as [cur|] eqn:G; [|reflexivity].
  destruct (touches_key u); run_with G.
  - rewrite nonempty_filter.
    unfold taken_by_other, conflict, checked_key. cbn [fst snd].
    destruct (existsb _ (dict_values cs)); [reflexivity|]. run_with G.
    rewrite CourseRead_init_merged.
    destruct (Merge.course cur u) as [r|]; [|reflexivity].
    now rewrite dict_get_set_eq.
  - rewrite CourseRead_init_merged.
    destruct (Merge.course cur u) as [r|]; [|reflexivity].
    now rewrite dict_get_set_eq.
Qed.

Lemma list_addresses_run street city state postal_code country :
  list_addresses street city state postal_code country s =
    (Ok (filter (Matches.address street city state postal_code country)
                (dict_values (addresses s))), s).
Proof.
  unfold list_addresses. run_endpoint.
  rewrite !where_filter, !filter_and. do 2 f_equal.
  apply filter_ext. intros x. unfold Matches.address. now rewrite !andb_assoc.
Qed.

Lemma list_persons_run uni first_name last_name email phone birth_date city country :
  list_persons uni first_name last_name email phone birth_date city country s =
    (Ok (filter (Matches.person uni first_name last_name email phone birth_date
                                city country)
                (dict_values (persons s))), s).
Proof.
  unfold list_persons. run_endpoint.
  rewrite !where_filter, !filter_and. do 2 f_equal.
  apply filter_ext. intros x. unfold Matches.person. now rewrite !andb_assoc.
Qed.

Lemma list_organizations_run name org_type founded_year city country contact_person_id :
  list_organizations name org_type founded_year city country contact_person_id s =
    (Ok (filter (Matches.organization name org_type founded_year city country
                                      contact_person_id)
                (dict_values (organizations s))), s).
Proof.
  unfold list_organizations. run_endpoint.
  rewrite !where_filter, !filter_and. do 2 f_equal.
  apply filter_ext. intros x. unfold Matches.organization. now rewrite !andb_assoc.
Qed.

Lemma list_courses_run course_code title department_code semester year instructor_id
    credits min_credits max_credits :
  list_courses course_code title department_code semester year instructor_id
               credits min_credits max_credits s =
    (Ok (filter (Matches.course course_code title department_code semester year
                                instructor_id credits min_credits max_credits)
                (dict_values (courses s))), s).
Proof.
  unfold list_courses. run_endpoint.
  rewrite !where_filter, !filter_and. do 2 f_equal.
  apply filter_ext. intros x. unfold Matches.course. now rewrite !andb_assoc.
Qed.
End Runs.

(** ** The Merge Engine *)

Lemma check_req_Some {T} (ok : T -> bool) o x :
  check_req ok o = Some x -> o = Some x /\ ok x = true.
Proof.
  destruct o as [y|]; simpl; [|discriminate].
  destruct (ok y) eqn:E; [|discriminate]. now intros [= <-].
Qed.

Lemma check_opt_Some {T} (ok : T -> bool) o y :
  check_opt ok o = Some y -> y = o /\ Pydantic.opt_ok ok o = true.
Proof.
  destruct o as [x|]; simpl.
  - destruct (ok x) eqn:E; [|discriminate]. now intros [= <-].
  - now intros [= <-].
Qed.

Lemma check_req_merged {T} (ok : T -> bool) f old :
  ok old = true -> Pydantic.opt_ok ok (attr f) = true ->
  check_req ok (merged f (Some old)) =
    if is_null f then None else Some (inherit (attr f) old).
Proof.
  destruct f as [|[x|]]; simpl; intros O E; rewrite ?O, ?E; reflexivity.
Qed.

Lemma check_opt_merged {T} (ok : T -> bool) f old :
  Pydantic.opt_ok ok old = true -> Pydantic.opt_ok ok (attr f) = true ->
  check_opt ok (merged f old) = Some (merged f old).
Proof.
  destruct f as [|[x|]]; simpl; intros O E; try rewrite E; try reflexivity.
  destruct old; simpl in *; [rewrite O|]; reflexivity.
Qed.

Lemma opt_ok_always {T} (o : option T) : Pydantic.opt_ok always o = true.
Proof. now destruct o. Qed.

(** A successful merge, taken apart field by field. *)
Ltac invert_merge H :=
  repeat match type of H with
         | match check_req ?ok ?o with Some _ => _ | None => None end = Some _ =>
             let E := fresh "E" in
             destruct (check_req ok o) eqn:E; [|discriminate H];
             apply check_req_Some in E; destruct E
         | match check_opt ?ok ?o with Some _ => _ | None => None end = Some _ =>
             let E := fresh "E" in
             destruct (check_opt ok o) eqn:E; [|discriminate H];
             apply check_opt_Some in E; destruct E
         end;
  injection H as <-.

Ltac split_valid H :=
  repeat match type of H with
         | _ && _ = true => let H' := fresh "V" in
                            apply andb_prop in H; destruct H as [H H']
         end.

Lemma Merge_address_frame cur u r :
  Merge.address cur u = Some r -> Frame.address cur u r.
Proof.
  unfold Merge.address. intros H. invert_merge H.
  unfold Frame.address. cbn. repeat split; congruence.
Qed.

Lemma Merge_person_frame e cur u r :
  Merge.person e cur u = Some r -> Frame.person e cur u r.
Proof.
  unfold Merge.person. intros H. invert_merge H.
  unfold Frame.person. cbn. repeat split; congruence.
Qed.

Lemma Merge_organization_frame e cur u r :
  Merge.organization e cur u = Some r -> Frame.organization e cur u r.
Proof.
  unfold Merge.organization. intros H. invert_merge H.
  unfold Frame.organization. cbn. repeat split; congruence.
Qed.

Lemma Merge_course_frame cur u r :
  Merge.course cur u = Some r -> Frame.course cur u r.
Proof.
  unfold Merge.course. intros H. invert_merge H.
  unfold Frame.course. cbn. repeat split; congruence.
Qed.

(** What comes out of the constructor obeys the constraints of the model. *)
Lemma Merge_course_valid cur u r :
  Merge.course cur u = Some r -> CourseRead.valid r = true.
Proof.
  unfold Merge.course. intros H. invert_merge H.
  unfold CourseRead.valid. cbn. subst.
  repeat match goal with H : _ = true |- _ => rewrite H; clear H end.
  reflexivity.
Qed.

(** On a stored record and a parsed payload the merge fails exactly when a
    required field is set to null. *)
Lemma Merge_course_succeeds cur u :
  CourseRead.valid cur = true -> CourseUpdate.valid u = true ->
  match Merge.course cur u with
  | Some _ => nulls_required u = false
  | None => nulls_required u = true
  end.
Proof.
  unfold CourseRead.valid, CourseUpdate.valid, Merge.course, nulls_required.
  intros C U. split_valid C. split_valid U.
  rewrite !check_req_merged, !check_opt_merged
    by (assumption || apply opt_ok_always).
  cbn. rewrite V. cbn.
  repeat match goal with
         | |- context [is_null ?f] => destruct (is_null f); cbn; [reflexivity|]
         end.
  reflexivity.
Qed.

(** ** Keys of courses *)

Lemma same_offering_spec code semester year c :
  same_offering code semester year c = true <-> offering c = (code, semester, year).
Proof.
  unfold same_offering, offering.
  rewrite !andb_true_iff, !String.eqb_eq, Z.eqb_eq.
  split; [intros [[-> ->] ->]; reflexivity | intros [= -> -> ->]; auto].
Qed.

Lemma taken_spec key l :
  taken key l = true <-> exists c, In c l /\ offering c = key.
Proof.
  unfold taken. rewrite existsb_exists. destruct key as [[a b] y]. cbn [fst snd].
  split; intros (c & I & E); exists c; split; auto; now apply same_offering_spec.
Qed.

Lemma taken_by_other_spec i key l :
  taken_by_other i key l = true <->
  exists c, In c l /\ CourseRead.id c <> i /\ offering c = key.
Proof.
  unfold taken_by_other. rewrite existsb_exists. destruct key as [[a b] y].
  cbn [fst snd].
  split; intros (c & I & E); exists c; split; auto.
  - apply andb_prop in E. destruct E as [N E].
    apply negb_true_iff, N.eqb_neq in N. split; [exact N|].
    now apply same_offering_spec.
  - destruct E as [N E]. apply andb_true_intro. split.
    + now apply negb_true_iff, N.eqb_neq.
    + now apply same_offering_spec.
Qed.

Lemma CourseCodeType_truthy s :
  CourseTypes.CourseCodeType s = true -> truthy_str s = true.
Proof. destruct s; [discriminate | reflexivity]. Qed.

Lemma SemesterType_truthy s :
  CourseTypes.SemesterType s = true -> truthy_str s = true.
Proof. destruct s; [discriminate | reflexivity]. Qed.

Lemma year_ok_truthy z : CourseTypes.year_ok z = true -> truthy_int z = true.
Proof.
  unfold CourseTypes.year_ok, Pydantic.ge, Pydantic.le, truthy_int.
  rewrite andb_true_iff, negb_true_iff, Z.eqb_neq, !Z.leb_le. lia.
Qed.

(** On values that passed validation, [x or stored] is [x] unless [x] is
    null. *)
Lemma or_str_inherit ok x stored :
  (forall s, ok s = true -> truthy_str s = true) ->
  Pydantic.opt_ok ok x = true -> or_str x stored = inherit x stored.
Proof.
  intros T. destruct x as [s|]; simpl; [|reflexivity].
  intros O. now rewrite (T s O).
Qed.

Lemma or_int_inherit x stored :
  Pydantic.opt_ok CourseTypes.year_ok x = true -> or_int x stored = inherit x stored.
Proof.
  destruct x as [z|]; simpl; [|reflexivity].
  intros O. now rewrite (year_ok_truthy z O).
Qed.

Lemma checked_key_effective cur u :
  CourseUpdate.valid u = true -> checked_key cur u = effective_key cur u.
Proof.
  unfold CourseUpdate.valid, checked_key, effective_key. intros U. split_valid U.
  rewrite (@or_str_inherit CourseTypes.CourseCodeType _ _ CourseCodeType_truthy)
    by assumption.
  rewrite (@or_str_inherit CourseTypes.SemesterType _ _ SemesterType_truthy)
    by assumption.
  rewrite or_int_inherit by assumption. reflexivity.
Qed.

(** The key of the merged record is the key the guard looked for. *)
Lemma Merge_course_key cur u r :
  Merge.course cur u = Some r -> offering r = checked_key cur u.
Proof.
  intros H. pose proof (Merge_course_valid _ _ H) as V.
  apply Merge_course_frame in H.
  destruct H as (Hc & _ & _ & _ & Hs & Hy & _).
  unfold CourseRead.valid in V. split_valid V.
  assert (truthy_str (CourseRead.course_code r) = true) as Tc
    by (apply CourseCodeType_truthy; assumption).
  assert (truthy_str (CourseRead.semester r) = true) as Ts
    by (apply SemesterType_truthy; assumption).
  assert (truthy_int (CourseRead.year r) = true) as Ty
    by (apply year_ok_truthy; assumption).
  unfold offering, checked_key.
  destruct (CourseUpdate.course_code u) as [|[x|]]; simpl in Hc |- *;
    try discriminate; injection Hc as Hc;
  destruct (CourseUpdate.semester u) as [|[y|]]; simpl in Hs |- *;
    try discriminate; injection Hs as Hs;
  destruct (CourseUpdate.year u) as [|[z|]]; simpl in Hy |- *;
    try discriminate; injection Hy as Hy;
  rewrite <- ?Hc, <- ?Hs, <- ?Hy, ?Tc, ?Ts, ?Ty; reflexivity.
Qed.

Lemma checked_key_untouched cur u :
  touches_key u = false -> checked_key cur u = offering cur.
Proof.
  unfold touches_key, checked_key, offering.
  destruct (CourseUpdate.course_code u), (CourseUpdate.semester u),
    (CourseUpdate.year u); simpl; try discriminate. reflexivity.
Qed.


(** ** The invariant of the Course store *)

Lemma NoDup_insert {A} (l1 l2 : list A) b :
  NoDup (l1 ++ l2) -> ~ In b (l1 ++ l2) -> NoDup (l1 ++ b :: l2).
Proof.
  induction l1 as [|a l1 IH]; simpl; intros N I.
  - now constructor.
  - inversion N as [|? ? Na N']; subst. constructor.
    + rewrite in_app_iff in *. simpl. intuition congruence.
    + apply IH; [exact N' | tauto].
Qed.

(** Writing under a key: the entries under the other keys stay as they
    are, around the one that is written. *)
Lemma dict_set_shape {V} (k : UUID) (v : V) (d : dict UUID V) :
  dict_wf d ->
  exists d1 old d2,
    d = d1 ++ old ++ d2 /\ dict_set k v d = d1 ++ (k, v) :: d2
    /\ ~ In k (dict_keys (d1 ++ d2))
    /\ (old = [] \/ exists v0, old = [(k, v0)] /\ dict_get k d = Some v0).
Proof.
  intros W. destruct (dict_get k d) as [v0|] eqn:G.
  - destruct (dict_set_old k v d G) as (d1 & d2 & E & S & N).
    exists d1, [(k, v0)], d2. repeat split; auto.
    + unfold dict_wf, dict_keys in W. rewrite E, map_app in W. simpl in W.
      apply NoDup_remove_2 in W. unfold dict_keys. now rewrite map_app.
    + right. now exists v0.
  - exists d, [], []. rewrite app_nil_r. repeat split; auto.
    + now apply dict_set_new.
    + simpl. rewrite ?app_nil_r. exact (proj1 (dict_get_None k d) G).
Qed.

Lemma courses_inv_empty : courses_inv [].
Proof. constructor; simpl; try tauto; constructor. Qed.

Lemma courses_inv_set d k r :
  courses_inv d ->
  CourseRead.id r = k -> CourseRead.valid r = true ->
  CourseRead.current_enrollment r = 0 ->
  (forall k' c, In (k', c) d -> k' <> k -> offering c <> offering r) ->
  courses_inv (dict_set k r d).
Proof.
  intros [W I U V E] Hid Hv He Hk. constructor.
  - now apply dict_wf_set.
  - intros k' c H. apply In_dict_set in H. destruct H as [[-> ->]|H]; eauto.
  - destruct (dict_set_shape k r W) as (d1 & old & d2 & Ed & Es & N & O).
    rewrite Es. unfold dict_values in *. rewrite map_app. simpl.
    rewrite map_app. simpl. apply NoDup_insert.
    + rewrite Ed, !map_app in U. destruct O as [->|(v0 & -> & _)]; [exact U|].
      simpl in U. now apply NoDup_remove_1 in U.
    + rewrite <- !map_app. intros H.
      apply in_map_iff in H. destruct H as (c & Ec & H).
      apply in_map_iff in H. destruct H as ([k' c'] & <- & H). simpl in Ec.
      apply (Hk k' c'); [| |exact Ec].
      * rewrite Ed. rewrite !in_app_iff in *. tauto.
      * intros ->. apply N. eapply In_dict_keys; eauto.
  - intros k' c H. apply In_dict_set in H. destruct H as [[-> ->]|H]; eauto.
  - intros k' c H. apply In_dict_set in H. destruct H as [[-> ->]|H]; eauto.
Qed.

(** In a store that satisfies the invariant, two entries under different
    keys are different offerings. *)
Lemma courses_inv_distinct d k1 c1 k2 c2 :
  courses_inv d -> In (k1, c1) d -> In (k2, c2) d -> k1 <> k2 ->
  offering c1 <> offering c2.
Proof.
  intros [W _ U _ _]. unfold dict_wf, dict_keys, dict_values in *.
  induction d as [|[k c] d IH]; simpl; [tauto|].
  inversion W as [|? ? Nk W']; subst. inversion U as [|? ? Nc U']; subst.
  intros [[= -> ->]|I1] [[= -> ->]|I2] N E.
  - congruence.
  - apply Nc. rewrite E. apply in_map. apply (in_map snd) in I2. exact I2.
  - apply Nc. rewrite <- E. apply in_map. apply (in_map snd) in I1. exact I1.
  - now apply (IH W' U' I1 I2).
Qed.

Lemma Fresh_course_valid e c :
  CourseCreate.valid c = true -> CourseRead.valid (Fresh.course e c) = true.
Proof.
  unfold CourseCreate.valid, CourseRead.valid, Fresh.course. cbn.
  intros ->. reflexivity.
Qed.

Lemma courses_inv_create e c d :
  courses_inv d -> taken (offering_of c) (dict_values d) = false ->
  CourseCreate.valid c = true ->
  courses_inv (dict_set (uuid4 e) (Fresh.course e c) d).
Proof.
  intros Inv T V. apply courses_inv_set; auto using Fresh_course_valid.
  intros k' c' I _ E.
  assert (taken (offering_of c) (dict_values d) = true) as T'; [|congruence].
  apply taken_spec. exists c'. split; [eapply In_dict_values; eauto | exact E].
Qed.

Lemma courses_inv_update i u cur r d :
  courses_inv d -> dict_get i d = Some cur ->
  touches_key u && taken_by_other i (checked_key cur u) (dict_values d) = false ->
  Merge.course cur u = Some r ->
  courses_inv (dict_set i r d).
Proof.
  intros Inv G T H. pose proof (dict_get_In i d G) as Icur.
  pose proof (Merge_course_frame _ _ H) as F.
  assert (CourseRead.id r = CourseRead.id cur
          /\ CourseRead.current_enrollment r = CourseRead.current_enrollment cur)
    as [Fid Fen] by (unfold Frame.course in F; tauto).
  apply courses_inv_set; auto.
  - rewrite Fid. eapply inv_id; eauto.
  - eapply Merge_course_valid; eauto.
  - rewrite Fen. eapply inv_enrollment; eauto.
  - intros k' c I N E. rewrite (Merge_course_key _ _ H) in E.
    destruct (touches_key u) eqn:K; simpl in T.
    + assert (taken_by_other i (checked_key cur u) (dict_values d) = true) as T';
        [|congruence].
      apply taken_by_other_spec. exists c. repeat split; auto.
      * eapply In_dict_values; eauto.
      * erewrite inv_id; eauto.
    + rewrite (checked_key_untouched cur u K) in E.
      now apply (courses_inv_distinct Inv I Icur N).
Qed.

(** ** Requests, one step at a time *)

Lemma fmap_run {A B} (f : A -> B) (m : M A) s :
  fmap f m s = match m s with
               | (Ok a, s') => (Ok (f a), s')
               | (Raise x, s') => (Raise x, s')
               end.
Proof. unfold fmap, bind, ret. now destruct (m s) as [[a|x] s']. Qed.

Lemma snd_fmap {A B} (f : A -> B) (m : M A) s : snd (fmap f m s) = snd (m s).
Proof. rewrite fmap_run. now destruct (m s) as [[a|x] s']. Qed.

(** A request leaves the Course store as it was, or it is an accepted
    creation, or an accepted update. *)
Lemma after_courses e r s :
  courses (after e r s) = courses s
  \/ (exists c, r = CreateCourse c
        /\ taken (offering_of c) (dict_values (courses s)) = false
        /\ CourseCreate.valid c = true
        /\ courses (after e r s) = dict_set (uuid4 e) (Fresh.course e c) (courses s))
  \/ (exists i u cur r', r = UpdateCourse i u
        /\ dict_get i (courses s) = Some cur
        /\ touches_key u
           && taken_by_other i (checked_key cur u) (dict_values (courses s)) = false
        /\ Merge.course cur u = Some r'
        /\ courses (after e r s) = dict_set i r' (courses s)).
Proof.
  unfold after. destruct r; cbn [serve]; rewrite snd_fmap.
  - rewrite create_address_run. destruct (dict_mem _ _); now left.
  - rewrite list_addresses_run. now left.
  - rewrite get_address_run. destruct (dict_get _ _); now left.
  - rewrite update_address_run. destruct (dict_get _ _); [|now left].
    destruct (Merge.address _ _); now left.
  - rewrite create_person_run. now left.
  - rewrite list_persons_run. now left.
  - rewrite get_person_run. destruct (dict_get _ _); now left.
  - rewrite update_person_run. destruct (dict_get _ _); [|now left].
    destruct (Merge.person _ _ _); now left.
  - rewrite create_organization_run. destruct (OrganizationCreate.valid _); now left.
  - rewrite list_organizations_run. now left.
  - rewrite get_organization_run. destruct (dict_get _ _); now left.
  - rewrite update_organization_run. destruct (dict_get _ _); [|now left].
    destruct (Merge.organization _ _ _); now left.
  - rewrite create_course_run. destruct (taken _ _) eqn:T; [now left|].
    destruct (CourseCreate.valid course) eqn:V; [|now left].
    right; left. exists course. auto.
  - rewrite list_courses_run. now left.
  - rewrite get_course_run. destruct (dict_get _ _); now left.
  - rewrite update_course_run. destruct (dict_get _ _) as [cur|] eqn:G; [|now left].
    destruct (touches_key update && _) eqn:T; [now left|].
    destruct (Merge.course cur update) as [r'|] eqn:H; [|now left].
    right; right. exists course_id, update, cur, r'. auto.
Qed.

Lemma reachable_courses_inv s : reachable s -> courses_inv (courses s).
Proof.
  induction 1 as [|s e r R IH]; [exact courses_inv_empty|].
  destruct (after_courses e r s)
    as [-> | [(c & _ & T & V & ->) | (i & u & cur & r' & _ & G & T & H & ->)]].
  - exact IH.
  - now apply courses_inv_create.
  - eapply courses_inv_update; eauto.
Qed.

Lemma replay_reachable l : reachable (replay l).
Proof.
  unfold replay. generalize reachable_empty. generalize empty_db.
  induction l as [|[e r] l IH]; simpl; intros s R; [exact R|].
  apply IH. now constructor.
Qed.

(** ** Successful creations and updates, taken apart *)

Lemma create_address_ok e a s r s' :
  create_address e a s = (Ok r, s') ->
  dict_get (AddressCreate.id a) (addresses s) = None
  /\ r = Fresh.address e a
  /\ s' = upd addresses_ (dict_set (AddressCreate.id a) r (addresses s)) s.
Proof.
  rewrite create_address_run. unfold dict_mem.
  destruct (dict_get _ _); [discriminate|]. intros [= <- <-]. auto.
Qed.

Lemma create_person_ok e p s r s' :
  create_person e p s = (Ok r, s') ->
  r = Fresh.person e p /\ s' = upd persons_ (dict_set (uuid4 e) r (persons s)) s.
Proof. rewrite create_person_run. intros [= <- <-]. auto. Qed.

Lemma create_organization_ok e o s r s' :
  create_organization e o s = (Ok r, s') ->
  r = Fresh.organization e o
  /\ s' = upd organizations_ (dict_set (uuid4 e) r (organizations s)) s.
Proof.
  rewrite create_organization_run.
  destruct (OrganizationCreate.valid o); [|discriminate]. intros [= <- <-]. auto.
Qed.

Lemma create_course_ok e c s r s' :
  create_course e c s = (Ok r, s') ->
  taken (offering_of c) (dict_values (courses s)) = false
  /\ r = Fresh.course e c
  /\ s' = upd courses_ (dict_set (uuid4 e) r (courses s)) s.
Proof.
  rewrite create_course_run. destruct (taken _ _); [discriminate|].
  destruct (CourseCreate.valid c); [|discriminate]. intros [= <- <-]. auto.
Qed.

Lemma update_address_ok e i u s r s' :
  update_address e i u s = (Ok r, s') ->
  exists cur, dict_get i (addresses s) = Some cur /\ Merge.address cur u = Some r
              /\ s' = upd addresses_ (dict_set i r (addresses s)) s.
Proof.
  rewrite update_address_run. destruct (dict_get _ _) as [cur|]; [|discriminate].
  destruct (Merge.address cur u) as [r'|] eqn:H; [|discriminate].
  intros [= <- <-]. eauto.
Qed.

Lemma update_person_ok e i u s r s' :
  update_person e i u s = (Ok r, s') ->
  exists cur, dict_get i (persons s) = Some cur /\ Merge.person e cur u = Some r
              /\ s' = upd persons_ (dict_set i r (persons s)) s.
Proof.
  rewrite update_person_run. destruct (dict_get _ _) as [cur|]; [|discriminate].
  destruct (Merge.person e cur u) as [r'|] eqn:H; [|discriminate].
  intros [= <- <-]. eauto.
Qed.

Lemma update_organization_ok e i u s r s' :
  update_organization e i u s = (Ok r, s') ->
  exists cur, dict_get i (organizations s) = Some cur
              /\ Merge.organization e cur u = Some r
              /\ s' = upd organizations_ (dict_set i r (organizations s)) s.
Proof.
  rewrite update_organization_run.
  destruct (dict_get _ _) as [cur|]; [|discriminate].
  destruct (Merge.organization e cur u) as [r'|] eqn:H; [|discriminate].
  intros [= <- <-]. eauto.
Qed.

Lemma update_course_ok e i u s r s' :
  update_course e i u s = (Ok r, s') ->
  exists cur, dict_get i (courses s) = Some cur /\ Merge.course cur u = Some r
              /\ s' = upd courses_ (dict_set i r (courses s)) s.
Proof.
  rewrite update_course_run. destruct (dict_get _ _) as [cur|]; [|discriminate].
  destruct (touches_key u && _); [discriminate|].
  destruct (Merge.course cur u) as [r'|] eqn:H; [|discriminate].
  intros [= <- <-]. eauto.
Qed.

(** ** Identifiers and order under a write *)

Lemma ids_set_same {V} (id : V -> UUID) i (cur r : V) d :
  dict_get i d = Some cur -> id r = id cur -> ids id (dict_set i r d) = ids id d.
Proof.
  intros G E. destruct (dict_set_old i r d G) as (d1 & d2 & -> & -> & _).
  unfold ids. rewrite !map_app. simpl. now rewrite E.
Qed.




Lemma any_city_spec city l :
  any_city city l = true <-> exists a, In a l /\ AddressBase.city a = city.
Proof.
  unfold any_city. rewrite existsb_exists.
  split; intros (a & I & E); exists a; split; auto; now apply String.eqb_eq.
Qed.

Lemma any_country_spec country l :
  any_country country l = true <-> exists a, In a l /\ AddressBase.country a = country.
Proof.
  unfold any_country. rewrite existsb_exists.
  split; intros (a & I & E); exists a; split; auto; now apply String.eqb_eq.
Qed.

Lemma replay_app l1 l2 :
  replay (l1 ++ l2)
  = fold_left (fun s er => after (fst er) (snd er) s) l2 (replay l1).
Proof. unfold replay. apply fold_left_app. Qed.

(** The reachable states are the states some sequence of requests leads
    to. *)
Lemma reachable_replay s : reachable s <-> exists l, s = replay l.
Proof.
  split.
  - induction 1 as [|s e r _ (l & ->)].
    + now exists [].
    + exists (l ++ [(e, r)]). now rewrite replay_app.
  - intros (l & ->). apply replay_reachable.
Qed.

(* ===================================================================== *)
(** * The specified properties *)
(* ===================================================================== *)

(** C1. In every state the service reaches from the empty stores, through
    any sequence of requests (creations and updates of courses among them),
    no two stored Course records have the same composite key
    [(course_code, semester, year)]. *)
Theorem course_offering_unique :
  forall l : list (Env * request),
    NoDup (map offering (dict_values (courses (replay l)))).
Proof.
  intros l. apply inv_unique, reachable_courses_inv, replay_reachable.
Qed.

(** C2, amended. The identifier of a created Person, Organization or
    Course is the one [uuid4()] returns, whatever the payload; the
    identifier of a created Address is the [id] of the payload, which must
    not be stored yet; and no update changes the identifier of any stored
    record, of any of the four stores. *)
Theorem identifiers_assigned_once :
  (forall e p s r s', create_person e p s = (Ok r, s') -> PersonRead.id r = uuid4 e)
  /\ (forall e o s r s',
        create_organization e o s = (Ok r, s') -> OrganizationRead.id r = uuid4 e)
  /\ (forall e c s r s', create_course e c s = (Ok r, s') -> CourseRead.id r = uuid4 e)
  /\ (forall e a s r s',
        create_address e a s = (Ok r, s') ->
        AddressRead.id r = AddressCreate.id a
        /\ dict_get (AddressCreate.id a) (addresses s) = None)
  /\ (forall e i u s r s',
        update_address e i u s = (Ok r, s') ->
        exists cur, dict_get i (addresses s) = Some cur
                    /\ AddressRead.id r = AddressRead.id cur /\ all_ids s' = all_ids s)
  /\ (forall e i u s r s',
        update_person e i u s = (Ok r, s') ->
        exists cur, dict_get i (persons s) = Some cur
                    /\ PersonRead.id r = PersonRead.id cur /\ all_ids s' = all_ids s)
  /\ (forall e i u s r s',
        update_organization e i u s = (Ok r, s') ->
        exists cur, dict_get i (organizations s) = Some cur
                    /\ OrganizationRead.id r = OrganizationRead.id cur
                    /\ all_ids s' = all_ids s)
  /\ (forall e i u s r s',
        update_course e i u s = (Ok r, s') ->
        exists cur, dict_get i (courses s) = Some cur
                    /\ CourseRead.id r = CourseRead.id cur /\ all_ids s' = all_ids s).
Proof.
  conjs.
  - intros e p s r s' H. apply create_person_ok in H. now destruct H as [-> _].
  - intros e o s r s' H. apply create_organization_ok in H. now destruct H as [-> _].
  - intros e c s r s' H. apply create_course_ok in H. now destruct H as (_ & -> & _).
  - intros e a s r s' H. apply create_address_ok in H.
    destruct H as (N & -> & _). now split.
  - intros e i u s r s' H. apply update_address_ok in H.
    destruct H as (cur & G & H & ->). apply Merge_address_frame in H.
    assert (AddressRead.id r = AddressRead.id cur) as E
      by (unfold Frame.address in H; tauto).
    exists cur. conjs; auto. unfold all_ids. stores.
    now rewrite (ids_set_same _ _ _ _ G E).
  - intros e i u s r s' H. apply update_person_ok in H.
    destruct H as (cur & G & H & ->). apply Merge_person_frame in H.
    assert (PersonRead.id r = PersonRead.id cur) as E
      by (unfold Frame.person in H; tauto).
    exists cur. conjs; auto. unfold all_ids. stores.
    now rewrite (ids_set_same _ _ _ _ G E).
  - intros e i u s r s' H. apply update_organization_ok in H.
    destruct H as (cur & G & H & ->). apply Merge_organization_frame in H.
    assert (OrganizationRead.id r = OrganizationRead.id cur) as E
      by (unfold Frame.organization in H; tauto).
    exists cur. conjs; auto. unfold all_ids. stores.
    now rewrite (ids_set_same _ _ _ _ G E).
  - intros e i u s r s' H. apply update_course_ok in H.
    destruct H as (cur & G & H & ->). apply Merge_course_frame in H.
    assert (CourseRead.id r = CourseRead.id cur) as E
      by (unfold Frame.course in H; tauto).
    exists cur. conjs; auto. unfold all_ids. stores.
    now rewrite (ids_set_same _ _ _ _ G E).
Qed.

(** C3. [create_course] on a payload whose [(course_code, semester, year)]
    is the key of a stored course raises the 400 conflict and leaves every
    store as it was; when no stored course has that key it returns the new
    record, built from the payload, and stores it under its identifier. *)
Theorem create_course_conflict e (c : CourseCreate.t) s :
  ((exists c', In c' (dict_values (courses s)) /\ offering c' = offering_of c) ->
     exists detail, create_course e c s = (Raise (HTTPException 400 detail), s))
  /\ (CourseCreate.valid c = true ->
      (forall c', In c' (dict_values (courses s)) -> offering c' <> offering_of c) ->
      exists r s',
        create_course e c s = (Ok r, s')
        /\ r = Fresh.course e c
        /\ offering r = offering_of c
        /\ courses s' = dict_set (CourseRead.id r) r (courses s)
        /\ dict_get (CourseRead.id r) (courses s') = Some r).
Proof.
  rewrite create_course_run. split.
  - intros T. apply taken_spec in T. rewrite T.
    eexists. unfold conflict, already_exists. reflexivity.
  - intros V T. rewrite V. destruct (taken _ _) eqn:K.
    + apply taken_spec in K. destruct K as (c' & I & E). now destruct (T c' I).
    + eexists _, _. split; [reflexivity|]. cbn.
      repeat split. apply dict_get_set_eq.
Qed.

(** C4, amended. In a reachable state, for a stored course and a parsed
    update payload: the key [update_course] looks for is the effective key,
    in which a field the payload leaves unset (or sets to null) is
    inherited from the stored record; if another stored course (one with a
    different identifier) has that key, the update raises the 400 conflict
    and changes nothing; otherwise it succeeds, storing a record with that
    key, unless the payload sets a required field to null, in which case
    it raises a validation error and changes nothing. *)
Theorem update_course_conflict e s i u cur :
  reachable s -> CourseUpdate.valid u = true ->
  dict_get i (courses s) = Some cur ->
  checked_key cur u = effective_key cur u
  /\ ((exists c, In c (dict_values (courses s))
                 /\ CourseRead.id c <> i /\ offering c = effective_key cur u) ->
        exists detail, update_course e i u s = (Raise (HTTPException 400 detail), s))
  /\ ((forall c, In c (dict_values (courses s)) ->
                 CourseRead.id c <> i -> offering c <> effective_key cur u) ->
        if nulls_required u then
          update_course e i u s = (Raise ValidationError, s)
        else
          exists r,
            update_course e i u s = (Ok r, upd courses_ (dict_set i r (courses s)) s)
            /\ offering r = effective_key cur u
            /\ dict_get i (dict_set i r (courses s)) = Some r).
Proof.
  intros R U G. pose proof (reachable_courses_inv R) as Inv.
  pose proof (checked_key_effective cur u U) as K.
  rewrite update_course_run, G, K. conjs.
  - reflexivity.
  - intros T.
    assert (touches_key u = true) as ->.
    { destruct (touches_key u) eqn:N; [reflexivity|]. exfalso.
      rewrite <- K, (checked_key_untouched cur u N) in T.
      destruct T as (c & I & Ni & E).
      apply in_map_iff in I. destruct I as ([k c'] & <- & I). simpl in *.
      apply (courses_inv_distinct Inv I (dict_get_In i (courses s) G)); auto.
      now rewrite <- (inv_id Inv _ _ I). }
    apply taken_by_other_spec in T. rewrite T.
    eexists. unfold conflict, already_exists. reflexivity.
  - intros T.
    assert (taken_by_other i (effective_key cur u) (dict_values (courses s)) = false)
      as ->.
    { destruct (taken_by_other _ _ _) eqn:N; [|reflexivity].
      apply taken_by_other_spec in N. destruct N as (c & I & Ni & E).
      now destruct (T c I Ni). }
    rewrite andb_false_r.
    pose proof (Merge_course_succeeds cur u
                  (inv_valid Inv _ _ (dict_get_In i (courses s) G)) U) as S.
    destruct (Merge.course cur u) as [r|] eqn:H; rewrite S; [|reflexivity].
    exists r. conjs; [reflexivity | | apply dict_get_set_eq].
    now rewrite (Merge_course_key _ _ H).
Qed.

(** C5, amended. After a successful update, of an Address, a Person, an
    Organization or a Course, the record returned is the record stored
    under the identifier; each field the payload set has the payload's
    value in it, and each field the payload left out, the server-side ones
    included, has the value it had in the store before. An embedded
    address list the payload set is replaced as a whole, by the addresses
    of the payload: those sent with an [id] as they are, those sent without
    one under an identifier drawn during the update, not the one the
    payload holds. *)
Theorem partial_update_frame :
  (forall e i u s r s',
     update_address e i u s = (Ok r, s') ->
     exists cur, dict_get i (addresses s) = Some cur
                 /\ Frame.address cur u r /\ dict_get i (addresses s') = Some r)
  /\ (forall e i u s r s',
        update_person e i u s = (Ok r, s') ->
        exists cur, dict_get i (persons s) = Some cur
                    /\ Frame.person e cur u r /\ dict_get i (persons s') = Some r)
  /\ (forall e i u s r s',
        update_organization e i u s = (Ok r, s') ->
        exists cur, dict_get i (organizations s) = Some cur
                    /\ Frame.organization e cur u r
                    /\ dict_get i (organizations s') = Some r)
  /\ (forall e i u s r s',
        update_course e i u s = (Ok r, s') ->
        exists cur, dict_get i (courses s) = Some cur
                    /\ Frame.course cur u r /\ dict_get i (courses s') = Some r).
Proof.
  conjs; intros e i u s r s' H.
  - apply update_address_ok in H. destruct H as (cur & G & H & ->).
    exists cur. conjs; [exact G | now apply Merge_address_frame |].
    stores. apply dict_get_set_eq.
  - apply update_person_ok in H. destruct H as (cur & G & H & ->).
    exists cur. conjs; [exact G | now apply Merge_person_frame |].
    stores. apply dict_get_set_eq.
  - apply update_organization_ok in H. destruct H as (cur & G & H & ->).
    exists cur. conjs; [exact G | now apply Merge_organization_frame |].
    stores. apply dict_get_set_eq.
  - apply update_course_ok in H. destruct H as (cur & G & H & ->).
    exists cur. conjs; [exact G | now apply Merge_course_frame |].
    stores. apply dict_get_set_eq.
Qed.


(** C7. [list_persons] with only [city=c] returns, in the order of the
    store, exactly the stored persons one of whose embedded addresses has
    a [city] equal to [c], character for character; and likewise with only
    [country]. *)
Theorem persons_by_city s c :
  (exists l,
     list_persons None None None None None None (Some c) None s = (Ok l, s)
     /\ l = filter (fun p => any_city c (PersonRead.addresses p))
                   (dict_values (persons s))
     /\ forall p, In p l <->
                  In p (dict_values (persons s))
                  /\ exists a, In a (PersonRead.addresses p) /\ AddressBase.city a = c)
  /\ (exists l,
        list_persons None None None None None None None (Some c) s = (Ok l, s)
        /\ l = filter (fun p => any_country c (PersonRead.addresses p))
                      (dict_values (persons s))
        /\ forall p, In p l <->
                     In p (dict_values (persons s))
                     /\ exists a, In a (PersonRead.addresses p)
                                  /\ AddressBase.country a = c).
Proof.
  rewrite !list_persons_run. split; eexists; (split; [reflexivity|]); split.
  - apply filter_ext. intros p. unfold Matches.person, holds. simpl.
    apply andb_true_r.
  - intros p. rewrite filter_In. unfold Matches.person, holds. simpl.
    now rewrite andb_true_r, any_city_spec.
  - apply filter_ext. intros p. unfold Matches.person, holds. reflexivity.
  - intros p. rewrite filter_In. unfold Matches.person, holds. simpl.
    now rewrite any_country_spec.
Qed.

(** C8. A request that raises leaves the four stores exactly as they were
    when it arrived; and what an endpoint raises is the 400 of a conflict,
    the 404 of an unknown identifier, or a validation error. *)
Theorem failure_leaves_stores e (r : request) s x :
  fst (serve e r s) = Raise x ->
  snd (serve e r s) = s
  /\ ((exists detail, x = HTTPException 400 detail)
      \/ (exists detail, x = HTTPException 404 detail)
      \/ x = ValidationError).
Proof.
  destruct r; cbn [serve]; rewrite fmap_run;
    [ rewrite create_address_run | rewrite list_addresses_run
    | rewrite get_address_run | rewrite update_address_run
    | rewrite create_person_run | rewrite list_persons_run
    | rewrite get_person_run | rewrite update_person_run
    | rewrite create_organization_run | rewrite list_organizations_run
    | rewrite get_organization_run | rewrite update_organization_run
    | rewrite create_course_run | rewrite list_courses_run
    | rewrite get_course_run | rewrite update_course_run ];
    unfold conflict, already_exists;
    repeat match goal with
           | |- context [match ?t with Some _ => _ | None => _ end] => destruct t
           | |- context [if ?t then _ else _] => destruct t
           end;
    cbn [fst snd]; intros H; try discriminate H; injection H as <-;
    (split; [reflexivity | eauto]).
Qed.

(** C9. After a successful update of a Person, an Organization or a
    Course, the stored record has the [created_at] and the [updated_at] it
    had before: no update consults the clock. *)
Theorem update_keeps_timestamps :
  (forall e i u s r s',
     update_person e i u s = (Ok r, s') ->
     exists cur, dict_get i (persons s) = Some cur
                 /\ dict_get i (persons s') = Some r
                 /\ PersonRead.created_at r = PersonRead.created_at cur
                 /\ PersonRead.updated_at r = PersonRead.updated_at cur)
  /\ (forall e i u s r s',
        update_organization e i u s = (Ok r, s') ->
        exists cur, dict_get i (organizations s) = Some cur
                    /\ dict_get i (organizations s') = Some r
                    /\ OrganizationRead.created_at r = OrganizationRead.created_at cur
                    /\ OrganizationRead.updated_at r = OrganizationRead.updated_at cur)
  /\ (forall e i u s r s',
        update_course e i u s = (Ok r, s') ->
        exists cur, dict_get i (courses s) = Some cur
                    /\ dict_get i (courses s') = Some r
                    /\ CourseRead.created_at r = CourseRead.created_at cur
                    /\ CourseRead.updated_at r = CourseRead.updated_at cur).
Proof.
  conjs; intros e i u s r s' H.
  - apply update_person_ok in H. destruct H as (cur & G & H & ->).
    apply Merge_person_frame in H. exists cur. stores.
    unfold Frame.person in H. conjs; [exact G | apply dict_get_set_eq | tauto | tauto].
  - apply update_organization_ok in H. destruct H as (cur & G & H & ->).
    apply Merge_organization_frame in H. exists cur. stores.
    unfold Frame.organization in H.
    conjs; [exact G | apply dict_get_set_eq | tauto | tauto].
  - apply update_course_ok in H. destruct H as (cur & G & H & ->).
    apply Merge_course_frame in H. exists cur. stores.
    unfold Frame.course in H. conjs; [exact G | apply dict_get_set_eq | tauto | tauto].
Qed.

(** C10. In every state the service reaches from the empty stores, every
    stored Course record has [current_enrollment] 0. *)
Theorem current_enrollment_zero :
  forall l : list (Env * request),
    Forall (fun c => CourseRead.current_enrollment c = 0)
           (dict_values (courses (replay l))).
Proof.
  intros l. apply Forall_forall. intros c I.
  apply in_map_iff in I. destruct I as ([k c'] & <- & I).
  eapply inv_enrollment; [apply reachable_courses_inv, replay_reachable | exact I].
Qed.

(* ===================================================================== *)
(** * Further properties of the models and of the endpoints *)
(* ===================================================================== *)


Local Open Scope string_scope.

(** ** Strings *)

Lemma append_nil_r s : s ++ "" = s.
Proof. induction s; simpl; congruence. Qed.

Lemma append_assoc s1 s2 s3 : (s1 ++ s2) ++ s3 = s1 ++ (s2 ++ s3).
Proof. induction s1; simpl; congruence. Qed.

Lemma length_append s1 s2 :
  String.length (s1 ++ s2) = (String.length s1 + String.length s2)%nat.
Proof. induction s1; simpl; congruence. Qed.

Lemma all_chars_append p s1 s2 :
  all_chars p (s1 ++ s2) = all_chars p s1 && all_chars p s2.
Proof.
  induction s1 as [|c s1 IH]; simpl; [reflexivity|].
  now rewrite IH, andb_assoc.
Qed.

Lemma split_at (n : nat) s :
  (n <= String.length s)%nat ->
  exists s1 s2, s = s1 ++ s2 /\ String.length s1 = n.
Proof.
  revert s. induction n as [|n IH]; intros s L.
  - now exists "", s.
  - destruct s as [|c s]; simpl in L; [lia|].
    destruct (IH s) as (s1 & s2 & -> & E); [lia|].
    exists (String c s1), s2. simpl. auto.
Qed.

(** ** The matcher and the language of a pattern *)

Section Patterns.
Import Re.

Lemma run_denotes r :
  bytes_only r = true ->
  forall s k,
    run r s k = true <->
    exists s1 s2, s = s1 ++ s2 /\ denotes r s1 /\ k s2 = true.
Proof.
  induction r as [|p|p|a IHa b IHb|a IHa b IHb]; intros B s k; simpl in *.
  - split.
    + intros H. exists "", s. repeat split; [constructor | exact H].
    + intros (s1 & s2 & -> & D & H). inversion D; subst. exact H.
  - split.
    + destruct s as [|c s]; [discriminate|].
      intros H. apply andb_prop in H. destruct H as [P K].
      exists (String c ""), s. repeat split; [now constructor | exact K].
    + intros (s1 & s2 & -> & D & H). inversion D as [|p' c P| | |]; subst. simpl.
      now rewrite P, H.
  - discriminate.
  - apply andb_prop in B. destruct B as [Ba Bb].
    rewrite (IHa Ba). split.
    + intros (s1 & s2 & -> & Da & H). apply (IHb Bb) in H.
      destruct H as (s3 & s4 & -> & Db & H).
      exists (s1 ++ s3), s4. rewrite append_assoc.
      repeat split; [now constructor | exact H].
    + intros (s1 & s2 & -> & D & H). inversion D; subst.
      exists s0, (s3 ++ s2). rewrite append_assoc.
      repeat split; [assumption|]. apply (IHb Bb). eauto.
  - apply andb_prop in B. destruct B as [Ba Bb].
    rewrite orb_true_iff, (IHa Ba), (IHb Bb). split.
    + intros [(s1 & s2 & -> & D & H)|(s1 & s2 & -> & D & H)];
        exists s1, s2; repeat split; auto; [now apply denotes_alt_l | now apply denotes_alt_r].
    + intros (s1 & s2 & -> & D & H). inversion D; subst; [left|right]; eauto.
Qed.

Lemma fullmatch_denotes r s :
  bytes_only r = true -> (fullmatch r s = true <-> denotes r s).
Proof.
  intros B. unfold fullmatch. rewrite (run_denotes r B). split.
  - intros (s1 & s2 & -> & D & H). destruct s2; [|discriminate].
    now rewrite append_nil_r.
  - intros D. exists s, "". rewrite append_nil_r. auto.
Qed.

Lemma denotes_lit w s : denotes (lit w) s <-> s = w.
Proof.
  revert s. induction w as [|c w IH]; intros s; simpl.
  - split; [now inversion 1 | intros ->; constructor].
  - split.
    + inversion 1 as [| |a b s1 s2 D1 D2| |]; subst.
      inversion D1; subst. apply IH in D2. subst.
      simpl. f_equal. symmetry. now apply Ascii.eqb_eq.
    + intros ->. change (String c w) with (String c "" ++ w).
      constructor; [constructor; apply Ascii.eqb_refl | now apply IH].
Qed.

Lemma denotes_times p n s :
  denotes (times n (Chr p)) s <-> String.length s = n /\ all_chars p s = true.
Proof.
  revert s. induction n as [|n IH]; intros s; simpl.
  - split.
    + inversion 1. auto.
    + intros [E _]. destruct s; [constructor | discriminate].
  - split.
    + inversion 1 as [| |a b s1 s2 D1 D2| |]; subst.
      inversion D1 as [|p' c P| | |]; subst.
      apply IH in D2. destruct D2 as [E A]. simpl.
      now rewrite E, P, A.
    + intros [E A]. destruct s as [|c s]; [discriminate|]. simpl in *.
      apply andb_prop in A. destruct A as [P A].
      change (String c s) with (String c "" ++ s).
      constructor; [now constructor | apply IH; split; [lia | exact A]].
Qed.

Lemma denotes_upto p n s :
  denotes (upto n (Chr p)) s <-> (String.length s <= n)%nat /\ all_chars p s = true.
Proof.
  revert s. induction n as [|n IH]; intros s; simpl.
  - split.
    + inversion 1. simpl. auto.
    + intros [E _]. destruct s; [constructor | simpl in E; lia].
  - unfold opt. split.
    + inversion 1 as [| | |a b s' D|a b s' D]; subst.
      * inversion D as [| |a b s1 s2 D1 D2| |]; subst.
        inversion D1 as [|p' c P| | |]; subst.
        apply IH in D2. destruct D2 as [E A]. simpl.
        rewrite P, A. split; [lia | reflexivity].
      * inversion D. simpl. split; [lia | reflexivity].
    + intros [E A]. destruct s as [|c s].
      * apply denotes_alt_r. constructor.
      * simpl in *. apply andb_prop in A. destruct A as [P A].
        apply denotes_alt_l. change (String c s) with (String c "" ++ s).
        constructor; [now constructor | apply IH; split; [lia | exact A]].
Qed.

Lemma denotes_rep p lo hi s :
  (lo <= hi)%nat ->
  denotes (rep lo hi (Chr p)) s <->
  (lo <= String.length s <= hi)%nat /\ all_chars p s = true.
Proof.
  intros LH. unfold rep. split.
  - inversion 1 as [| |a b s1 s2 D1 D2| |]; subst.
    apply denotes_times in D1. apply denotes_upto in D2.
    destruct D1 as [L1 A1], D2 as [L2 A2].
    rewrite length_append, all_chars_append, A1, A2. split; [lia | reflexivity].
  - intros [E A]. destruct (@split_at lo s) as (s1 & s2 & -> & E'); [lia|].
    rewrite length_append in E. rewrite all_chars_append in A.
    apply andb_prop in A. destruct A as [A1 A2].
    constructor; [apply denotes_times | apply denotes_upto]; split; auto; lia.
Qed.

Lemma denotes_alt a b s : denotes (Alt a b) s <-> denotes a s \/ denotes b s.
Proof.
  split; [inversion 1; auto | intros [D|D]; [now apply denotes_alt_l | now apply denotes_alt_r]].
Qed.

Lemma denotes_seq_iff a b s :
  denotes (Seq a b) s <-> exists s1 s2, s = s1 ++ s2 /\ denotes a s1 /\ denotes b s2.
Proof.
  split.
  - inversion 1; subst. eauto.
  - intros (s1 & s2 & -> & Da & Db). now constructor.
Qed.

Lemma denotes_opt_chr p s :
  denotes (opt (Chr p)) s <-> s = "" \/ exists c, s = String c "" /\ p c = true.
Proof.
  unfold opt. rewrite denotes_alt. split.
  - intros [D|D]; inversion D; subst; eauto.
  - intros [->|(c & -> & P)]; [right | left]; now constructor.
Qed.

(** *** Characters *)

Lemma len_append s1 s2 : len (s1 ++ s2) = (len s1 + len s2)%nat.
Proof.
  induction s1 as [|b s1 IH]; simpl; [reflexivity|].
  destruct (continues b); simpl; congruence.
Qed.

(** A letter A to Z is a character of one byte. *)
Lemma upper_starts c : upper c = true -> continues c = false.
Proof.
  unfold upper, continues. rewrite andb_true_iff, andb_false_iff, !Nat.leb_le.
  intros [_ H]. left. apply Nat.leb_gt. lia.
Qed.

Lemma len_upper s : all_chars upper s = true -> len s = String.length s.
Proof.
  induction s as [|c s IH]; simpl; [reflexivity|].
  intros A. apply andb_prop in A. destruct A as [U A].
  now rewrite (upper_starts c U), (IH A).
Qed.

Lemma continuation_split s c r :
  continuation s = (c, r) ->
  s = c ++ r /\ all_continue c = true /\ at_boundary r = true.
Proof.
  unfold all_continue. revert c r. induction s as [|b s IH]; intros c r; simpl.
  - intros [= <- <-]. auto.
  - destruct (continues b) eqn:B.
    + destruct (continuation s) as [c' r'] eqn:C. intros [= <- <-].
      destruct (IH c' r' eq_refl) as (-> & A & Br). simpl. rewrite B.
      destruct (continuation c') as [c1 r1]. destruct r1; [|discriminate].
      repeat split; auto.
    + intros [= <- <-]. simpl. rewrite B. auto.
Qed.

Lemma continuation_app c t :
  all_continue c = true -> at_boundary t = true -> continuation (c ++ t) = (c, t).
Proof.
  unfold all_continue. induction c as [|b c IH]; simpl; intros A Bt.
  - destruct t as [|b t]; [reflexivity|]. simpl in *.
    apply negb_true_iff in Bt. now rewrite Bt.
  - destruct (continues b); [|discriminate].
    destruct (continuation c) as [c1 r1] eqn:C. destruct r1; [|discriminate].
    now rewrite (IH eq_refl Bt).
Qed.

Lemma all_continue_len c : all_continue c = true -> len c = O.
Proof.
  unfold all_continue. induction c as [|b c IH]; simpl; [reflexivity|].
  destruct (continues b); [|discriminate].
  destruct (continuation c) as [c1 r1]. destruct r1; [|discriminate]. auto.
Qed.

Lemma is_character_len c : is_character c = true -> len c = 1%nat.
Proof.
  destruct c as [|b c]; simpl; [discriminate|].
  intros H. apply andb_prop in H. destruct H as [B A].
  apply negb_true_iff in B. now rewrite B, (all_continue_len c A).
Qed.

Lemma characters_len p n s : characters p n s -> len s = n.
Proof.
  induction 1 as [|n c s C P _ IH]; [reflexivity|].
  now rewrite len_append, (is_character_len c C), IH.
Qed.

Lemma characters_boundary p n s t :
  characters p n s -> at_boundary t = true -> at_boundary (s ++ t) = true.
Proof.
  intros [|n' c s' C P _] Bt; [exact Bt|].
  destruct c as [|b c]; [discriminate|]. simpl in *.
  apply andb_prop in C. tauto.
Qed.

(** Digits 0 to 9 are characters of the class [\d], in every library. *)
Lemma ascii_digit_starts c : ascii_digit c = true -> continues c = false.
Proof.
  unfold ascii_digit, continues. rewrite andb_true_iff, andb_false_iff, !Nat.leb_le.
  intros [_ H]. left. apply Nat.leb_gt. lia.
Qed.

Lemma ascii_digits_characters d :
  all_chars ascii_digit d = true -> characters decimal_digit (String.length d) d.
Proof.
  induction d as [|c d IH]; simpl; [constructor|].
  intros A. apply andb_prop in A. destruct A as [D A].
  change (String c d) with (String c "" ++ d). constructor; auto.
  - simpl. now rewrite (ascii_digit_starts c D).
  - now apply decimal_digit_ascii.
Qed.

(** [\d{n}] takes [n] characters of the class off the front. *)
Lemma run_characters_elim p n s k :
  run (times n (Uni p)) s k = true ->
  exists s1 s2, s = s1 ++ s2 /\ characters p n s1 /\ k s2 = true.
Proof.
  revert s. induction n as [|n IH]; intros s; cbn [times run].
  - intros H. exists "", s. repeat split; [constructor | exact H].
  - destruct s as [|b s]; [discriminate|].
    destruct (continuation s) as [c r] eqn:C. intros H.
    apply andb_prop in H. destruct H as [B H].
    apply andb_prop in H. destruct H as [P H].
    destruct (IH r H) as (s1 & s2 & -> & Cs & K).
    destruct (continuation_split s C) as (-> & A & _).
    exists (String b c ++ s1), s2. repeat split; [|constructor; auto|exact K].
    + simpl. now rewrite append_assoc.
    + simpl. now rewrite B, A.
Qed.

Lemma run_characters_intro p n s1 s2 (k : string -> bool) :
  characters p n s1 -> at_boundary s2 = true -> k s2 = true ->
  run (times n (Uni p)) (s1 ++ s2) k = true.
Proof.
  induction 1 as [|n c s C P Cs IH]; intros Bt K; cbn [times run]; [exact K|].
  destruct c as [|b c]; [discriminate|]. simpl in C.
  apply andb_prop in C. destruct C as [B A].
  assert (Bd : at_boundary (s ++ s2) = true)
    by (eapply characters_boundary; eauto).
  rewrite append_assoc. cbn [append].
  rewrite (continuation_app c (s ++ s2) A Bd).
  now rewrite B, P, (IH Bt K).
Qed.

Import CourseTypes OrganizationTypes Pydantic.

(** X1. [SemesterType] admits the three words Fall, Spring and Summer,
    spelled so, and no other string. *)
Theorem SemesterType_spec s :
  SemesterType s = true <-> s = "Fall" \/ s = "Spring" \/ s = "Summer".
Proof.
  unfold SemesterType, semester_pattern.
  now rewrite fullmatch_denotes, !denotes_alt, !denotes_lit by reflexivity.
Qed.

(** X2. [OrgTypeType] admits the six words of its pattern, in lower
    case, and no other string. *)
Theorem OrgTypeType_spec s :
  OrgTypeType s = true <->
  s = "university" \/ s = "company" \/ s = "nonprofit" \/ s = "government"
  \/ s = "startup" \/ s = "research".
Proof.
  unfold OrgTypeType, org_type_pattern.
  now rewrite fullmatch_denotes, !denotes_alt, !denotes_lit by reflexivity.
Qed.

(** X3. [DepartmentCodeType] admits exactly the strings of three to five
    letters A to Z: on them the pattern and the two length bounds say the
    same. *)
Theorem DepartmentCodeType_spec s :
  DepartmentCodeType s = true <->
  (3 <= String.length s <= 5)%nat /\ all_chars Re.upper s = true.
Proof.
  unfold DepartmentCodeType, department_code_pattern, min_length, max_length.
  rewrite !andb_true_iff, fullmatch_denotes by reflexivity.
  rewrite denotes_rep by lia. rewrite !Nat.leb_le. split; [tauto|].
  intros [E A]. rewrite (len_upper s A). tauto.
Qed.

(** X4. [CourseCodeType] admits exactly the strings made of three to
    five letters A to Z, four characters of the class [\d] (decimal
    digits, of any script) and at most one more letter A to Z, of which
    five letters with a suffix are left out: the pattern admits these ten
    characters, [max_length=9] does not. [min_length=7] excludes nothing
    the pattern admits. *)
Theorem CourseCodeType_spec s :
  CourseCodeType s = true <->
  exists letters digits suffix,
    s = letters ++ digits ++ suffix
    /\ all_chars Re.upper letters = true
    /\ characters decimal_digit 4 digits
    /\ ((suffix = "" /\ (3 <= String.length letters <= 5)%nat)
        \/ (exists c, suffix = String c "" /\ Re.upper c = true
                      /\ (3 <= String.length letters <= 4)%nat)).
Proof.
  unfold CourseCodeType, course_code_pattern, min_length, max_length, fullmatch.
  cbn [run]. rewrite !andb_true_iff, !Nat.leb_le, run_denotes by reflexivity.
  split.
  - intros [[(l & rest & -> & Dl & D) L7] L9].
    apply run_characters_elim in D. destruct D as (d & x & -> & Dd & Dx).
    apply (fullmatch_denotes (opt (Chr upper)) x eq_refl) in Dx.
    apply denotes_opt_chr in Dx.
    apply denotes_rep in Dl; [|lia]. destruct Dl as [Ll Al].
    exists l, d, x. repeat split; auto.
    rewrite !len_append, (len_upper l Al), (characters_len Dd) in L9.
    destruct Dx as [->|(c & -> & U)]; [left; split; [reflexivity|lia]|].
    right. exists c. simpl in L9. rewrite (upper_starts c U) in L9.
    repeat split; auto; lia.
  - intros (l & d & x & -> & Al & Dd & X).
    rewrite !len_append, (len_upper l Al), (characters_len Dd).
    assert ((3 <= String.length l <= 5)%nat
            /\ (String.length l + (4 + len x) <= 9)%nat
            /\ denotes (opt (Chr upper)) x /\ at_boundary x = true)
      as (Ll & L9 & Dx & Bx).
    { destruct X as [[-> E]|(c & -> & U & E)]; simpl;
        rewrite ?(upper_starts c U); repeat split; try lia;
        apply denotes_opt_chr; eauto. }
    repeat split; try lia.
    exists l, (d ++ x). repeat split.
    + apply denotes_rep; [lia | auto].
    + apply run_characters_intro; auto.
      now apply (fullmatch_denotes (opt (Chr upper)) x eq_refl).
Qed.

(** X5. The constraints of [credits] admit exactly the numbers from 0 to
    10, bounds included, that are a whole number of tenths. *)
Theorem credits_ok_spec (q : Decimal) :
  credits_ok q = true <->
  (0 <= q)%Q /\ (q <= 10)%Q /\ exists n : Z, (q == n # 10)%Q.
Proof.
  unfold credits_ok, dec_ge, dec_le, decimal_places.
  rewrite !andb_true_iff, !Qle_bool_iff, Z.eqb_eq.
  change (inject_Z 0) with 0%Q. change (inject_Z 10) with 10%Q.
  change (10 ^ Z.of_nat 1) with 10.
  rewrite Z.mod_divide by discriminate.
  unfold Z.divide, Qeq. simpl.
  split.
  - intros [[H0 H10] [n N]]. repeat split; auto. exists n. lia.
  - intros (H0 & H10 & n & N). repeat split; auto. exists n. lia.
Qed.
End Patterns.
(** X7. [model_dump] followed by the constructor gives the record back
    when it obeys the constraints of its fields, and is refused when it
    does not; the default factories of the identifier and of the
    timestamps play no part, the dictionary having the three keys. *)
Theorem read_models_round_trip :
  (forall e c, CourseRead.init e (CourseRead.model_dump c)
               = if CourseRead.valid c then Some c else None)
  /\ (forall e o, OrganizationRead.init e (OrganizationRead.model_dump o)
                  = if OrganizationRead.valid o then Some o else None).
Proof.
  split.
  - intros e c. destruct c as [? ? d ? ? ? ? i m p l t ? ? ? ?].
    unfold CourseRead.init, CourseRead.valid,
      Pydantic.required, Pydantic.optional, Pydantic.defaulted.
    cbn. rewrite as_list_strs. destruct d, i, m, l, t; cbn; valid_chain.
  - intros e o. destruct o as [? ? w d c ec fy ads ? ? ?].
    unfold OrganizationRead.init, OrganizationRead.valid,
      Pydantic.required, Pydantic.optional, Pydantic.defaulted.
    cbn. rewrite as_addresses_dump. destruct w, d, c, ec, fy; cbn; valid_chain.
Qed.

(** ** Requests, store by store *)

Ltac run_request :=
  unfold after;
  match goal with r : request |- _ => destruct r end;
  cbn [serve]; rewrite snd_fmap;
  rewrite
    ?create_address_run, ?list_addresses_run, ?get_address_run, ?update_address_run,
    ?create_person_run, ?list_persons_run, ?get_person_run, ?update_person_run,
    ?create_organization_run, ?list_organizations_run, ?get_organization_run,
    ?update_organization_run,
    ?create_course_run, ?list_courses_run, ?get_course_run, ?update_course_run;
  unfold dict_mem;
  repeat match goal with
         | |- context [match ?t with Some _ => _ | None => _ end] =>
             let E := fresh "E" in destruct t eqn:E
         | |- context [if ?t then _ else _] =>
             let E := fresh "E" in destruct t eqn:E
         end;
  cbn [snd]; stores.

Lemma after_addresses e r s :
  addresses (after e r s) = addresses s
  \/ (exists a, r = CreateAddress a
        /\ dict_get (AddressCreate.id a) (addresses s) = None
        /\ addresses (after e r s)
           = dict_set (AddressCreate.id a) (Fresh.address e a) (addresses s))
  \/ (exists i u cur v, r = UpdateAddress i u
        /\ dict_get i (addresses s) = Some cur /\ Merge.address cur u = Some v
        /\ addresses (after e r s) = dict_set i v (addresses s)).
Proof.
  run_request; try (left; reflexivity).
  - right; left. eauto.
  - right; right. eauto 10.
Qed.

Lemma after_persons e r s :
  persons (after e r s) = persons s
  \/ (exists p, r = CreatePerson p
        /\ persons (after e r s)
           = dict_set (uuid4 e) (Fresh.person e p) (persons s))
  \/ (exists i u cur v, r = UpdatePerson i u
        /\ dict_get i (persons s) = Some cur /\ Merge.person e cur u = Some v
        /\ persons (after e r s) = dict_set i v (persons s)).
Proof.
  run_request; try (left; reflexivity).
  - right; left. eauto.
  - right; right. eauto 10.
Qed.

Lemma after_organizations e r s :
  organizations (after e r s) = organizations s
  \/ (exists o, r = CreateOrganization o
        /\ OrganizationCreate.valid o = true
        /\ organizations (after e r s)
           = dict_set (uuid4 e) (Fresh.organization e o) (organizations s))
  \/ (exists i u cur v, r = UpdateOrganization i u
        /\ dict_get i (organizations s) = Some cur
        /\ Merge.organization e cur u = Some v
        /\ organizations (after e r s) = dict_set i v (organizations s)).
Proof.
  run_request; try (left; reflexivity).
  - right; left. eauto.
  - right; right. eauto 10.
Qed.

(** ** The invariant of the four stores *)

Lemma keyed_empty {V} (id : V -> UUID) : keyed id [].
Proof. split; [constructor | simpl; tauto]. Qed.

Lemma keyed_set {V} (id : V -> UUID) k v d :
  keyed id d -> id v = k -> keyed id (dict_set k v d).
Proof.
  intros [W I] E. split; [now apply dict_wf_set|].
  intros k' v' H. apply In_dict_set in H. destruct H as [[-> ->]|H]; auto.
Qed.

Lemma keyed_get {V} (id : V -> UUID) k v d :
  keyed id d -> dict_get k d = Some v -> id v = k.
Proof. intros [_ I] G. apply I. now apply dict_get_In. Qed.

Lemma Merge_organization_valid e cur u r :
  Merge.organization e cur u = Some r -> OrganizationRead.valid r = true.
Proof.
  unfold Merge.organization. intros H. invert_merge H.
  unfold OrganizationRead.valid. cbn. subst.
  repeat match goal with H : _ = true |- _ => rewrite H; clear H end.
  reflexivity.
Qed.

Lemma Fresh_organization_valid e o :
  OrganizationCreate.valid o = true ->
  OrganizationRead.valid (Fresh.organization e o) = true.
Proof. intros V. exact V. Qed.

Lemma merged_id_address cur u r :
  Merge.address cur u = Some r -> AddressRead.id r = AddressRead.id cur.
Proof. intros H. apply Merge_address_frame in H. unfold Frame.address in H. tauto. Qed.

Lemma merged_id_person e cur u r :
  Merge.person e cur u = Some r -> PersonRead.id r = PersonRead.id cur.
Proof. intros H. apply Merge_person_frame in H. unfold Frame.person in H. tauto. Qed.

Lemma merged_id_organization e cur u r :
  Merge.organization e cur u = Some r ->
  OrganizationRead.id r = OrganizationRead.id cur.
Proof.
  intros H. apply Merge_organization_frame in H. unfold Frame.organization in H. tauto.
Qed.

Lemma merged_id_course cur u r :
  Merge.course cur u = Some r -> CourseRead.id r = CourseRead.id cur.
Proof. intros H. apply Merge_course_frame in H. unfold Frame.course in H. tauto. Qed.

Lemma reachable_db_inv s : reachable s -> db_inv s.
Proof.
  induction 1 as [|s e r R [Ip Ia Io Iv Ic]].
  - constructor; try apply keyed_empty; [simpl; tauto | exact courses_inv_empty].
  - constructor.
    + destruct (after_persons e r s)
        as [-> | [(p & _ & ->) | (i & u & cur & v & _ & G & H & ->)]]; auto.
      * now apply keyed_set.
      * apply keyed_set; auto.
        rewrite (merged_id_person _ _ _ H). eapply keyed_get; eauto.
    + destruct (after_addresses e r s)
        as [-> | [(a & _ & _ & ->) | (i & u & cur & v & _ & G & H & ->)]]; auto.
      * now apply keyed_set.
      * apply keyed_set; auto.
        rewrite (merged_id_address _ _ H). eapply keyed_get; eauto.
    + destruct (after_organizations e r s)
        as [-> | [(o & _ & _ & ->) | (i & u & cur & v & _ & G & H & ->)]]; auto.
      * now apply keyed_set.
      * apply keyed_set; auto.
        rewrite (merged_id_organization _ _ _ H). eapply keyed_get; eauto.
    + destruct (after_organizations e r s)
        as [-> | [(o & _ & V & ->) | (i & u & cur & v & _ & G & H & ->)]]; auto.
      * intros k o' I. apply In_dict_set in I. destruct I as [[_ ->]|I]; eauto.
      * intros k o' I. apply In_dict_set in I. destruct I as [[_ ->]|I]; eauto.
        eapply Merge_organization_valid; eauto.
    + apply reachable_courses_inv. now constructor.
Qed.

(** ** Reading back what was written *)

Lemma db_eta s :
  mk_db (persons s) (addresses s) (organizations s) (courses s) = s.
Proof. now destruct s. Qed.

Lemma dict_set_same {V} (k : UUID) (v : V) d :
  dict_get k d = Some v -> dict_set k v d = d.
Proof.
  intros G. destruct (dict_set_old k v d G) as (d1 & d2 & E & S & _). congruence.
Qed.

Lemma dict_set_set {V} (k : UUID) (v w : V) d :
  dict_set k w (dict_set k v d) = dict_set k w d.
Proof.
  induction d as [|[k' v'] d IH]; simpl.
  - now rewrite N.eqb_refl.
  - destruct (k =? k')%N eqn:E; simpl; rewrite E; [reflexivity | now rewrite IH].
Qed.

Lemma dict_keys_set {V} (k : UUID) (v : V) d :
  exists t, dict_keys (dict_set k v d) = (dict_keys d ++ t)%list.
Proof.
  destruct (dict_get k d) as [v0|] eqn:G.
  - exists []. rewrite app_nil_r. eapply dict_keys_set_old; eauto.
  - exists [k]. rewrite (dict_set_new k v d G). unfold dict_keys. now rewrite map_app.
Qed.

(** X8. A record a creation returned is the record [get] returns for its
    identifier, in the state the creation left. *)
Theorem created_can_be_got :
  (forall e a s r s',
     create_address e a s = (Ok r, s') -> get_address (AddressRead.id r) s' = (Ok r, s'))
  /\ (forall e p s r s',
        create_person e p s = (Ok r, s') -> get_person (PersonRead.id r) s' = (Ok r, s'))
  /\ (forall e o s r s',
        create_organization e o s = (Ok r, s') ->
        get_organization (OrganizationRead.id r) s' = (Ok r, s'))
  /\ (forall e c s r s',
        create_course e c s = (Ok r, s') -> get_course (CourseRead.id r) s' = (Ok r, s')).
Proof.
  conjs.
  - intros e a s r s' H. apply create_address_ok in H. destruct H as (_ & -> & ->).
    rewrite get_address_run. stores. cbn [Fresh.address AddressRead.id].
    now rewrite dict_get_set_eq.
  - intros e p s r s' H. apply create_person_ok in H. destruct H as (-> & ->).
    rewrite get_person_run. stores. cbn [Fresh.person PersonRead.id].
    now rewrite dict_get_set_eq.
  - intros e o s r s' H. apply create_organization_ok in H. destruct H as (-> & ->).
    rewrite get_organization_run. stores. cbn [Fresh.organization OrganizationRead.id].
    now rewrite dict_get_set_eq.
  - intros e c s r s' H. apply create_course_ok in H. destruct H as (_ & -> & ->).
    rewrite get_course_run. stores. cbn [Fresh.course CourseRead.id].
    now rewrite dict_get_set_eq.
Qed.

(** X9. A request writes at most the store of its own resource type: the
    three other stores are as they were, and a [get] or a [list] leaves the
    whole state as it was, also when it raises. *)
Theorem request_writes_own_store e (r : request) s :
  (target r <> Some PersonStore -> persons (after e r s) = persons s)
  /\ (target r <> Some AddressStore -> addresses (after e r s) = addresses s)
  /\ (target r <> Some OrganizationStore ->
      organizations (after e r s) = organizations s)
  /\ (target r <> Some CourseStore -> courses (after e r s) = courses s)
  /\ (target r = None -> after e r s = s).
Proof.
  conjs.
  - intros T. destruct (after_persons e r s)
      as [E | [(p & -> & _) | (i & u & cur & v & -> & _)]]; [exact E | |]; now destruct T.
  - intros T. destruct (after_addresses e r s)
      as [E | [(p & -> & _) | (i & u & cur & v & -> & _)]]; [exact E | |]; now destruct T.
  - intros T. destruct (after_organizations e r s)
      as [E | [(p & -> & _) | (i & u & cur & v & -> & _)]]; [exact E | |]; now destruct T.
  - intros T. destruct (after_courses e r s)
      as [E | [(p & -> & _) | (i & u & cur & v & -> & _)]]; [exact E | |]; now destruct T.
  - intros T. destruct r; try discriminate T; unfold after; cbn [serve];
      rewrite snd_fmap;
      rewrite ?list_addresses_run, ?get_address_run, ?list_persons_run, ?get_person_run,
        ?list_organizations_run, ?get_organization_run, ?list_courses_run,
        ?get_course_run;
      try reflexivity; now destruct (dict_get _ _).
Qed.

(** What one request does to the identifiers of the stores. *)
Lemma after_keys e r s :
  (exists t, dict_keys (persons (after e r s)) = (dict_keys (persons s) ++ t)%list)
  /\ (exists t, dict_keys (addresses (after e r s)) = (dict_keys (addresses s) ++ t)%list)
  /\ (exists t, dict_keys (organizations (after e r s))
                = (dict_keys (organizations s) ++ t)%list)
  /\ (exists t, dict_keys (courses (after e r s)) = (dict_keys (courses s) ++ t)%list).
Proof.
  conjs.
  - destruct (after_persons e r s)
      as [-> | [(p & _ & ->) | (i & u & cur & v & _ & _ & _ & ->)]];
      [exists []; now rewrite app_nil_r | apply dict_keys_set ..].
  - destruct (after_addresses e r s)
      as [-> | [(p & _ & _ & ->) | (i & u & cur & v & _ & _ & _ & ->)]];
      [exists []; now rewrite app_nil_r | apply dict_keys_set ..].
  - destruct (after_organizations e r s)
      as [-> | [(p & _ & _ & ->) | (i & u & cur & v & _ & _ & _ & ->)]];
      [exists []; now rewrite app_nil_r | apply dict_keys_set ..].
  - destruct (after_courses e r s)
      as [-> | [(p & _ & _ & _ & ->) | (i & u & cur & v & _ & _ & _ & _ & ->)]];
      [exists []; now rewrite app_nil_r | apply dict_keys_set ..].
Qed.

(** X10. No request removes a record: whatever requests follow, the
    identifiers a store holds stay, in the order they have, and those
    that are added come after them. *)
Theorem stores_only_grow s (l : list (Env * request)) :
  (exists t, dict_keys (persons (continue s l)) = (dict_keys (persons s) ++ t)%list)
  /\ (exists t, dict_keys (addresses (continue s l))
                = (dict_keys (addresses s) ++ t)%list)
  /\ (exists t, dict_keys (organizations (continue s l))
                = (dict_keys (organizations s) ++ t)%list)
  /\ (exists t, dict_keys (courses (continue s l))
                = (dict_keys (courses s) ++ t)%list).
Proof.
  revert s. induction l as [|[e r] l IH]; intros s.
  - conjs; exists []; now rewrite app_nil_r.
  - unfold continue in *. simpl.
    destruct (IH (after e r s)) as ((tp & Ep) & (ta & Ea) & (to & Eo) & (tc & Ec)).
    destruct (after_keys e r s) as ((tp' & Ep') & (ta' & Ea') & (to' & Eo') & (tc' & Ec')).
    rewrite Ep, Ea, Eo, Ec, Ep', Ea', Eo', Ec'.
    conjs; eexists; now rewrite <- app_assoc.
Qed.

(** X11. In every reachable state, the record [get] returns for an
    identifier carries that identifier, for each of the four resource
    types. *)
Theorem got_under_own_id s :
  reachable s ->
  (forall i r s', get_address i s = (Ok r, s') -> AddressRead.id r = i)
  /\ (forall i r s', get_person i s = (Ok r, s') -> PersonRead.id r = i)
  /\ (forall i r s', get_organization i s = (Ok r, s') -> OrganizationRead.id r = i)
  /\ (forall i r s', get_course i s = (Ok r, s') -> CourseRead.id r = i).
Proof.
  intros R. destruct (reachable_db_inv R) as [Ip Ia Io _ Ic]. conjs; intros i r s'.
  - rewrite get_address_run. destruct (dict_get i (addresses s)) eqn:G; [|discriminate].
    intros [= <- _]. eapply keyed_get; eauto.
  - rewrite get_person_run. destruct (dict_get i (persons s)) eqn:G; [|discriminate].
    intros [= <- _]. eapply keyed_get; eauto.
  - rewrite get_organization_run.
    destruct (dict_get i (organizations s)) eqn:G; [|discriminate].
    intros [= <- _]. eapply keyed_get; eauto.
  - rewrite get_course_run. destruct (dict_get i (courses s)) eqn:G; [|discriminate].
    intros [= <- _]. eapply inv_id; eauto. now apply dict_get_In.
Qed.

(** X12. Whatever the payloads of the requests, every Course and every
    Organization a reachable store holds obeys the constraints of its
    model: the validating constructor stands before every write. *)
Theorem stored_records_valid (l : list (Env * request)) :
  Forall (fun c => CourseRead.valid c = true) (dict_values (courses (replay l)))
  /\ Forall (fun o => OrganizationRead.valid o = true)
            (dict_values (organizations (replay l))).
Proof.
  pose proof (reachable_db_inv (replay_reachable l)) as [_ _ _ Iv Ic].
  split; apply Forall_forall; intros x I; apply in_map_iff in I;
    destruct I as ([k x'] & <- & I); simpl.
  - eapply inv_valid; eauto.
  - eapply Iv; eauto.
Qed.

(** ** Updates one after the other *)

Lemma check_req_then {T} (ok : T -> bool) (f1 f2 : field (option T)) old x :
  merged f1 (Some old) = Some x -> ok x = true ->
  check_req ok (merged f2 (Some x)) = check_req ok (merged (then_ f1 f2) (Some old)).
Proof.
  intros M O. destruct f2 as [|v]; simpl; [|reflexivity].
  now rewrite M.
Qed.

Lemma check_opt_then {T} (ok : T -> bool) (f1 f2 : field (option T)) old y :
  y = merged f1 old ->
  check_opt ok (merged f2 y) = check_opt ok (merged (then_ f1 f2) old).
Proof. intros ->. now destruct f2. Qed.

Ltac then_fields :=
  repeat match goal with
         | M : merged ?f1 (Some ?old) = Some ?x, O : ?ok ?x = true
           |- context [check_req ?ok (merged ?f2 (Some ?x))] =>
             rewrite (@check_req_then _ ok f1 f2 old x M O); clear M
         | E : ?y = merged ?f1 ?old |- context [check_opt ?ok (merged ?f2 ?y)] =>
             rewrite (@check_opt_then _ ok f1 f2 old y E); clear E
         end.

Lemma Merge_address_then cur u1 u2 r1 :
  Merge.address cur u1 = Some r1 ->
  Merge.address r1 u2 = Merge.address cur (Then.address u1 u2).
Proof.
  unfold Merge.address. intros H. invert_merge H. cbn. then_fields. reflexivity.
Qed.

(** Addresses that came with their [id] are rebuilt as they are, whatever
    the environment draws. *)
Lemma rebuilt_from_sent e k l :
  forallb AddressBase.id_is_set l = true ->
  AddressBase.rebuilt_from e k l = map AddressBase.instance l.
Proof.
  revert k. induction l as [|a l IH]; intros k; simpl; [reflexivity|].
  intros S. apply andb_prop in S. destruct S as [Sa S].
  unfold AddressBase.rebuilt. now rewrite Sa, (IH _ S).
Qed.

Lemma rebuilt_field_sent e e' f :
  AddressBase.ids_sent f = true ->
  AddressBase.rebuilt_field e f = AddressBase.rebuilt_field e' f.
Proof.
  destruct f as [|[l|]]; simpl; try reflexivity.
  intros S. unfold AddressBase.rebuilt_all. now rewrite !rebuilt_from_sent.
Qed.

Lemma rebuilt_field_then e1 e2 e3 f1 f2 :
  AddressBase.ids_sent f1 = true -> AddressBase.ids_sent f2 = true ->
  AddressBase.rebuilt_field e3 (then_ f1 f2)
  = then_ (AddressBase.rebuilt_field e1 f1) (AddressBase.rebuilt_field e2 f2).
Proof.
  intros S1 S2. destruct f2 as [|[l|]]; simpl.
  - now apply rebuilt_field_sent.
  - f_equal. f_equal. simpl in S2. unfold AddressBase.rebuilt_all.
    now rewrite !rebuilt_from_sent.
  - reflexivity.
Qed.

Lemma Merge_person_then e1 e2 e3 cur u1 u2 r1 :
  AddressBase.ids_sent (PersonUpdate.addresses u1) = true ->
  AddressBase.ids_sent (PersonUpdate.addresses u2) = true ->
  Merge.person e1 cur u1 = Some r1 ->
  Merge.person e2 r1 u2 = Merge.person e3 cur (Then.person u1 u2).
Proof.
  intros S1 S2. unfold Merge.person. intros H. invert_merge H.
  cbn [Then.person PersonUpdate.uni PersonUpdate.first_name PersonUpdate.last_name
       PersonUpdate.email PersonUpdate.phone PersonUpdate.birth_date
       PersonUpdate.addresses PersonRead.uni PersonRead.first_name
       PersonRead.last_name PersonRead.email PersonRead.phone PersonRead.birth_date
       PersonRead.addresses PersonRead.id PersonRead.created_at PersonRead.updated_at].
  rewrite (rebuilt_field_then e1 e2 e3 _ _ S1 S2). then_fields. reflexivity.
Qed.

Lemma Merge_organization_then e1 e2 e3 cur u1 u2 r1 :
  AddressBase.ids_sent (OrganizationUpdate.addresses u1) = true ->
  AddressBase.ids_sent (OrganizationUpdate.addresses u2) = true ->
  Merge.organization e1 cur u1 = Some r1 ->
  Merge.organization e2 r1 u2 = Merge.organization e3 cur (Then.organization u1 u2).
Proof.
  intros S1 S2. unfold Merge.organization. intros H. invert_merge H.
  cbn [Then.organization OrganizationUpdate.name OrganizationUpdate.org_type
       OrganizationUpdate.website OrganizationUpdate.description
       OrganizationUpdate.contact_person_id OrganizationUpdate.employee_count
       OrganizationUpdate.founded_year OrganizationUpdate.addresses
       OrganizationRead.name OrganizationRead.org_type OrganizationRead.website
       OrganizationRead.description OrganizationRead.contact_person_id
       OrganizationRead.employee_count OrganizationRead.founded_year
       OrganizationRead.addresses OrganizationRead.id OrganizationRead.created_at
       OrganizationRead.updated_at].
  rewrite (rebuilt_field_then e1 e2 e3 _ _ S1 S2). then_fields. reflexivity.
Qed.

Lemma Merge_course_then cur u1 u2 r1 :
  Merge.course cur u1 = Some r1 ->
  Merge.course r1 u2 = Merge.course cur (Then.course u1 u2).
Proof.
  unfold Merge.course. intros H. invert_merge H. cbn. then_fields.
  repeat match goal with
         | O : ?b = true |- context [if ?b then _ else _] => rewrite O
         end.
  reflexivity.
Qed.

Lemma then_same {T} (f : field T) : then_ f f = f.
Proof. now destruct f. Qed.

Lemma Then_address_same u : Then.address u u = u.
Proof. destruct u. unfold Then.address. cbn. now rewrite !then_same. Qed.

Lemma Then_person_same u : Then.person u u = u.
Proof. destruct u. unfold Then.person. cbn. now rewrite !then_same. Qed.

Lemma Then_organization_same u : Then.organization u u = u.
Proof. destruct u. unfold Then.organization. cbn. now rewrite !then_same. Qed.

Lemma Then_course_same u : Then.course u u = u.
Proof. destruct u. unfold Then.course. cbn. now rewrite !then_same. Qed.

Lemma Merge_address_nothing cur : Merge.address cur Nothing.address = Some cur.
Proof. now destruct cur. Qed.

Lemma Merge_person_nothing e cur : Merge.person e cur Nothing.person = Some cur.
Proof. destruct cur as [? ? ? ? ph bd ? ? ? ?]. now destruct ph, bd. Qed.

Lemma Merge_organization_nothing e cur :
  OrganizationRead.valid cur = true ->
  Merge.organization e cur Nothing.organization = Some cur.
Proof.
  unfold OrganizationRead.valid, Merge.organization, Nothing.organization.
  intros V. split_valid V. cbn [OrganizationUpdate.name OrganizationUpdate.org_type
    OrganizationUpdate.website OrganizationUpdate.description
    OrganizationUpdate.contact_person_id OrganizationUpdate.employee_count
    OrganizationUpdate.founded_year OrganizationUpdate.addresses].
  rewrite !check_req_merged, !check_opt_merged
    by (assumption || apply opt_ok_always || reflexivity).
  now destruct cur.
Qed.

Lemma Merge_course_nothing cur :
  CourseRead.valid cur = true -> Merge.course cur Nothing.course = Some cur.
Proof.
  unfold CourseRead.valid, Merge.course, Nothing.course.
  intros V. split_valid V. cbn [CourseUpdate.course_code CourseUpdate.title
    CourseUpdate.description CourseUpdate.credits CourseUpdate.semester
    CourseUpdate.year CourseUpdate.department_code CourseUpdate.instructor_id
    CourseUpdate.max_enrollment CourseUpdate.prerequisites CourseUpdate.location
    CourseUpdate.meeting_times].
  rewrite !check_req_merged, !check_opt_merged
    by (assumption || apply opt_ok_always || reflexivity).
  cbn [check_req is_null attr inherit merged].
  match goal with O : Pydantic.ge 0 _ = true |- _ => rewrite O end.
  now destruct cur.
Qed.

Lemma store_unchanged_addresses s : upd addresses_ (addresses s) s = s.
Proof. now destruct s. Qed.
Lemma store_unchanged_persons s : upd persons_ (persons s) s = s.
Proof. now destruct s. Qed.
Lemma store_unchanged_organizations s : upd organizations_ (organizations s) s = s.
Proof. now destruct s. Qed.
Lemma store_unchanged_courses s : upd courses_ (courses s) s = s.
Proof. now destruct s. Qed.

(** X13. An update whose payload sets no field returns the stored record and
    leaves the state as it was, in every reachable state. *)
Theorem empty_update_is_identity e i s :
  reachable s ->
  (forall cur, dict_get i (addresses s) = Some cur ->
               update_address e i Nothing.address s = (Ok cur, s))
  /\ (forall cur, dict_get i (persons s) = Some cur ->
                  update_person e i Nothing.person s = (Ok cur, s))
  /\ (forall cur, dict_get i (organizations s) = Some cur ->
                  update_organization e i Nothing.organization s = (Ok cur, s))
  /\ (forall cur, dict_get i (courses s) = Some cur ->
                  update_course e i Nothing.course s = (Ok cur, s)).
Proof.
  intros R. destruct (reachable_db_inv R) as [_ _ _ Iv Ic]. conjs; intros cur G.
  - rewrite update_address_run, G, Merge_address_nothing, (dict_set_same _ _ G).
    now rewrite store_unchanged_addresses.
  - rewrite update_person_run, G, Merge_person_nothing, (dict_set_same _ _ G).
    now rewrite store_unchanged_persons.
  - rewrite update_organization_run, G, Merge_organization_nothing,
      (dict_set_same _ _ G) by (eapply Iv, dict_get_In, G).
    now rewrite store_unchanged_organizations.
  - rewrite update_course_run, G. cbn [touches_key Nothing.course andb orb is_set
      CourseUpdate.course_code CourseUpdate.semester CourseUpdate.year].
    rewrite Merge_course_nothing, (dict_set_same _ _ G)
      by (eapply (inv_valid Ic), dict_get_In, G).
    now rewrite store_unchanged_courses.
Qed.

Lemma not_taken_by_other d i r :
  courses_inv d -> dict_get i d = Some r ->
  taken_by_other i (offering r) (dict_values d) = false.
Proof.
  intros Inv G. destruct (taken_by_other _ _ _) eqn:T; [|reflexivity].
  apply taken_by_other_spec in T. destruct T as (c & I & N & E).
  unfold dict_values in I. apply in_map_iff in I. destruct I as ([k c'] & <- & I).
  cbn [snd] in *. pose proof (inv_id Inv _ _ I) as Ek.
  exfalso. apply (@courses_inv_distinct d k c' i r Inv I); auto.
  - now apply dict_get_In.
  - congruence.
Qed.

Lemma taken_by_other_set d i cur r key :
  dict_get i d = Some cur -> CourseRead.id cur = i -> CourseRead.id r = i ->
  taken_by_other i key (dict_values (dict_set i r d))
  = taken_by_other i key (dict_values d).
Proof.
  intros G Ec Er. destruct (dict_set_old i r d G) as (d1 & d2 & -> & -> & _).
  unfold taken_by_other, dict_values. rewrite !map_app, !existsb_app. cbn.
  now rewrite Ec, Er, N.eqb_refl.
Qed.

Lemma after_update_course e i u s r s' :
  update_course e i u s = (Ok r, s') -> after e (UpdateCourse i u) s = s'.
Proof. intros H. unfold after. cbn [serve]. now rewrite snd_fmap, H. Qed.

(** X14. Sending an accepted update a second time changes nothing: it
    returns the same record and leaves the state the first one left. For a
    Person and an Organization this is said of the payloads whose embedded
    addresses, if any, all came with their [id]: an address sent without
    one gets a new identifier at each update. *)
Theorem update_twice_is_once e e' i s :
  reachable s ->
  (forall u r s', update_address e i u s = (Ok r, s') ->
                  update_address e' i u s' = (Ok r, s'))
  /\ (forall u r s', AddressBase.ids_sent (PersonUpdate.addresses u) = true ->
                     update_person e i u s = (Ok r, s') ->
                     update_person e' i u s' = (Ok r, s'))
  /\ (forall u r s', AddressBase.ids_sent (OrganizationUpdate.addresses u) = true ->
                     update_organization e i u s = (Ok r, s') ->
                     update_organization e' i u s' = (Ok r, s'))
  /\ (forall u r s', update_course e i u s = (Ok r, s') ->
                     update_course e' i u s' = (Ok r, s')).
Proof.
  intros R. conjs; intros u r s'; [intros H | intros S H | intros S H | intros H].
  - apply update_address_ok in H. destruct H as (cur & G & H & ->).
    rewrite update_address_run. stores. rewrite dict_get_set_eq.
    rewrite (Merge_address_then _ _ u H), Then_address_same, H.
    now rewrite dict_set_set.
  - apply update_person_ok in H. destruct H as (cur & G & H & ->).
    rewrite update_person_run. stores. rewrite dict_get_set_eq.
    rewrite (@Merge_person_then e e' e _ _ u _ S S H), Then_person_same, H.
    now rewrite dict_set_set.
  - apply update_organization_ok in H. destruct H as (cur & G & H & ->).
    rewrite update_organization_run. stores. rewrite dict_get_set_eq.
    rewrite (@Merge_organization_then e e' e _ _ u _ S S H),
      Then_organization_same, H.
    now rewrite dict_set_set.
  - pose proof (after_update_course _ _ _ _ H) as A.
    assert (reachable s') as R' by (rewrite <- A; now constructor).
    apply reachable_courses_inv in R'.
    apply update_course_ok in H. destruct H as (cur & G & H & ->).
    revert R'. rewrite update_course_run. stores. intros Inv.
    rewrite dict_get_set_eq.
    assert (Merge.course r u = Some r) as H'
      by now rewrite (Merge_course_then _ _ u H), Then_course_same.
    rewrite <- (Merge_course_key _ _ H').
    rewrite (@not_taken_by_other _ i r Inv (dict_get_set_eq _ _ _)), andb_false_r, H'.
    now rewrite dict_set_set.
Qed.

(** X15. Two accepted updates of one record, one after the other, leave the
    state and return the record that the single update does whose payload
    holds, field by field, what the second payload sets and otherwise what
    the first one sets. For a Person and an Organization this is said of
    the payloads whose embedded addresses, if any, all came with their
    [id]: the identifier of an address sent without one depends on the
    update that draws it. *)
Theorem updates_compose e1 e2 e3 i s :
  reachable s ->
  (forall u1 u2 r1 s1 r2 s2,
     update_address e1 i u1 s = (Ok r1, s1) ->
     update_address e2 i u2 s1 = (Ok r2, s2) ->
     update_address e3 i (Then.address u1 u2) s = (Ok r2, s2))
  /\ (forall u1 u2 r1 s1 r2 s2,
        AddressBase.ids_sent (PersonUpdate.addresses u1) = true ->
        AddressBase.ids_sent (PersonUpdate.addresses u2) = true ->
        update_person e1 i u1 s = (Ok r1, s1) ->
        update_person e2 i u2 s1 = (Ok r2, s2) ->
        update_person e3 i (Then.person u1 u2) s = (Ok r2, s2))
  /\ (forall u1 u2 r1 s1 r2 s2,
        AddressBase.ids_sent (OrganizationUpdate.addresses u1) = true ->
        AddressBase.ids_sent (OrganizationUpdate.addresses u2) = true ->
        update_organization e1 i u1 s = (Ok r1, s1) ->
        update_organization e2 i u2 s1 = (Ok r2, s2) ->
        update_organization e3 i (Then.organization u1 u2) s = (Ok r2, s2))
  /\ (forall u1 u2 r1 s1 r2 s2,
        update_course e1 i u1 s = (Ok r1, s1) ->
        update_course e2 i u2 s1 = (Ok r2, s2) ->
        update_course e3 i (Then.course u1 u2) s = (Ok r2, s2)).
Proof.
  intros R. conjs; intros u1 u2 r1 s1 r2 s2;
    [intros H1 H2 | intros S1 S2 H1 H2 | intros S1 S2 H1 H2 | intros H1 H2].
  - apply update_address_ok in H1. destruct H1 as (cur & G & H1 & ->).
    apply update_address_ok in H2. destruct H2 as (cur' & G' & H2 & ->).
    revert G'. stores. rewrite dict_get_set_eq. intros [= <-].
    rewrite update_address_run, G, <- (Merge_address_then _ _ u2 H1), H2.
    now rewrite dict_set_set.
  - apply update_person_ok in H1. destruct H1 as (cur & G & H1 & ->).
    apply update_person_ok in H2. destruct H2 as (cur' & G' & H2 & ->).
    revert G'. stores. rewrite dict_get_set_eq. intros [= <-].
    rewrite update_person_run, G,
      <- (@Merge_person_then e1 e2 e3 _ _ u2 _ S1 S2 H1), H2.
    now rewrite dict_set_set.
  - apply update_organization_ok in H1. destruct H1 as (cur & G & H1 & ->).
    apply update_organization_ok in H2. destruct H2 as (cur' & G' & H2 & ->).
    revert G'. stores. rewrite dict_get_set_eq. intros [= <-].
    rewrite update_organization_run, G,
      <- (@Merge_organization_then e1 e2 e3 _ _ u2 _ S1 S2 H1), H2.
    now rewrite dict_set_set.
  - pose proof (reachable_courses_inv R) as Inv.
    pose proof (after_update_course _ _ _ _ H1) as A1.
    pose proof (after_update_course _ _ _ _ H2) as A2.
    assert (reachable s2) as R2 by (rewrite <- A2, <- A1; now do 2 constructor).
    apply reachable_courses_inv in R2.
    apply update_course_ok in H1. destruct H1 as (cur & G & H1 & ->).
    apply update_course_ok in H2. destruct H2 as (cur' & G' & H2 & ->).
    revert G' R2. stores. rewrite dict_get_set_eq, dict_set_set. intros [= <-] Inv2.
    assert (Merge.course cur (Then.course u1 u2) = Some r2) as H
      by now rewrite <- (Merge_course_then _ _ u2 H1).
    pose proof (inv_id Inv _ _ (dict_get_In _ _ G)) as Ec.
    pose proof (merged_id_course _ _ H) as Er. rewrite Ec in Er.
    rewrite update_course_run, G, <- (Merge_course_key _ _ H).
    rewrite <- (@taken_by_other_set _ i cur r2 _ G Ec Er).
    rewrite (@not_taken_by_other _ i r2 Inv2 (dict_get_set_eq _ _ _)), andb_false_r, H.
    reflexivity.
Qed.

Lemma is_null_rebuilt e f : is_null (AddressBase.rebuilt_field e f) = is_null f.
Proof. now destruct f as [|[l|]]. Qed.

Lemma Merge_organization_succeeds e cur u :
  OrganizationRead.valid cur = true -> organization_update_valid u = true ->
  match Merge.organization e cur u with
  | Some _ => organization_nulls_required u = false
  | None => organization_nulls_required u = true
  end.
Proof.
  unfold OrganizationRead.valid, organization_update_valid, Merge.organization,
    organization_nulls_required.
  intros C U. split_valid C. split_valid U.
  rewrite !check_req_merged, !check_opt_merged
    by (assumption || apply opt_ok_always || reflexivity).
  rewrite is_null_rebuilt. cbn.
  repeat match goal with
         | |- context [is_null ?f] => destruct (is_null f); cbn; [reflexivity|]
         end.
  reflexivity.
Qed.

(** X16. The three outcomes of an Organization update whose payload was
    parsed, in a reachable state: an unknown identifier is a 404; a payload
    that sets the name, the type or the addresses to null is a validation
    error; any other payload is accepted, the stored record takes the
    fields the payload sets and keeps the others, an embedded address that
    was sent without an [id] under the identifier drawn during the update.
    The state changes in the last case only. *)
Theorem update_organization_outcome e s i u :
  reachable s -> organization_update_valid u = true ->
  match dict_get i (organizations s) with
  | None =>
      update_organization e i u s
      = (Raise (HTTPException 404 "Organization not found"), s)
  | Some cur =>
      if organization_nulls_required u then
        update_organization e i u s = (Raise ValidationError, s)
      else
        exists r,
          update_organization e i u s
          = (Ok r, upd organizations_ (dict_set i r (organizations s)) s)
          /\ Frame.organization e cur u r
  end.
Proof.
  intros R U. destruct (reachable_db_inv R) as [_ _ _ Iv _].
  rewrite update_organization_run.
  destruct (dict_get i (organizations s)) as [cur|] eqn:G; [|reflexivity].
  assert (OrganizationRead.valid cur = true) as C by (eapply Iv, dict_get_In, G).
  pose proof (Merge_organization_succeeds e cur u C U) as S.
  destruct (Merge.organization e cur u) as [r|] eqn:H; rewrite S; [|reflexivity].
  exists r. split; [reflexivity|]. now apply Merge_organization_frame.
Qed.

Lemma continue_cons s e r l : continue s ((e, r) :: l) = continue (after e r s) l.
Proof. reflexivity. Qed.

Lemma In_keys_app {K} (k : K) l t : In k l -> In k (l ++ t)%list.
Proof. intros I. apply in_or_app. now left. Qed.

Lemma continue_keeps_keys s l :
  (forall k, In k (dict_keys (persons s)) -> In k (dict_keys (persons (continue s l))))
  /\ (forall k, In k (dict_keys (addresses s)) ->
                In k (dict_keys (addresses (continue s l))))
  /\ (forall k, In k (dict_keys (organizations s)) ->
                In k (dict_keys (organizations (continue s l))))
  /\ (forall k, In k (dict_keys (courses s)) ->
                In k (dict_keys (courses (continue s l)))).
Proof.
  revert s. induction l as [|[e r] l IH]; intros s; [conjs; auto|].
  rewrite continue_cons.
  destruct (IH (after e r s)) as (Hp & Ha & Ho & Hc).
  destruct (after_keys e r s) as ((tp & Ep) & (ta & Ea) & (to & Eo) & (tc & Ec)).
  conjs; intros k I.
  - apply Hp. rewrite Ep. now apply In_keys_app.
  - apply Ha. rewrite Ea. now apply In_keys_app.
  - apply Ho. rewrite Eo. now apply In_keys_app.
  - apply Hc. rewrite Ec. now apply In_keys_app.
Qed.

Lemma dict_get_keys {V} (k : UUID) (d : dict UUID V) :
  In k (dict_keys d) <-> exists v, dict_get k d = Some v.
Proof.
  destruct (dict_get k d) as [v|] eqn:G.
  - split; [eauto|]. intros _. eapply In_dict_keys, dict_get_In, G.
  - apply dict_get_None in G. split; [tauto | intros [v F]; discriminate].
Qed.

(** X17. There is no way to remove a record: an identifier [get] answers for
    is answered for after any further requests, whatever they are. *)
Theorem found_stays_found s (l : list (Env * request)) i :
  (forall r s', get_address i s = (Ok r, s') ->
     exists r', get_address i (continue s l) = (Ok r', continue s l))
  /\ (forall r s', get_person i s = (Ok r, s') ->
        exists r', get_person i (continue s l) = (Ok r', continue s l))
  /\ (forall r s', get_organization i s = (Ok r, s') ->
        exists r', get_organization i (continue s l) = (Ok r', continue s l))
  /\ (forall r s', get_course i s = (Ok r, s') ->
        exists r', get_course i (continue s l) = (Ok r', continue s l)).
Proof.
  destruct (continue_keeps_keys s l) as (Hp & Ha & Ho & Hc).
  conjs; intros r s'.
  - rewrite !get_address_run.
    destruct (dict_get i (addresses s)) eqn:G; [|discriminate]. intros _.
    destruct (proj1 (dict_get_keys i _) (Ha i (proj2 (dict_get_keys i _) (ex_intro _ _ G))))
      as [v ->]. eauto.
  - rewrite !get_person_run.
    destruct (dict_get i (persons s)) eqn:G; [|discriminate]. intros _.
    destruct (proj1 (dict_get_keys i _) (Hp i (proj2 (dict_get_keys i _) (ex_intro _ _ G))))
      as [v ->]. eauto.
  - rewrite !get_organization_run.
    destruct (dict_get i (organizations s)) eqn:G; [|discriminate]. intros _.
    destruct (proj1 (dict_get_keys i _) (Ho i (proj2 (dict_get_keys i _) (ex_intro _ _ G))))
      as [v ->]. eauto.
  - rewrite !get_course_run.
    destruct (dict_get i (courses s)) eqn:G; [|discriminate]. intros _.
    destruct (proj1 (dict_get_keys i _) (Hc i (proj2 (dict_get_keys i _) (ex_intro _ _ G))))
      as [v ->]. eauto.
Qed.

(** X18. An Address identifier is used once: after an accepted creation,
    and whatever requests follow, a creation whose payload carries the
    same identifier is refused with status 400 and changes nothing. *)
Theorem address_id_stays_taken e a s r s' (l : list (Env * request)) e' a' :
  create_address e a s = (Ok r, s') ->
  AddressCreate.id a' = AddressCreate.id a ->
  create_address e' a' (continue s' l)
  = (Raise (HTTPException 400 "Address with this ID already exists"), continue s' l).
Proof.
  intros H E. apply create_address_ok in H. destruct H as (_ & -> & ->).
  rewrite create_address_run, E.
  destruct (dict_mem _ _) eqn:M; [reflexivity|].
  exfalso. apply dict_mem_false in M. apply M.
  apply (proj1 (proj2 (continue_keeps_keys _ l))). stores.
  apply dict_get_keys. rewrite dict_get_set_eq. eauto.
Qed.

(** ** Filters of the listings *)

Lemma prefix_spec a b : String.prefix a b = true <-> exists post, b = a ++ post.
Proof.
  revert b. induction a as [|c a IH]; intros b.
  - split; [intros _; exists b; reflexivity | now destruct b].
  - destruct b as [|c' b]; simpl.
    + split; [discriminate | intros [post E]; discriminate].
    + destruct (Ascii.ascii_dec c c') as [->|N].
      * rewrite IH. split; intros [post E]; exists post; congruence.
      * split; [discriminate | intros [post [= E _]]; congruence].
Qed.

Lemma str_in_spec a b : str_in a b = true <-> exists pre post, b = pre ++ a ++ post.
Proof.
  induction b as [|c b IH].
  - cbn [str_in]. destruct (String.prefix a "") eqn:P.
    + apply prefix_spec in P. destruct P as [post E].
      split; [intros _; exists "", post; exact E | reflexivity].
    + split; [discriminate|]. intros (pre & post & E). exfalso.
      destruct pre; [|discriminate]. cbn [append] in E.
      assert (String.prefix a "" = true) by (apply prefix_spec; eauto). congruence.
  - cbn [str_in]. destruct (String.prefix a (String c b)) eqn:P.
    + apply prefix_spec in P. destruct P as [post E].
      split; [intros _; exists "", post; exact E | reflexivity].
    + rewrite IH. split.
      * intros (pre & post & ->). exists (String c pre), post. reflexivity.
      * intros (pre & post & E). destruct pre as [|c' pre].
        -- exfalso. cbn [append] in E.
           assert (String.prefix a (String c b) = true)
             by (apply prefix_spec; eauto). congruence.
        -- injection E as _ ->. eauto.
Qed.

(** X19. The [title] filter of the Course listing and the [name] filter of
    the Organization listing keep exactly the stored records whose
    lower-cased title (name) has the lower-cased parameter as a contiguous
    part, among those the other filters keep. *)
Theorem search_by_title s :
  (forall title course_code department_code semester year instructor_id
          credits min_credits max_credits l s',
     list_courses course_code (Some title) department_code semester year instructor_id
                  credits min_credits max_credits s = (Ok l, s') ->
     forall c,
       In c l <->
       In c (dict_values (courses s))
       /\ (exists pre post, lower (CourseRead.title c) = pre ++ lower title ++ post)
       /\ Matches.course course_code None department_code semester year instructor_id
                         credits min_credits max_credits c = true)
  /\ (forall name org_type founded_year city country contact_person_id l s',
        list_organizations (Some name) org_type founded_year city country
                           contact_person_id s = (Ok l, s') ->
        forall o,
          In o l <->
          In o (dict_values (organizations s))
          /\ (exists pre post, lower (OrganizationRead.name o) = pre ++ lower name ++ post)
          /\ Matches.organization None org_type founded_year city country
                                  contact_person_id o = true).
Proof.
  split.
  - intros title cc dc sem y ins cr lo hi l s'. rewrite list_courses_run.
    intros [= <- _] c. rewrite filter_In, <- str_in_spec.
    unfold Matches.course. cbn [holds]. rewrite !andb_true_iff. tauto.
  - intros name ot fy city country cp l s'. rewrite list_organizations_run.
    intros [= <- _] o. rewrite filter_In, <- str_in_spec.
    unfold Matches.organization. cbn [holds]. rewrite !andb_true_iff. tauto.
Qed.

Lemma filter_none {A} (f : A -> bool) l :
  (forall x, In x l -> f x = false) -> filter f l = [].
Proof.
  induction l as [|x l IH]; simpl; intros F; [reflexivity|].
  rewrite (F x) by auto. apply IH. auto.
Qed.

Lemma filter_same {A} (f g : A -> bool) l :
  (forall x, In x l -> f x = g x) -> filter f l = filter g l.
Proof.
  induction l as [|x l IH]; simpl; intros F; [reflexivity|].
  rewrite (F x), IH by auto. reflexivity.
Qed.

Lemma reachable_course_valid s c :
  reachable s -> In c (dict_values (courses s)) -> CourseRead.valid c = true.
Proof.
  intros R I. apply in_map_iff in I. destruct I as ([k c'] & <- & I).
  eapply (inv_valid (reachable_courses_inv R)), I.
Qed.

Lemma reachable_organization_valid s o :
  reachable s -> In o (dict_values (organizations s)) -> OrganizationRead.valid o = true.
Proof.
  intros R I. apply in_map_iff in I. destruct I as ([k o'] & <- & I).
  eapply (inv_organizations_valid (reachable_db_inv R)), I.
Qed.

Lemma credits_ok_bounds q :
  CourseTypes.credits_ok q = true -> (0 <= q)%Q /\ (q <= 10)%Q.
Proof.
  unfold CourseTypes.credits_ok, Pydantic.dec_ge, Pydantic.dec_le.
  rewrite !andb_true_iff, !Qle_bool_iff. tauto.
Qed.

(** X20. The credit bounds of the Course listing are inclusive; bounds that
    cross give the empty list; and, since every stored course has between
    0 and 10 credits, bounds that contain this range filter nothing. *)
Theorem credit_bounds s course_code title department_code semester year instructor_id
    credits lo hi l s' :
  reachable s ->
  list_courses course_code title department_code semester year instructor_id
               credits (Some lo) (Some hi) s = (Ok l, s') ->
  (forall c, In c l -> (lo <= CourseRead.credits c)%Q /\ (CourseRead.credits c <= hi)%Q)
  /\ ((hi < lo)%Q -> l = [])
  /\ ((lo <= 0)%Q -> (10 <= hi)%Q ->
      list_courses course_code title department_code semester year instructor_id
                   credits None None s = (Ok l, s')).
Proof.
  intros R. rewrite !list_courses_run. intros [= <- <-].
  assert (forall c, Matches.course course_code title department_code semester year
                      instructor_id credits (Some lo) (Some hi) c = true ->
                    (lo <= CourseRead.credits c)%Q /\ (CourseRead.credits c <= hi)%Q) as B.
  { intros c. unfold Matches.course. cbn [holds].
    rewrite !andb_true_iff, !Qle_bool_iff. tauto. }
  conjs.
  - intros c I. apply filter_In in I. now apply B.
  - intros X. apply filter_none. intros c _.
    destruct (Matches.course _ _ _ _ _ _ _ _ _ c) eqn:M; [|reflexivity].
    exfalso. destruct (B c M) as [L U].
    apply (Qlt_irrefl hi). eapply Qlt_le_trans; [exact X|]. eapply Qle_trans; eauto.
  - intros L U. do 2 f_equal. apply filter_same. intros c I.
    apply (@reachable_course_valid s c R) in I. unfold CourseRead.valid in I. split_valid I.
    match goal with O : CourseTypes.credits_ok _ = true |- _ =>
      apply credits_ok_bounds in O; destruct O as [O1 O2] end.
    unfold Matches.course. cbn [holds].
    assert (Qle_bool lo (CourseRead.credits c) = true) as ->
      by (apply Qle_bool_iff; eapply Qle_trans; eauto).
    assert (Qle_bool (CourseRead.credits c) hi = true) as ->
      by (apply Qle_bool_iff; eapply Qle_trans; eauto).
    now rewrite !andb_true_r.
Qed.

Ltac no_match :=
  repeat (rewrite ?andb_false_r; cbn [andb]); reflexivity.

(** X21. No stored record lies outside the domain of its fields, so in a
    reachable state a listing filtered by a course code, a semester, a
    year, a department code or an organization type that the models do
    not admit is empty, whatever the other filters are. *)
Theorem no_record_outside_domain s :
  reachable s ->
  (forall code title department_code semester year instructor_id credits lo hi,
     CourseTypes.CourseCodeType code = false ->
     list_courses (Some code) title department_code semester year instructor_id
                  credits lo hi s = (Ok [], s))
  /\ (forall course_code title department_code semester year instructor_id credits lo hi,
        CourseTypes.SemesterType semester = false ->
        list_courses course_code title department_code (Some semester) year instructor_id
                     credits lo hi s = (Ok [], s))
  /\ (forall course_code title department_code semester year instructor_id credits lo hi,
        year < 2020 \/ 2040 < year ->
        list_courses course_code title department_code semester (Some year) instructor_id
                     credits lo hi s = (Ok [], s))
  /\ (forall course_code title code semester year instructor_id credits lo hi,
        CourseTypes.DepartmentCodeType code = false ->
        list_courses course_code title (Some code) semester year instructor_id
                     credits lo hi s = (Ok [], s))
  /\ (forall name org_type founded_year city country contact_person_id,
        OrganizationTypes.OrgTypeType org_type = false ->
        list_organizations name (Some org_type) founded_year city country
                           contact_person_id s = (Ok [], s)).
Proof.
  intros R. conjs.
  - intros code t d sem y ins cr lo hi N. rewrite list_courses_run. do 2 f_equal.
    apply filter_none. intros c I.
    apply (@reachable_course_valid s c R) in I. unfold CourseRead.valid in I. split_valid I.
    unfold Matches.course. cbn [holds].
    destruct (String.eqb_spec (CourseRead.course_code c) code) as [E|_]; [congruence|].
    no_match.
  - intros cc t d sem y ins cr lo hi N. rewrite list_courses_run. do 2 f_equal.
    apply filter_none. intros c I.
    apply (@reachable_course_valid s c R) in I. unfold CourseRead.valid in I. split_valid I.
    unfold Matches.course. cbn [holds].
    destruct (String.eqb_spec (CourseRead.semester c) sem) as [E|_]; [congruence|].
    no_match.
  - intros cc t d sem y ins cr lo hi N. rewrite list_courses_run. do 2 f_equal.
    apply filter_none. intros c I.
    apply (@reachable_course_valid s c R) in I. unfold CourseRead.valid in I. split_valid I.
    unfold Matches.course. cbn [holds].
    destruct (Z.eqb_spec (CourseRead.year c) y) as [E|_]; [|no_match].
    exfalso.
    match goal with O : CourseTypes.year_ok _ = true |- _ =>
      unfold CourseTypes.year_ok, Pydantic.ge, Pydantic.le in O;
      apply andb_prop in O; destruct O as [O1 O2];
      apply Z.leb_le in O1, O2 end.
    lia.
  - intros cc t code sem y ins cr lo hi N. rewrite list_courses_run. do 2 f_equal.
    apply filter_none. intros c I.
    apply (@reachable_course_valid s c R) in I. unfold CourseRead.valid in I. split_valid I.
    unfold Matches.course. cbn [holds].
    destruct (String.eqb_spec (CourseRead.department_code c) code) as [E|_]; [congruence|].
    no_match.
  - intros name ot fy city country cp N. rewrite list_organizations_run. do 2 f_equal.
    apply filter_none. intros o I.
    apply (@reachable_organization_valid s o R) in I.
    unfold OrganizationRead.valid in I. split_valid I.
    unfold Matches.organization. cbn [holds].
    destruct (String.eqb_spec (OrganizationRead.org_type o) ot) as [E|_]; [congruence|].
    no_match.
Qed.

Lemma filter_key_once {A B} (f : A -> B) (p : A -> bool) (k : B) l :
  NoDup (map f l) -> (forall x, p x = true -> f x = k) ->
  (List.length (filter p l) <= 1)%nat.
Proof.
  intros N P. induction l as [|x l IH]; simpl; [lia|].
  inversion N as [|? ? Nx N']; subst.
  destruct (p x) eqn:E; [|auto].
  rewrite filter_none; [simpl; lia|].
  intros y I. destruct (p y) eqn:Ey; [|reflexivity].
  exfalso. apply Nx. rewrite (P x E), <- (P y Ey). now apply in_map.
Qed.

(** X22. In a reachable state a Course listing filtered by course code,
    semester and year together has at most one course, whatever the other
    filters are. *)
Theorem offering_lookup_unique s code title department_code semester year instructor_id
    credits lo hi l s' :
  reachable s ->
  list_courses (Some code) title department_code (Some semester) (Some year)
               instructor_id credits lo hi s = (Ok l, s') ->
  (List.length l <= 1)%nat.
Proof.
  intros R. rewrite list_courses_run. intros [= <- _].
  apply (@filter_key_once _ _ offering _ (code, semester, year)).
  - exact (inv_unique (reachable_courses_inv R)).
  - intros c. unfold Matches.course, offering. cbn [holds].
    rewrite !andb_true_iff, !String.eqb_eq, Z.eqb_eq. intuition congruence.
Qed.

(** X23. An accepted update that changes the key of a course frees the old
    key: a valid creation with the key the course had is accepted right
    after it. *)
Theorem update_frees_offering e e' i u s cur s0 r s' c :
  reachable s ->
  get_course i s = (Ok cur, s0) ->
  update_course e i u s = (Ok r, s') ->
  offering r <> offering cur ->
  CourseCreate.valid c = true -> offering_of c = offering cur ->
  create_course e' c s'
  = (Ok (Fresh.course e' c),
     upd courses_ (dict_set (uuid4 e') (Fresh.course e' c) (courses s')) s').
Proof.
  intros R G H N V K. pose proof (reachable_courses_inv R) as Inv.
  rewrite get_course_run in G.
  destruct (dict_get i (courses s)) as [cur0|] eqn:G0; [|discriminate].
  injection G as -> _.
  apply update_course_ok in H. destruct H as (cur' & G' & _ & ->).
  rewrite create_course_run, V, K. stores.
  destruct (taken _ _) eqn:T; [exfalso | reflexivity].
  apply taken_spec in T. destruct T as (c0 & I & E).
  destruct (@dict_set_old _ _ _ i r cur (courses s) G0) as (d1 & d2 & S & S' & _).
  rewrite S' in I. pose proof (inv_unique Inv) as U. rewrite S in U.
  unfold dict_values in U, I.
  rewrite map_app in I. cbn [map snd] in I.
  rewrite map_app in U. cbn [map snd] in U. rewrite map_app in U. cbn [map] in U.
  apply NoDup_remove_2 in U. apply in_app_or in I.
  destruct I as [I | [<- | I]].
  - apply U, in_or_app. left. rewrite <- E. now apply in_map.
  - now apply N.
  - apply U, in_or_app. right. rewrite <- E. now apply in_map.
Qed.


End Properties.

(* ===================================================================== *)
(** * Sample runs *)
(* ===================================================================== *)

(** The properties above, at sample payloads and states, with the library
    of the samples. *)
Import Sample.
#[local] Existing Instance Sample.library.

(** ** The model at work *)

Example course_codes :
  map CourseTypes.CourseCodeType
      ["COMS4111"; "COMS4111W"; "MAT1101"; "CO4111"; "COMSCI4111"; "COMS411";
       "COMS41111"; "coms4111"; "COMS4111WW"; ""]
  = [true; true; true; false; false; false; false; false; false; false].
Proof. reflexivity. Qed.

Example semesters :
  map CourseTypes.SemesterType ["Fall"; "Spring"; "Summer"; "Winter"; "fall"; "Falls"]
  = [true; true; true; false; false; false].
Proof. reflexivity. Qed.

Example department_codes :
  map CourseTypes.DepartmentCodeType ["COMS"; "MAT"; "PHYSI"; "CS"; "PHYSIC"; "Coms"]
  = [true; true; true; false; false; false].
Proof. reflexivity. Qed.

Example credit_values :
  map CourseTypes.credits_ok [0 # 1; 3 # 1; 35 # 10; 10 # 1; 355 # 100; 21 # 2; -1 # 1]%Q
  = [true; true; true; true; false; false; false].
Proof. reflexivity. Qed.

Example years :
  map CourseTypes.year_ok [2019; 2020; 2025; 2040; 2041] = [false; true; true; true; false].
Proof. reflexivity. Qed.

Example birth_dates :
  PersonTypes.str_opt_date (Some (mk_date 1999 3 7)) = "1999-03-07"
  /\ PersonTypes.str_opt_date None = "None".
Proof. split; reflexivity. Qed.

Example title_search :
  str_in (lower "data") (lower "Introduction to Databases") = true
  /\ str_in (lower "Base ") (lower "Introduction to Databases") = false.
Proof. split; reflexivity. Qed.

Example second_creation_conflicts :
  fst (create_course e2 coms4111 one_course)
  = Raise (HTTPException 400 "Course COMS4111 already exists for Fall 2025").
Proof. reflexivity. Qed.

Example unknown_course :
  get_course 9%N one_course = (Raise (HTTPException 404 "Course not found"), one_course).
Proof. reflexivity. Qed.

Example created_then_got :
  get_course 1%N one_course = (Ok (Fresh.course e1 coms4111), one_course).
Proof. reflexivity. Qed.

Example address_moved :
  option_map AddressRead.city
    (dict_get 42%N (addresses (snd (update_address e3 42%N move_to_boston one_of_each))))
  = Some "Boston".
Proof. reflexivity. Qed.

Example staff_counted :
  option_map OrganizationRead.employee_count
    (dict_get 1%N
       (organizations (snd (update_organization e3 1%N more_staff one_of_each))))
  = Some (Some 16000).
Proof. reflexivity. Qed.

(** A text of two characters in three bytes, and of fifty-one characters. *)
Example characters_counted :
  Py.len (String (ascii_of_nat 195) (String (ascii_of_nat 169) "a")) = 2%nat
  /\ String.length (String (ascii_of_nat 195) (String (ascii_of_nat 169) "a")) = 3%nat.
Proof. split; reflexivity. Qed.

(** An address sent without an [id] is stored under the identifier drawn
    during the update; one sent with its [id] keeps it. *)
Example address_ids :
  option_map (fun p => map AddressBase.id (PersonRead.addresses p))
    (dict_get 1%N (persons (snd (update_person e3 1%N moved one_of_each))))
  = Some [300%N]
  /\ option_map (fun p => map AddressBase.id (PersonRead.addresses p))
       (dict_get 1%N (persons (snd (update_person e3 1%N moved_to_43 one_of_each))))
     = Some [43%N].
Proof. split; reflexivity. Qed.

(** C2, as the spec states it, fails for Address: [create_address] stores
    the record under the identifier the payload carries, whatever
    [uuid4()] would return, so two payloads get two identifiers from the
    same server state. *)
Lemma address_id_from_payload :
  (exists r s', create_address e1 broadway empty_db = (Ok r, s')
                /\ AddressRead.id r = AddressBase.id broadway
                /\ AddressRead.id r <> uuid4 e1)
  /\ (exists r s', create_address e1 amphitheatre empty_db = (Ok r, s')
                   /\ AddressRead.id r = AddressBase.id amphitheatre
                   /\ AddressRead.id r <> uuid4 e1).
Proof.
  split; eexists _, _; (split; [reflexivity | split; [reflexivity | discriminate]]).
Qed.

Lemma identifiers_assigned_once_witness :
  CourseRead.id (Fresh.course e2 coms4111_next) = uuid4 e2
  /\ exists cur,
       dict_get 42%N (addresses one_of_each) = Some cur
       /\ AddressRead.id (Fresh.address e1 broadway) = AddressRead.id cur
       /\ all_ids (upd addresses_
                     (dict_set 42%N (Fresh.address e1 broadway) (addresses one_of_each))
                     one_of_each)
          = all_ids one_of_each.
Proof.
  destruct identifiers_assigned_once as (_ & _ & Hc & _ & Ha & _).
  split.
  - apply (Hc e2 coms4111_next one_course _
              (upd courses_
                 (dict_set 2%N (Fresh.course e2 coms4111_next) (courses one_course))
                 one_course)).
    reflexivity.
  - apply (Ha e3 42%N (AddressUpdate.mk Unset Unset Unset Unset Unset) one_of_each).
    reflexivity.
Defined.

Lemma create_course_conflict_witness :
  (exists detail,
     create_course e2 coms4111 one_course = (Raise (HTTPException 400 detail), one_course))
  /\ (exists r s',
        create_course e2 coms4111_next one_course = (Ok r, s')
        /\ r = Fresh.course e2 coms4111_next
        /\ offering r = offering_of coms4111_next
        /\ courses s' = dict_set (CourseRead.id r) r (courses one_course)
        /\ dict_get (CourseRead.id r) (courses s') = Some r).
Proof.
  split.
  - apply (proj1 (create_course_conflict (Lib := library) e2 coms4111 one_course)).
    exists (Fresh.course e1 coms4111). split; [vm_compute; tauto | reflexivity].
  - apply (proj2 (create_course_conflict (Lib := library) e2 coms4111_next one_course) eq_refl).
    intros c' [<-|[]]. vm_compute. discriminate.
Defined.

(** C4, as the spec states it, fails: an update that sets a required field
    to null passes the key check (no other stored course has the effective
    key) and yet does not succeed; the constructor of the merged record
    rejects it. *)
Lemma update_course_null_title :
  reachable one_course
  /\ CourseUpdate.valid null_title = true
  /\ dict_get 1%N (courses one_course) = Some (Fresh.course e1 coms4111)
  /\ (forall c, In c (dict_values (courses one_course)) ->
                CourseRead.id c <> 1%N ->
                offering c <> effective_key (Fresh.course e1 coms4111) null_title)
  /\ update_course e2 1%N null_title one_course = (Raise ValidationError, one_course).
Proof.
  conjs; try reflexivity.
  - apply replay_reachable.
  - intros c [<-|[]] N. now destruct N.
Qed.

Lemma update_course_conflict_witness :
  (exists detail,
     update_course e3 1%N (to_year 2026) two_courses
     = (Raise (HTTPException 400 detail), two_courses))
  /\ (exists r,
        update_course e3 1%N (to_year 2027) two_courses
        = (Ok r, upd courses_ (dict_set 1%N r (courses two_courses)) two_courses)
        /\ offering r = ("COMS4111", "Fall", 2027)
        /\ dict_get 1%N (dict_set 1%N r (courses two_courses)) = Some r).
Proof.
  split.
  - apply (proj1 (proj2 (@update_course_conflict library e3 two_courses 1%N (to_year 2026)
                           (Fresh.course e1 coms4111)
                           (replay_reachable _) eq_refl eq_refl))).
    exists (Fresh.course e2 coms4111_next).
    split; [vm_compute; tauto | split; [discriminate | reflexivity]].
  - apply (proj2 (proj2 (@update_course_conflict library e3 two_courses 1%N (to_year 2027)
                           (Fresh.course e1 coms4111)
                           (replay_reachable _) eq_refl eq_refl))).
    intros c [<-|[<-|[]]] N; [now destruct N | discriminate].
Defined.

(** C5, as the spec states it, fails for an embedded address list: an
    address the payload holds without an [id] of the client is stored under
    an identifier drawn during the update, so the stored list is not the
    list of the payload, and one payload on one state leaves two lists
    under two draws. *)
Lemma update_addresses_redrawn :
  OrganizationUpdate.addresses relocated
  = IsSet (Some [AddressBase.mk_parsed
                   (AddressBase.mk 7%N "1600 Amphitheatre Parkway" "Mountain View" "CA"
                                   "94043" "USA") false])
  /\ match update_organization e2 1%N relocated one_of_each with
     | (Ok r, s') =>
         dict_get 1%N (organizations s') = Some r
         /\ OrganizationRead.addresses r
            = [AddressBase.mk 200%N "1600 Amphitheatre Parkway" "Mountain View" "CA"
                              "94043" "USA"]
         /\ OrganizationRead.addresses r
            <> [AddressBase.mk 7%N "1600 Amphitheatre Parkway" "Mountain View" "CA"
                               "94043" "USA"]
     | (Raise _, _) => False
     end
  /\ match update_organization e3 1%N relocated one_of_each with
     | (Ok r, s') =>
         dict_get 1%N (organizations s') = Some r
         /\ OrganizationRead.addresses r
            = [AddressBase.mk 300%N "1600 Amphitheatre Parkway" "Mountain View" "CA"
                              "94043" "USA"]
         /\ OrganizationRead.addresses r
            <> [AddressBase.mk 7%N "1600 Amphitheatre Parkway" "Mountain View" "CA"
                               "94043" "USA"]
     | (Raise _, _) => False
     end.
Proof.
  split; [reflexivity|].
  split; vm_compute; (split; [reflexivity | split; [reflexivity | discriminate]]).
Qed.

Lemma partial_update_frame_witness :
  match update_course e3 1%N retitle two_courses with
  | (Ok r, s') =>
      exists cur, dict_get 1%N (courses two_courses) = Some cur
                  /\ Frame.course cur retitle r
                  /\ dict_get 1%N (courses s') = Some r
  | (Raise _, _) => False
  end
  /\ match update_organization e3 1%N relocated one_of_each with
     | (Ok r, s') =>
         exists cur, dict_get 1%N (organizations one_of_each) = Some cur
                     /\ Frame.organization e3 cur relocated r
                     /\ dict_get 1%N (organizations s') = Some r
     | (Raise _, _) => False
     end.
Proof.
  split.
  - destruct (update_course e3 1%N retitle two_courses) as [[r|x] s'] eqn:H.
    + exact (proj2 (proj2 (proj2 partial_update_frame)) e3 1%N retitle two_courses r s' H).
    + vm_compute in H. discriminate.
  - destruct (update_organization e3 1%N relocated one_of_each) as [[r|x] s'] eqn:H.
    + exact (proj1 (proj2 (proj2 partial_update_frame)) e3 1%N relocated one_of_each
               r s' H).
    + vm_compute in H. discriminate.
Defined.


Lemma persons_by_city_witness :
  exists l,
    list_persons None None None None None None (Some "New York") None one_of_each
    = (Ok l, one_of_each)
    /\ map PersonRead.first_name l = ["Alice"].
Proof.
  destruct (persons_by_city one_of_each "New York") as [(l & H & -> & _) _].
  eexists. split; [exact H | reflexivity].
Defined.

Lemma failure_leaves_stores_witness :
  snd (serve e3 (UpdateCourse 1%N (to_year 2026)) two_courses) = two_courses.
Proof.
  apply (failure_leaves_stores e3 (UpdateCourse 1%N (to_year 2026)) two_courses
           (x := HTTPException 400 "Course COMS4111 already exists for Fall 2026")).
  reflexivity.
Defined.

Lemma update_keeps_timestamps_witness :
  match update_person e3 1%N new_phone one_of_each with
  | (Ok r, s') =>
      exists cur, dict_get 1%N (persons one_of_each) = Some cur
                  /\ dict_get 1%N (persons s') = Some r
                  /\ PersonRead.created_at r = PersonRead.created_at cur
                  /\ PersonRead.updated_at r = PersonRead.updated_at cur
  | (Raise _, _) => False
  end.
Proof.
  destruct (update_person e3 1%N new_phone one_of_each) as [[r|x] s'] eqn:H.
  - exact (proj1 update_keeps_timestamps e3 1%N new_phone one_of_each r s' H).
  - vm_compute in H. discriminate.
Defined.

Local Open Scope string_scope.

(** A code of five letters with a suffix. *)
Example long_course_code :
  Re.fullmatch CourseTypes.course_code_pattern "COMSW4111W" = true
  /\ CourseTypes.CourseCodeType "COMSW4111W" = false
  /\ CourseTypes.CourseCodeType "COMSW4111" = true.
Proof. repeat split. Qed.

Lemma created_can_be_got_witness :
  match create_organization e2 columbia one_course with
  | (Ok r, s') => get_organization (OrganizationRead.id r) s' = (Ok r, s')
  | (Raise _, _) => False
  end.
Proof.
  destruct (create_organization e2 columbia one_course) as [[r|x] s'] eqn:H.
  - exact (proj1 (proj2 (proj2 created_can_be_got)) e2 columbia one_course r s' H).
  - vm_compute in H. discriminate.
Defined.

Lemma request_writes_own_store_witness :
  persons (after e3 (UpdateAddress 42%N move_to_boston) one_of_each)
  = persons one_of_each
  /\ after e3 (GetCourse 9%N) one_of_each = one_of_each.
Proof.
  split.
  - apply (proj1 (request_writes_own_store e3 (UpdateAddress 42%N move_to_boston)
                    one_of_each)).
    discriminate.
  - apply (proj2 (proj2 (proj2 (proj2
             (request_writes_own_store e3 (GetCourse 9%N) one_of_each))))).
    reflexivity.
Defined.

Lemma got_under_own_id_witness :
  match get_person 2%N one_of_each with
  | (Ok r, s') => PersonRead.id r = 2%N
  | (Raise _, _) => False
  end.
Proof.
  destruct (get_person 2%N one_of_each) as [[r|x] s'] eqn:H.
  - exact (proj1 (proj2 (@got_under_own_id library one_of_each (replay_reachable _))) 2%N r s' H).
  - vm_compute in H. discriminate.
Defined.

Lemma empty_update_is_identity_witness :
  update_course e3 2%N Nothing.course two_courses
  = (Ok (Fresh.course e2 coms4111_next), two_courses).
Proof.
  apply (proj2 (proj2 (proj2
           (@empty_update_is_identity library e3 2%N two_courses (replay_reachable _))))).
  reflexivity.
Defined.

Lemma update_twice_is_once_witness :
  match update_course e3 1%N (to_year 2027) two_courses with
  | (Ok r, s') => update_course e1 1%N (to_year 2027) s' = (Ok r, s')
  | (Raise _, _) => False
  end
  /\ match update_organization e3 1%N second_site one_of_each with
     | (Ok r, s') => update_organization e1 1%N second_site s' = (Ok r, s')
     | (Raise _, _) => False
     end.
Proof.
  split.
  - destruct (update_course e3 1%N (to_year 2027) two_courses) as [[r|x] s'] eqn:H.
    + exact (proj2 (proj2 (proj2
        (@update_twice_is_once library e3 e1 1%N two_courses (replay_reachable _)))) _ _ _ H).
    + vm_compute in H. discriminate.
  - destruct (update_organization e3 1%N second_site one_of_each) as [[r|x] s'] eqn:H.
    + exact (proj1 (proj2 (proj2
        (@update_twice_is_once library e3 e1 1%N one_of_each (replay_reachable _))))
        second_site r s' eq_refl H).
    + vm_compute in H. discriminate.
Defined.

Lemma updates_compose_witness :
  match update_course e3 1%N (to_year 2027) two_courses with
  | (Ok r1, s1) =>
      match update_course e1 1%N retitle s1 with
      | (Ok r2, s2) =>
          update_course e2 1%N (Then.course (to_year 2027) retitle) two_courses = (Ok r2, s2)
      | (Raise _, _) => False
      end
  | (Raise _, _) => False
  end
  /\ match update_person e3 1%N moved_to_43 one_of_each with
     | (Ok r1, s1) =>
         match update_person e1 1%N new_phone s1 with
         | (Ok r2, s2) =>
             update_person e2 1%N (Then.person moved_to_43 new_phone) one_of_each
             = (Ok r2, s2)
         | (Raise _, _) => False
         end
     | (Raise _, _) => False
     end.
Proof.
  split.
  - destruct (update_course e3 1%N (to_year 2027) two_courses) as [[r1|x] s1] eqn:H1;
      [|vm_compute in H1; discriminate].
    destruct (update_course e1 1%N retitle s1) as [[r2|x] s2] eqn:H2.
    + exact (proj2 (proj2 (proj2
        (@updates_compose library e3 e1 e2 1%N two_courses (replay_reachable _))))
        _ _ _ _ _ _ H1 H2).
    + vm_compute in H1. injection H1 as <- <-. vm_compute in H2. discriminate.
  - destruct (update_person e3 1%N moved_to_43 one_of_each) as [[r1|x] s1] eqn:H1;
      [|vm_compute in H1; discriminate].
    destruct (update_person e1 1%N new_phone s1) as [[r2|x] s2] eqn:H2.
    + exact (proj1 (proj2
        (@updates_compose library e3 e1 e2 1%N one_of_each (replay_reachable _)))
        moved_to_43 new_phone r1 s1 r2 s2 eq_refl eq_refl H1 H2).
    + vm_compute in H1. injection H1 as <- <-. vm_compute in H2. discriminate.
Defined.

Lemma update_organization_outcome_witness :
  exists r,
    update_organization e3 1%N more_staff one_of_each
    = (Ok r, upd organizations_ (dict_set 1%N r (organizations one_of_each)) one_of_each)
    /\ Frame.organization e3 (Fresh.organization e1 columbia) more_staff r.
Proof.
  exact (@update_organization_outcome library e3 one_of_each 1%N more_staff
           (replay_reachable _) eq_refl).
Defined.

Lemma found_stays_found_witness :
  match get_course 1%N one_course with
  | (Ok r, s') =>
      exists r', get_course 1%N (continue one_course [(e3, UpdateCourse 1%N retitle)])
                 = (Ok r', continue one_course [(e3, UpdateCourse 1%N retitle)])
  | (Raise _, _) => False
  end.
Proof.
  destruct (get_course 1%N one_course) as [[r|x] s'] eqn:H.
  - exact (proj2 (proj2 (proj2
      (found_stays_found one_course [(e3, UpdateCourse 1%N retitle)] 1%N))) _ _ H).
  - vm_compute in H. discriminate.
Defined.

Lemma address_id_stays_taken_witness :
  match create_address e1 broadway one_course with
  | (Ok r, s') =>
      create_address e2 broadway (continue s' [(e3, UpdateAddress 42%N move_to_boston)])
      = (Raise (HTTPException 400 "Address with this ID already exists"),
         continue s' [(e3, UpdateAddress 42%N move_to_boston)])
  | (Raise _, _) => False
  end.
Proof.
  destruct (create_address e1 broadway one_course) as [[r|x] s'] eqn:H.
  - exact (@address_id_stays_taken library e1 broadway one_course r s'
             [(e3, UpdateAddress 42%N move_to_boston)] e2 broadway H eq_refl).
  - vm_compute in H. discriminate.
Defined.

Lemma search_by_title_witness :
  match list_courses None (Some "DATA") None None None None None None None two_courses with
  | (Ok l, s') =>
      In (Fresh.course e1 coms4111) l <->
      In (Fresh.course e1 coms4111) (dict_values (courses two_courses))
      /\ (exists pre post,
            lower (CourseRead.title (Fresh.course e1 coms4111)) = pre ++ lower "DATA" ++ post)
      /\ Matches.course None None None None None None None None None
                        (Fresh.course e1 coms4111) = true
  | (Raise _, _) => False
  end.
Proof.
  destruct (list_courses None (Some "DATA") None None None None None None None two_courses)
    as [[l|x] s'] eqn:H.
  - exact (proj1 (search_by_title two_courses) _ _ _ _ _ _ _ _ _ _ _ H _).
  - vm_compute in H. discriminate.
Defined.

Lemma credit_bounds_witness :
  match list_courses None None None None None None None (Some (0 # 1)%Q) (Some (12 # 1)%Q)
                     two_courses with
  | (Ok l, s') =>
      (forall c, In c l ->
                 ((0 # 1) <= CourseRead.credits c)%Q /\ (CourseRead.credits c <= (12 # 1))%Q)
      /\ (((12 # 1) < (0 # 1))%Q -> l = [])
      /\ (((0 # 1) <= 0)%Q -> (10 <= (12 # 1))%Q ->
          list_courses None None None None None None None None None two_courses
          = (Ok l, s'))
  | (Raise _, _) => False
  end.
Proof.
  destruct (list_courses None None None None None None None (Some (0 # 1)%Q)
              (Some (12 # 1)%Q) two_courses) as [[l|x] s'] eqn:H.
  - exact (@credit_bounds library two_courses None None None None None None None _ _ l s'
             (replay_reachable _) H).
  - vm_compute in H. discriminate.
Defined.

Lemma no_record_outside_domain_witness :
  list_courses None None None (Some "Winter") None None None None None two_courses
  = (Ok [], two_courses).
Proof.
  apply (proj1 (proj2 (@no_record_outside_domain library two_courses (replay_reachable _)))).
  reflexivity.
Defined.

Lemma offering_lookup_unique_witness :
  match list_courses (Some "COMS4111") None None (Some "Fall") (Some 2025) None None
                     None None two_courses with
  | (Ok l, s') => (List.length l <= 1)%nat
  | (Raise _, _) => False
  end.
Proof.
  destruct (list_courses (Some "COMS4111") None None (Some "Fall") (Some 2025) None None
              None None two_courses) as [[l|x] s'] eqn:H.
  - exact (@offering_lookup_unique library two_courses _ _ _ _ _ _ _ _ _ l s'
             (replay_reachable _) H).
  - vm_compute in H. discriminate.
Defined.

Lemma update_frees_offering_witness :
  match update_course e3 1%N (to_year 2027) two_courses with
  | (Ok r, s') =>
      create_course e3 coms4111 s'
      = (Ok (Fresh.course e3 coms4111),
         upd courses_ (dict_set (uuid4 e3) (Fresh.course e3 coms4111) (courses s')) s')
  | (Raise _, _) => False
  end.
Proof.
  destruct (update_course e3 1%N (to_year 2027) two_courses) as [[r|x] s'] eqn:H;
    [|vm_compute in H; discriminate].
  apply (@update_frees_offering library e3 e3 1%N (to_year 2027) two_courses
           (Fresh.course e1 coms4111) two_courses r s' coms4111
           (replay_reachable _) eq_refl H).
  - vm_compute in H. injection H as <- _. vm_compute. discriminate.
  - reflexivity.
  - reflexivity.
Defined.

